(** * RTMPy: handshake packets and negotiators, session hand-over, call
    correlation and the stream registry

    A shallow embedding of the module [rtmpy/protocol/handshake.py]: the
    handshake packet, the base negotiator and its client and server
    subclasses.  The package [rtmpy/protocol/handshake/__init__.py] holds the
    same [Packet], [getPeerPacket], [_writePacket], [dataReceived] and
    [ackReceived] text; it drops the version stage from [_process] and leaves
    [writeAck], [buildSynPayload] and [buildAckPayload] as stubs for a
    protocol module that is not among the sources, so the module is the one
    embedded here.  The session, the call handler and the stream registry,
    of which the sources hold only the tests, are modelled from the
    specification.

    Python objects are records, attribute mutation is explicit state passing
    through a state-and-exception monad (a raised exception keeps the
    mutations made before it, as in Python), exceptions are an enumeration
    with its subclass order, and the observer is the list of calls it
    received. *)

From Stdlib Require Import ZArith List Bool Lia Strings.Byte.
From stdpp Require Import base option list gmap strings.

Import ListNotations.
Local Open Scope Z_scope.

(** ** Exceptions *)

(** The exception classes of [handshake.py] (all under [protocol.BaseError])
    and the built-in ones the byte stream raises. *)
Inductive exn : Type :=
| BaseError
| HandshakeError
| ProtocolVersionError
| ProtocolTooHigh
| ProtocolDegraded
| VerificationError
| TypeError
| OverflowError
| AttributeError
| InsufficientData
| ValueError
| IndexError
| RuntimeError.

#[global] Instance exn_eq_dec : EqDecision exn.
Proof. solve_decision. Defined.

(** The method resolution order of each class: the class, then its bases. *)
Definition mro (e : exn) : list exn :=
  match e with
  | BaseError => [BaseError]
  | HandshakeError => [HandshakeError; BaseError]
  | ProtocolVersionError => [ProtocolVersionError; HandshakeError; BaseError]
  | ProtocolTooHigh =>
      [ProtocolTooHigh; ProtocolVersionError; HandshakeError; BaseError]
  | ProtocolDegraded =>
      [ProtocolDegraded; ProtocolVersionError; HandshakeError; BaseError]
  | VerificationError => [VerificationError; HandshakeError; BaseError]
  | other => [other]
  end.

(** [isinstance e c]: an exception of class [e] is caught by [except c]. *)
Definition isinstance (e c : exn) : bool := bool_decide (c ∈ mro e).

(** ** Python values *)

(** The values a packet attribute holds: [None], an integer or a byte
    string (Python 2 [str]). *)
Inductive value : Type :=
| VNone
| VInt (z : Z)
| VStr (s : list byte).

#[global] Instance byte_eq_dec : EqDecision byte := Byte.byte_eq_dec.

#[global] Instance value_eq_dec : EqDecision value.
Proof. solve_decision. Defined.

(** Truth value testing: [None], [0] and the empty string are false. *)
Definition truthy (v : value) : bool :=
  match v with
  | VNone => false
  | VInt z => negb (z =? 0)
  | VStr s => negb (bool_decide (s = []))
  end.

(** [a or b]. *)
Definition py_or (a b : value) : value := if truthy a then a else b.

(** ** A state and exception monad *)

Inductive result (A : Type) : Type :=
| Ok (a : A)
| Raise (e : exn).
Arguments Ok {A} a.
Arguments Raise {A} e.

Definition Eff (S A : Type) : Type := S -> result A * S.

Definition ret {S A : Type} (a : A) : Eff S A := fun s => (Ok a, s).

Definition bind {S A B : Type} (m : Eff S A) (k : A -> Eff S B) : Eff S B :=
  fun s =>
    match m s with
    | (Ok a, s') => k a s'
    | (Raise e, s') => (Raise e, s')
    end.

Definition raise {S A : Type} (e : exn) : Eff S A := fun s => (Raise e, s).

Definition get {S : Type} : Eff S S := fun s => (Ok s, s).

Definition modify {S : Type} (f : S -> S) : Eff S unit := fun s => (Ok tt, f s).

(** [try: body except: handler(exc)]. *)
Definition try_except {S A : Type} (body : Eff S A) (handler : exn -> Eff S A)
  : Eff S A :=
  fun s =>
    match body s with
    | (Ok a, s') => (Ok a, s')
    | (Raise e, s') => handler e s'
    end.

Declare Scope eff_scope.
Delimit Scope eff_scope with eff.
Notation "x <- m ;; k" := (bind m (fun x => k))
  (at level 20, m at level 99, k at level 200, only parsing) : eff_scope.
Notation "m ;; k" := (bind m (fun _ => k))
  (at level 100, k at level 200, only parsing, right associativity) : eff_scope.
Local Open Scope eff_scope.

(** ** Bytes and network-order integers *)

Definition byte_of_Z (z : Z) : byte :=
  default x00 (Byte.of_N (Z.to_N (Z.land z 255))).

Definition Z_of_byte (b : byte) : Z := Z.of_N (Byte.to_N b).

(** [struct.pack("!L", l)]. *)
Definition pack_ulong (l : Z) : list byte :=
  [ byte_of_Z (Z.shiftr l 24); byte_of_Z (Z.shiftr l 16);
    byte_of_Z (Z.shiftr l 8); byte_of_Z l ].

(** [struct.unpack("!L", s)] for the bytes of [s], most significant first. *)
Definition unpack_be (s : list byte) : Z :=
  fold_left (fun acc b => Z.lor (Z.shiftl acc 8) (Z_of_byte b)) s 0.

(** ** The byte stream *)

(** Modelled from the spec: [util.BufferedByteStream], the buffer class of
    [rtmpy.util] (not under src/).  It is a string buffer with a read/write
    position: writes go at the position and advance it, [append] adds at the
    end and leaves the position alone, [truncate()] empties the buffer,
    [remaining()] is what lies between the position and the end, and a read
    of more than what remains fails ("fails with InsufficientData if fewer
    bytes are available").  [write_uchar] and [write_ulong] take an integer in
    range and write it big-endian on 1 and 4 bytes. *)
Record BufferedByteStream : Type := {
  getvalue : list byte;
  tell : nat
}.

Definition remaining (b : BufferedByteStream) : nat :=
  (length (getvalue b) - tell b)%nat.

Definition truncate : Eff BufferedByteStream unit :=
  fun _ => (Ok tt, {| getvalue := []; tell := 0 |}).

Definition write_bytes (s : list byte) : Eff BufferedByteStream unit :=
  fun b =>
    (Ok tt,
     {| getvalue := firstn (tell b) (getvalue b) ++ s
                    ++ skipn (tell b + length s) (getvalue b);
        tell := (tell b + length s)%nat |}).

Definition write (v : value) : Eff BufferedByteStream unit :=
  match v with
  | VStr s => write_bytes s
  | _ => raise TypeError
  end.

Definition append (data : list byte) : Eff BufferedByteStream unit :=
  fun b => (Ok tt, {| getvalue := getvalue b ++ data; tell := tell b |}).

Definition read (n : nat) : Eff BufferedByteStream (list byte) :=
  fun b =>
    if (remaining b <? n)%nat then (Raise InsufficientData, b)
    else (Ok (firstn n (skipn (tell b) (getvalue b))),
          {| getvalue := getvalue b; tell := (tell b + n)%nat |}).

Definition write_uchar (v : value) : Eff BufferedByteStream unit :=
  match v with
  | VInt c =>
      if (0 <=? c) && (c <=? 255) then write_bytes [byte_of_Z c]
      else raise OverflowError
  | _ => raise TypeError
  end.

Definition write_ulong (v : value) : Eff BufferedByteStream unit :=
  match v with
  | VInt l =>
      if (0 <=? l) && (l <=? 4294967295) then write_bytes (pack_ulong l)
      else raise OverflowError
  | _ => raise TypeError
  end.

Definition read_uchar : Eff BufferedByteStream Z :=
  s <- read 1 ;; ret (unpack_be s).

Definition read_ulong : Eff BufferedByteStream Z :=
  s <- read 4 ;; ret (unpack_be s).

(** The stream with the position moved [k] bytes on, and the bytes not yet
    read. *)
Definition advance (k : nat) (b : BufferedByteStream) : BufferedByteStream :=
  {| getvalue := getvalue b; tell := (tell b + k)%nat |}.

Definition unread (b : BufferedByteStream) : list byte :=
  skipn (tell b) (getvalue b).

(** ** Handshake packets *)

Definition HANDSHAKE_LENGTH : nat := 1536.
Definition RTMP_PROTOCOL_VERSION : Z := 3.
Definition MAX_PROTOCOL_VERSION : Z := 31.

Record Packet : Type := {
  first : value;
  second : value;
  payload : value;
  timestamp : value
}.

#[global] Instance Packet_eq_dec : EqDecision Packet.
Proof. solve_decision. Defined.

(** The keyword arguments a [Packet] is built from: each attribute is either
    absent or given. *)
Record kwargs : Type := {
  kw_first : option value;
  kw_second : option value;
  kw_payload : option value;
  kw_timestamp : option value
}.

Definition no_kwargs : kwargs :=
  {| kw_first := None; kw_second := None; kw_payload := None;
     kw_timestamp := None |}.

(** [Packet.__init__]; [now] is what [int(time.time())] returns.  The class
    attributes ([None]) show through for the keys [kwargs] lacks. *)
Definition Packet_init (now : Z) (kw : kwargs) : Packet :=
  let timestamp := default VNone (kw_timestamp kw) in
  let kw_timestamp' :=
    if negb (truthy timestamp) then Some (VInt now) else kw_timestamp kw in
  {| first := default VNone (kw_first kw);
     second := default VNone (kw_second kw);
     payload := default VNone (kw_payload kw);
     timestamp := default VNone kw_timestamp' |}.

(** [Packet.encode]. *)
Definition Packet_encode (self : Packet) : Eff BufferedByteStream unit :=
  write_ulong (py_or (first self) (VInt 0)) ;;
  write_ulong (py_or (second self) (VInt 0)) ;;
  write (payload self).

(** [Packet.decode]: the packet with the three attributes it assigns. *)
Definition Packet_decode (self : Packet) : Eff BufferedByteStream Packet :=
  f <- read_ulong ;;
  s <- read_ulong ;;
  p <- read (HANDSHAKE_LENGTH - 8) ;;
  ret {| first := VInt f; second := VInt s; payload := VStr p;
         timestamp := timestamp self |}.

(** The packet [Packet.decode] reads from the next 1536 unread bytes of
    [b], into a packet whose timestamp is [ts]. *)
Definition decoded (b : BufferedByteStream) (ts : value) : Packet :=
  {| first := VInt (unpack_be (firstn 4 (unread b)));
     second := VInt (unpack_be (firstn 4 (skipn 4 (unread b))));
     payload := VStr (firstn (HANDSHAKE_LENGTH - 8) (skipn 8 (unread b)));
     timestamp := ts |}.

(** The integer [write_ulong] accepts for an attribute: [attribute or 0]
    must be an integer of 32 bits. *)
Definition ulong_of (v : value) : option Z :=
  match py_or v (VInt 0) with
  | VInt l => if (0 <=? l) && (l <=? 4294967295) then Some l else None
  | _ => None
  end.

(** A fresh stream, and a stream holding [s] with the position at its start. *)
Definition empty_stream : BufferedByteStream := {| getvalue := []; tell := 0 |}.
Definition stream_of (s : list byte) : BufferedByteStream :=
  {| getvalue := s; tell := 0 |}.

(** ** The world outside the negotiator: the clock and the random source *)

(** [time.time] and [util.generateBytes] are not under src/: they are
    parameters of the model.  [clock w i] is what the [i]-th call of
    [int(time.time())] returns and [entropy w i n] what the [i]-th call of
    [util.generateBytes(n)] returns; [ticks] and [draws] count the calls made
    so far. *)
Record World : Type := {
  clock : nat -> Z;
  ticks : nat;
  entropy : nat -> nat -> list byte;
  draws : nat
}.

(** The world after one more reading of the clock, and after one more
    draw of random bytes. *)
Definition tick (w : World) : World :=
  {| clock := clock w; ticks := S (ticks w);
     entropy := entropy w; draws := draws w |}.

Definition draw (w : World) : World :=
  {| clock := clock w; ticks := ticks w;
     entropy := entropy w; draws := S (draws w) |}.

(** [int(time.time())]. *)
Definition time_time : Eff World Z :=
  fun w => (Ok (clock w (ticks w)), tick w).

(** [util.generateBytes(n)]. *)
Definition generateBytes (n : nat) : Eff World (list byte) :=
  fun w => (Ok (entropy w (draws w) n), draw w).

(** [Packet(...)]: the constructor call, reading the clock only when
    [__init__] does. *)
Definition Packet_new (kw : kwargs) : Eff World Packet :=
  if negb (truthy (default VNone (kw_timestamp kw)))
  then now <- time_time ;; ret (Packet_init now kw)
  else ret (Packet_init 0 kw).

(** ** The negotiators *)

(** The calls an [IHandshakeObserver] receives. *)
Inductive Event : Type :=
| ObsWrite (data : list byte)
| ObsHandshakeSuccess
| ObsHandshakeFailure (e : exn).

#[global] Instance Event_eq_dec : EqDecision Event.
Proof. solve_decision. Defined.

(** The attributes of a negotiator.  [observer] lists the calls made on the
    observer, oldest first.  An attribute that is [None] here is [None] or
    not yet set in Python; using it raises [AttributeError] either way. *)
Record Negotiator : Type := {
  observer : list Event;
  started : bool;
  buffer : option BufferedByteStream;
  peer_version : option Z;
  my_syn : option Packet;
  my_ack : option Packet;
  peer_syn : option Packet;
  peer_ack : option Packet;
  world : World
}.

Definition set_observer (x : list Event) (n : Negotiator) : Negotiator :=
  {| observer := x; started := started n; buffer := buffer n;
     peer_version := peer_version n; my_syn := my_syn n; my_ack := my_ack n;
     peer_syn := peer_syn n; peer_ack := peer_ack n; world := world n |}.
Definition set_started (x : bool) (n : Negotiator) : Negotiator :=
  {| observer := observer n; started := x; buffer := buffer n;
     peer_version := peer_version n; my_syn := my_syn n; my_ack := my_ack n;
     peer_syn := peer_syn n; peer_ack := peer_ack n; world := world n |}.
Definition set_buffer (x : option BufferedByteStream) (n : Negotiator)
  : Negotiator :=
  {| observer := observer n; started := started n; buffer := x;
     peer_version := peer_version n; my_syn := my_syn n; my_ack := my_ack n;
     peer_syn := peer_syn n; peer_ack := peer_ack n; world := world n |}.
Definition set_peer_version (x : option Z) (n : Negotiator) : Negotiator :=
  {| observer := observer n; started := started n; buffer := buffer n;
     peer_version := x; my_syn := my_syn n; my_ack := my_ack n;
     peer_syn := peer_syn n; peer_ack := peer_ack n; world := world n |}.
Definition set_my_syn (x : option Packet) (n : Negotiator) : Negotiator :=
  {| observer := observer n; started := started n; buffer := buffer n;
     peer_version := peer_version n; my_syn := x; my_ack := my_ack n;
     peer_syn := peer_syn n; peer_ack := peer_ack n; world := world n |}.
Definition set_my_ack (x : option Packet) (n : Negotiator) : Negotiator :=
  {| observer := observer n; started := started n; buffer := buffer n;
     peer_version := peer_version n; my_syn := my_syn n; my_ack := x;
     peer_syn := peer_syn n; peer_ack := peer_ack n; world := world n |}.
Definition set_peer_syn (x : option Packet) (n : Negotiator) : Negotiator :=
  {| observer := observer n; started := started n; buffer := buffer n;
     peer_version := peer_version n; my_syn := my_syn n; my_ack := my_ack n;
     peer_syn := x; peer_ack := peer_ack n; world := world n |}.
Definition set_peer_ack (x : option Packet) (n : Negotiator) : Negotiator :=
  {| observer := observer n; started := started n; buffer := buffer n;
     peer_version := peer_version n; my_syn := my_syn n; my_ack := my_ack n;
     peer_syn := peer_syn n; peer_ack := x; world := world n |}.
Definition set_world (x : World) (n : Negotiator) : Negotiator :=
  {| observer := observer n; started := started n; buffer := buffer n;
     peer_version := peer_version n; my_syn := my_syn n; my_ack := my_ack n;
     peer_syn := peer_syn n; peer_ack := peer_ack n; world := x |}.

Definition set_payload (x : value) (p : Packet) : Packet :=
  {| first := first p; second := second p; payload := x;
     timestamp := timestamp p |}.

(** [BaseNegotiator.__init__]. *)
Definition BaseNegotiator_init (w : World) : Negotiator :=
  {| observer := []; started := false; buffer := None; peer_version := None;
     my_syn := None; my_ack := None; peer_syn := None; peer_ack := None;
     world := w |}.

(** Running a stream operation on [self.buffer]. *)
Definition with_buffer {A : Type} (m : Eff BufferedByteStream A)
  : Eff Negotiator A :=
  fun n =>
    match buffer n with
    | None => (Raise AttributeError, n)
    | Some b => let (r, b') := m b in (r, set_buffer (Some b') n)
    end.

(** Running an operation of the world (clock, random source). *)
Definition with_world {A : Type} (m : Eff World A) : Eff Negotiator A :=
  fun n => let (r, w') := m (world n) in (r, set_world w' n).

(** Reading an attribute of an object held in an attribute. *)
Definition attr {A : Type} (o : option A) : Eff Negotiator A :=
  match o with
  | Some a => ret a
  | None => raise AttributeError
  end.

(** The observer's three methods: each call is recorded. *)
Definition observer_call (e : Event) : Eff Negotiator unit :=
  modify (fun n => set_observer (observer n ++ [e]) n).

(** The attribute a packet argument is read from: [generate_payload]
    mutates the packet object in place, so the caller's attribute sees it. *)
Inductive PacketRef : Type := Ref_my_syn | Ref_my_ack.

Definition deref (r : PacketRef) (n : Negotiator) : option Packet :=
  match r with
  | Ref_my_syn => my_syn n
  | Ref_my_ack => my_ack n
  end.

Definition assign (r : PacketRef) (p : Packet) : Negotiator -> Negotiator :=
  match r with
  | Ref_my_syn => set_my_syn (Some p)
  | Ref_my_ack => set_my_ack (Some p)
  end.

(** [generate_payload(packet)]. *)
Definition generate_payload (packet : PacketRef) : Eff Negotiator unit :=
  bytes <- with_world (generateBytes (HANDSHAKE_LENGTH - 8)) ;;
  n <- get ;;
  p <- attr (deref packet n) ;;
  modify (assign packet (set_payload (VStr bytes) p)).

Definition buildSynPayload := generate_payload.
Definition buildAckPayload := generate_payload.

Definition protocolVersion : Z := RTMP_PROTOCOL_VERSION.

(** [BaseNegotiator.start]. *)
Definition BaseNegotiator_start (uptime version : value) : Eff Negotiator unit :=
  n <- get ;;
  (if started n then raise HandshakeError else ret tt) ;;
  modify (set_started true) ;;
  modify (set_buffer (Some empty_stream)) ;;
  modify (set_peer_version None) ;;
  p <- with_world
         (Packet_new {| kw_first := Some uptime; kw_second := Some version;
                        kw_payload := None; kw_timestamp := None |}) ;;
  modify (set_my_syn (Some p)) ;;
  modify (set_my_ack None) ;;
  modify (set_peer_syn None) ;;
  modify (set_peer_ack None).

(** [BaseNegotiator.getPeerPacket]. *)
Definition getPeerPacket : Eff Negotiator (option Packet) :=
  r <- with_buffer (b <- get ;; ret (remaining b)) ;;
  if (r <? HANDSHAKE_LENGTH)%nat then ret None
  else
    packet <- with_world (Packet_new no_kwargs) ;;
    packet' <- with_buffer (Packet_decode packet) ;;
    ret (Some packet').

(** [BaseNegotiator._writePacket]. *)
Definition _writePacket (packet : PacketRef) : Eff Negotiator unit :=
  n <- get ;;
  p <- attr (deref packet n) ;;
  with_buffer (Packet_encode p) ;;
  data <- with_buffer (b <- get ;; ret (getvalue b)) ;;
  with_buffer truncate ;;
  observer_call (ObsWrite data).

(** [BaseNegotiator.writeVersionAndSyn]. *)
Definition writeVersionAndSyn : Eff Negotiator unit :=
  with_buffer truncate ;;
  with_buffer (write_uchar (VInt protocolVersion)) ;;
  _writePacket Ref_my_syn.

(** [BaseNegotiator.writeAck]. *)
Definition writeAck : Eff Negotiator unit :=
  buildAckPayload Ref_my_ack ;;
  with_buffer truncate ;;
  _writePacket Ref_my_ack.

(** Python 2 ordering of an attribute that is [None] or an integer against
    an integer: [None] is below every integer. *)
Definition py_gt (a : option Z) (b : Z) : bool :=
  match a with
  | Some x => b <? x
  | None => false
  end.

Definition py_lt (a : option Z) (b : Z) : bool :=
  match a with
  | Some x => x <? b
  | None => true
  end.

(** [BaseNegotiator.versionReceived]. *)
Definition BaseNegotiator_versionReceived : Eff Negotiator unit :=
  n <- get ;;
  if bool_decide (peer_version n = Some protocolVersion) then ret tt
  else if py_gt (peer_version n) MAX_PROTOCOL_VERSION
       then raise ProtocolVersionError
  else if py_gt (peer_version n) protocolVersion
       then raise ProtocolTooHigh
  else ret tt.

(** The methods a negotiator class overrides. *)
Record NegotiatorClass : Type := {
  start : value -> value -> Eff Negotiator unit;
  versionReceived : Eff Negotiator unit;
  synReceived : Eff Negotiator unit;
  ackReceived : Eff Negotiator unit
}.

(** [ClientNegotiator.start]. *)
Definition ClientNegotiator_start (uptime version : value)
  : Eff Negotiator unit :=
  BaseNegotiator_start uptime version ;;
  buildSynPayload Ref_my_syn ;;
  writeVersionAndSyn.

(** [ClientNegotiator.versionReceived].  The message of [ProtocolDegraded]
    is built with ['%d' % self.peer_version]: when the peer version is
    [None] the formatting itself raises [TypeError]. *)
Definition ClientNegotiator_versionReceived : Eff Negotiator unit :=
  BaseNegotiator_versionReceived ;;
  n <- get ;;
  if py_lt (peer_version n) protocolVersion then
    if bool_decide (is_Some (peer_version n)) then raise ProtocolDegraded
    else raise TypeError
  else ret tt.

(** [ClientNegotiator.synReceived]: nothing is done before the ack. *)
Definition ClientNegotiator_synReceived : Eff Negotiator unit := ret tt.

(** [ClientNegotiator.ackReceived]. *)
Definition ClientNegotiator_ackReceived : Eff Negotiator unit :=
  r <- with_buffer (b <- get ;; ret (remaining b)) ;;
  (if negb (r =? 0)%nat then raise HandshakeError else ret tt) ;;
  n <- get ;;
  pa <- attr (peer_ack n) ;;
  ms <- attr (my_syn n) ;;
  (if negb (bool_decide (first pa = first ms))
   then raise VerificationError else ret tt) ;;
  (if negb (bool_decide (payload pa = payload ms))
   then raise VerificationError else ret tt) ;;
  ps <- attr (peer_syn n) ;;
  p <- with_world
         (Packet_new {| kw_first := Some (first ps);
                        kw_second := Some (timestamp ms);
                        kw_payload := None; kw_timestamp := None |}) ;;
  modify (set_my_ack (Some p)) ;;
  writeAck.

Definition ClientNegotiator : NegotiatorClass :=
  {| start := ClientNegotiator_start;
     versionReceived := ClientNegotiator_versionReceived;
     synReceived := ClientNegotiator_synReceived;
     ackReceived := ClientNegotiator_ackReceived |}.

(** [ServerNegotiator.versionReceived]. *)
Definition ServerNegotiator_versionReceived : Eff Negotiator unit :=
  BaseNegotiator_versionReceived ;;
  buildSynPayload Ref_my_syn ;;
  writeVersionAndSyn.

(** [ServerNegotiator.synReceived]. *)
Definition ServerNegotiator_synReceived : Eff Negotiator unit :=
  n <- get ;;
  ps <- attr (peer_syn n) ;;
  ms <- attr (my_syn n) ;;
  p <- with_world
         (Packet_new {| kw_first := Some (timestamp ps);
                        kw_second := Some (timestamp ms);
                        kw_payload := None; kw_timestamp := None |}) ;;
  modify (set_my_ack (Some p)) ;;
  writeAck.

(** [ServerNegotiator.ackReceived]. *)
Definition ServerNegotiator_ackReceived : Eff Negotiator unit :=
  n <- get ;;
  ms <- attr (my_syn n) ;;
  pa <- attr (peer_ack n) ;;
  (if negb (bool_decide (first ms = first pa))
   then raise VerificationError else ret tt) ;;
  (if negb (bool_decide (payload ms = payload pa))
   then raise VerificationError else ret tt).

Definition ServerNegotiator : NegotiatorClass :=
  {| start := BaseNegotiator_start;
     versionReceived := ServerNegotiator_versionReceived;
     synReceived := ServerNegotiator_synReceived;
     ackReceived := ServerNegotiator_ackReceived |}.

(** [not self.peer_version]: the attribute is [None] or [0]. *)
Definition not_version (v : option Z) : bool :=
  match v with
  | Some x => x =? 0
  | None => true
  end.

(** The three stages of [BaseNegotiator._process]; each answers whether
    the method goes on ([true]) or has returned ([false]). *)
Definition process_version (cls : NegotiatorClass) : Eff Negotiator bool :=
  n <- get ;;
  if not_version (peer_version n) then
    r <- with_buffer (b <- get ;; ret (remaining b)) ;;
    if (r <? 1)%nat then ret false
    else
      v <- with_buffer read_uchar ;;
      modify (set_peer_version (Some v)) ;;
      versionReceived cls ;;
      ret true
  else ret true.

Definition process_syn (cls : NegotiatorClass) : Eff Negotiator bool :=
  n <- get ;;
  if negb (bool_decide (is_Some (peer_syn n))) then
    p <- getPeerPacket ;;
    modify (set_peer_syn p) ;;
    if negb (bool_decide (is_Some p)) then ret false
    else synReceived cls ;; ret true
  else ret true.

Definition process_ack (cls : NegotiatorClass) : Eff Negotiator bool :=
  n <- get ;;
  if negb (bool_decide (is_Some (peer_ack n))) then
    p <- getPeerPacket ;;
    modify (set_peer_ack p) ;;
    if negb (bool_decide (is_Some p)) then ret false
    else ackReceived cls ;; ret true
  else ret true.

(** [BaseNegotiator._process]. *)
Definition _process (cls : NegotiatorClass) : Eff Negotiator unit :=
  go <- process_version cls ;;
  if negb go then ret tt else
  go <- process_syn cls ;;
  if negb go then ret tt else
  go <- process_ack cls ;;
  if negb go then ret tt else
  observer_call ObsHandshakeSuccess.

(** The body of the [try] in [BaseNegotiator.dataReceived]. *)
Definition dataReceived_try (cls : NegotiatorClass) (data : list byte)
  : Eff Negotiator unit :=
  n <- get ;;
  (if negb (started n) then raise HandshakeError else ret tt) ;;
  with_buffer (append data) ;;
  _process cls.

(** [BaseNegotiator.dataReceived]. *)
Definition dataReceived (cls : NegotiatorClass) (data : list byte)
  : Eff Negotiator unit :=
  try_except (dataReceived_try cls data)
             (fun e => observer_call (ObsHandshakeFailure e)).

(** The two negotiator classes, by role. *)
Inductive Role : Type := Client | Server.

Definition negotiator_class (r : Role) : NegotiatorClass :=
  match r with
  | Client => ClientNegotiator
  | Server => ServerNegotiator
  end.

(** The reasons the observer was given through [handshakeFailure], in
    order, among the calls [evs]. *)
Definition failures (evs : list Event) : list exn :=
  omap (fun e => match e with
                 | ObsHandshakeFailure x => Some x
                 | _ => None
                 end) evs.

(** A computation is quiet when it only adds calls to the observer, none
    of them a [handshakeFailure]. *)
Definition quiet {A : Type} (m : Eff Negotiator A) : Prop :=
  forall (n n' : Negotiator) (r : result A),
    m n = (r, n') ->
    exists evs : list Event,
      observer n' = observer n ++ evs /\ failures evs = [].

(** What [ClientNegotiator.versionReceived] does with the peer version [v]. *)
Definition version_outcome (v : Z) : result unit :=
  if v =? RTMP_PROTOCOL_VERSION then Ok tt
  else if MAX_PROTOCOL_VERSION <? v then Raise ProtocolVersionError
  else if RTMP_PROTOCOL_VERSION <? v then Raise ProtocolTooHigh
  else Raise ProtocolDegraded.

(** ** Sample runs *)

(** A world whose clock starts at 1000 and advances by one at each reading,
    and whose [i]-th draw of [n] random bytes is [n] times the byte [i]. *)
Definition sample_world : World :=
  {| clock := fun i => 1000 + Z.of_nat i; ticks := 0;
     entropy := fun i n => repeat (byte_of_Z (Z.of_nat i)) n; draws := 0 |}.

(** The state a run leaves, whatever its result. *)
Definition after {S A : Type} (m : Eff S A) (s : S) : S := snd (m s).

(** A client started with uptime 1 and version 2 in the sample world. *)
Definition started_client : Negotiator :=
  after (start ClientNegotiator (VInt 1) (VInt 2))
        (BaseNegotiator_init sample_world).

(** The wire form of a packet with the given integers and payload. *)
Definition wire (f g : Z) (s : list byte) : list byte :=
  pack_ulong f ++ pack_ulong g ++ s.

(** The client after the server's version byte 3 and a syn with
    [first = 5], [second = 0] and a payload of 1528 bytes [xff]. *)
Definition client_awaiting_ack : Negotiator :=
  after (dataReceived ClientNegotiator
           (x03 :: wire 5 0 (repeat xff (HANDSHAKE_LENGTH - 8))))
        started_client.

(** That client once [_process] has read the peer ack [pa] off the stream
    and is about to call [ackReceived]. *)
Definition client_at_ack (pa : Packet) : Negotiator :=
  set_peer_ack (Some pa) client_awaiting_ack.

(** What [client_awaiting_ack] holds: its stream, read to the end, its syn
    and the peer's syn. *)
Definition sample_stream : BufferedByteStream :=
  {| getvalue := x03 :: wire 5 0 (repeat xff (HANDSHAKE_LENGTH - 8));
     tell := S HANDSHAKE_LENGTH |}.

Definition sample_my_syn : Packet :=
  {| first := VInt 1; second := VInt 2;
     payload := VStr (repeat x00 (HANDSHAKE_LENGTH - 8));
     timestamp := VInt 1000 |}.

Definition sample_peer_syn : Packet :=
  {| first := VInt 5; second := VInt 0;
     payload := VStr (repeat xff (HANDSHAKE_LENGTH - 8));
     timestamp := VInt 1001 |}.

(** An ack that echoes the client's syn, and one with another [first]. *)
Definition echo_ack : Packet :=
  {| first := VInt 1; second := VInt 0;
     payload := VStr (repeat x00 (HANDSHAKE_LENGTH - 8));
     timestamp := VInt 1002 |}.

Definition wrong_ack : Packet :=
  {| first := VInt 9; second := VInt 0;
     payload := VStr (repeat x00 (HANDSHAKE_LENGTH - 8));
     timestamp := VInt 1002 |}.

(** ** The protocol session (the handshake observer) *)

Module Session.

Inductive Phase : Type := HANDSHAKE | STREAM.

(** What the session sees of its negotiator: the bytes it still holds
    ([handshaker.buffer]) and the data passed to its [dataReceived]. *)
Record Handshaker : Type := {
  buffer : list byte;
  handshake_input : list (list byte)
}.

(** A stream decoder: the data passed to its [dataReceived], in order. *)
Record Decoder : Type := {
  stream_input : list (list byte);
  decoder_paused : bool
}.

Record Encoder : Type := {
  encoder_paused : bool
}.

Record BaseProtocol : Type := {
  state : option Phase;
  handshaker : option Handshaker;
  decoder : option Decoder;
  encoder : option Encoder
}.

(** [codec.Decoder(...)] and [codec.Encoder(...)]: fresh, nothing fed. *)
Definition new_Decoder : Decoder :=
  {| stream_input := []; decoder_paused := false |}.
Definition new_Encoder : Encoder := {| encoder_paused := false |}.

(** Modelled from the spec: [BaseProtocol.decodeHandshake] of [rtmpy.rtmp]
    (not under src/): "While in HANDSHAKE, all received bytes are routed to
    the Handshake Negotiator". *)
Definition decodeHandshake (data : list byte) : Eff BaseProtocol unit :=
  fun p =>
    match handshaker p with
    | None => (Raise AttributeError, p)
    | Some h =>
        (Ok tt,
         {| state := state p;
            handshaker :=
              Some {| buffer := buffer h;
                      handshake_input := handshake_input h ++ [data] |};
            decoder := decoder p; encoder := encoder p |})
    end.

(** Modelled from the spec: [BaseProtocol.decodeStream] of [rtmpy.rtmp]
    (not under src/): "While in STREAMING, bytes route to the Chunk
    Codec". *)
Definition decodeStream (data : list byte) : Eff BaseProtocol unit :=
  fun p =>
    match decoder p with
    | None => (Raise AttributeError, p)
    | Some d =>
        (Ok tt,
         {| state := state p; handshaker := handshaker p;
            decoder :=
              Some {| stream_input := stream_input d ++ [data];
                      decoder_paused := decoder_paused d |};
            encoder := encoder p |})
    end.

(** Modelled from the spec: [BaseProtocol.dataReceived] of [rtmpy.rtmp]
    (not under src/): the two phases route as above and "any state value
    other than the two defined is a fatal internal-consistency error". *)
Definition dataReceived (data : list byte) : Eff BaseProtocol unit :=
  fun p =>
    match state p with
    | Some HANDSHAKE => decodeHandshake data p
    | Some STREAM => decodeStream data p
    | None => (Raise RuntimeError, p)
    end.

(** Modelled from the spec: [BaseProtocol.handshakeSuccess] of [rtmpy.rtmp]
    (not under src/): "On handshakeSuccess, the coordinator atomically
    constructs the Chunk Codec, discards the negotiator, and transitions to
    STREAMING; any bytes the negotiator held beyond the handshake boundary
    are immediately replayed into the new decoder" (the test
    [test_handshake_overflow] sees them arrive through [dataReceived]). *)
Definition handshakeSuccess : Eff BaseProtocol unit :=
  p <- get ;;
  h <- match handshaker p with
       | Some h => ret h
       | None => raise AttributeError
       end ;;
  modify (fun _ =>
    {| state := Some STREAM; handshaker := None;
       decoder := Some new_Decoder; encoder := Some new_Encoder |}) ;;
  dataReceived (buffer h).

(** Every byte the decoder was given, in arrival order. *)
Definition decoded_bytes (p : BaseProtocol) : list byte :=
  match decoder p with
  | Some d => concat (stream_input d)
  | None => []
  end.

End Session.

(** ** Call correlation *)

Module RPC.

(** The state of a result handle (a deferred). *)
Inductive Deferred : Type :=
| Pending
| Resolved (args : list value)
| Rejected (failure : list value).

(** The context [callWithResult] stores: the handle, the method name, the
    original arguments and the command. *)
Record CallContext : Type := {
  resultHandle : nat;
  methodName : string;
  originalArgs : list value;
  command : value
}.

(** The call handler: the pending calls by id, the last id given out, and
    the result handles it created, by handle number. *)
Record CallHandler : Type := {
  activeCalls : gmap Z CallContext;
  lastCallId : Z;
  handles : gmap nat Deferred
}.

Definition new_CallHandler : CallHandler :=
  {| activeCalls := ∅; lastCallId := 0; handles := ∅ |}.

(** Modelled from the spec: [BaseCallHandler.isCallActive] of [rtmpy.rpc]
    (not under src/): "true iff a context is currently stored for id". *)
Definition isCallActive (id : Z) (h : CallHandler) : bool :=
  bool_decide (is_Some (activeCalls h !! id)).

(** Modelled from the spec: [BaseCallHandler.getNextCallId] of [rtmpy.rpc]
    (not under src/): "monotonic counter, starts at 1". *)
Definition getNextCallId (h : CallHandler) : Z := lastCallId h + 1.

(** Modelled from the spec: [BaseCallHandler.initiateCall] of [rtmpy.rpc]
    (not under src/): "allocates the next id, stores the full call context
    keyed by id, returns the id". *)
Definition initiateCall (ctx : CallContext) (h : CallHandler)
  : Z * CallHandler :=
  let id := getNextCallId h in
  (id, {| activeCalls := <[id := ctx]> (activeCalls h); lastCallId := id;
          handles := handles h |}).

(** Modelled from the spec: [BaseCallHandler.finishCall] of [rtmpy.rpc]
    (not under src/): "atomically removes and returns the stored context,
    or none if id was not active". *)
Definition finishCall (id : Z) (h : CallHandler)
  : option CallContext * CallHandler :=
  (activeCalls h !! id,
   {| activeCalls := delete id (activeCalls h); lastCallId := lastCallId h;
      handles := handles h |}).

(** Settling a result handle. *)
Definition settle (d : nat) (v : Deferred) (h : CallHandler) : CallHandler :=
  {| activeCalls := activeCalls h; lastCallId := lastCallId h;
     handles := <[d := v]> (handles h) |}.

(** Modelled from the spec: [AbstractCallInitiator.callWithResult] of
    [rtmpy.rpc] (not under src/), without the send: "allocates an id via
    initiateCall, builds a result-handle ..., and stores (resultHandle,
    name, args, command) as the context". *)
Definition callWithResult (name : string) (args : list value) (cmd : value)
    (h : CallHandler) : nat * CallHandler :=
  let d := size (handles h) in
  let h1 := settle d Pending h in
  let '(_, h2) :=
    initiateCall {| resultHandle := d; methodName := name;
                    originalArgs := args; command := cmd |} h1 in
  (d, h2).

(** Modelled from the spec: [AbstractCallInitiator.handleResponse] of
    [rtmpy.rpc] (not under src/): "looks up and finishes the call for id;
    if none is active, the response is silently dropped.  On a recognized
    success kind, resolves the result handle with args.  On a recognized
    error kind, rejects the result handle with a distinguished failure
    value wrapping args.  On any unrecognized kind, the call is still
    finished but the result handle is left unresolved".  The two recognized
    kinds are ["_result"] and ["_error"], as the tests send them. *)
Definition handleResponse (responseKind : string) (id : Z)
    (args : list value) (cmd : value) (h : CallHandler) : CallHandler :=
  let '(ctx, h') := finishCall id h in
  match ctx with
  | None => h'
  | Some c =>
      if bool_decide (responseKind = "_result"%string)
      then settle (resultHandle c) (Resolved args) h'
      else if bool_decide (responseKind = "_error"%string)
      then settle (resultHandle c) (Rejected args) h'
      else h'
  end.

End RPC.

(** ** The stream registry of the chunk codec *)

Module Codec.

Definition MAX_STREAMS : Z := 65535.

(** An object offered as a stream: its identity and whether
    [IStream.providedBy] holds of it. *)
Record Handle : Type := {
  identity : nat;
  provides_IStream : bool
}.

Record BaseCodec : Type := {
  streams : gmap Z Handle
}.

(** Modelled from the spec: [BaseCodec.registerStream] of [rtmpy.rtmp.codec]
    (not under src/): "fails with a range error if id is outside
    [0, 65535], a type error if handle does not satisfy the expected stream
    capability set, and an already-registered error if id is currently
    occupied".  The tests name the three errors [ValueError], [TypeError]
    and [IndexError], and show the range check coming before the type
    check. *)
Definition registerStream (streamId : Z) (stream : Handle)
  : Eff BaseCodec unit :=
  c <- get ;;
  if (streamId <? 0) || (MAX_STREAMS <? streamId) then raise ValueError
  else if negb (provides_IStream stream) then raise TypeError
  else if bool_decide (is_Some (streams c !! streamId)) then raise IndexError
  else modify (fun c => {| streams := <[streamId := stream]> (streams c) |}).

End Codec.

(** ** The negotiators: streams, outcomes and further sample runs *)

(** A server started with uptime 1 and version 2 in the sample world, the
    same server after the client's version byte 3, and after a client syn
    with [first = 7] and a payload of 1528 bytes [xff]. *)
Definition started_server : Negotiator :=
  after (start ServerNegotiator (VInt 1) (VInt 2))
        (BaseNegotiator_init sample_world).

Definition server_awaiting_syn : Negotiator :=
  after (dataReceived ServerNegotiator [x03]) started_server.

Definition server_awaiting_ack : Negotiator :=
  after (dataReceived ServerNegotiator
           (wire 7 0 (repeat xff (HANDSHAKE_LENGTH - 8))))
        server_awaiting_syn.

(** The stream [b] once [data] has been appended to it. *)
Definition appended (data : list byte) (b : BufferedByteStream)
  : BufferedByteStream :=
  {| getvalue := getvalue b ++ data; tell := tell b |}.

(** What [BaseNegotiator.versionReceived] does with the peer version [v]:
    it lets every version up to the local one through. *)
Definition base_version_outcome (v : Z) : result unit :=
  if v =? RTMP_PROTOCOL_VERSION then Ok tt
  else if MAX_PROTOCOL_VERSION <? v then Raise ProtocolVersionError
  else if RTMP_PROTOCOL_VERSION <? v then Raise ProtocolTooHigh
  else Ok tt.

(** A client started without an uptime ([None]) in the sample world, after
    the server's version byte 3 and a syn. *)
Definition client_without_uptime : Negotiator :=
  after (dataReceived ClientNegotiator
           (x03 :: wire 5 0 (repeat xff (HANDSHAKE_LENGTH - 8))))
        (after (start ClientNegotiator VNone (VInt 2))
               (BaseNegotiator_init sample_world)).

(** The sample client after an ack that echoes its syn: its handshake is
    over. *)
Definition client_done : Negotiator :=
  after (dataReceived ClientNegotiator
           (wire 1 0 (repeat x00 (HANDSHAKE_LENGTH - 8))))
        client_awaiting_ack.

(** ** What one call may tell the observer *)

(** A computation is silent when it calls nothing on the observer. *)
Definition silent {A : Type} (m : Eff Negotiator A) : Prop :=
  forall (n n' : Negotiator) (r : result A),
    m n = (r, n') -> observer n' = observer n.

(** A computation writes last when a run that returns has made exactly one
    call on the observer, a [write], and left the buffer empty, and a run
    that raises has made none. *)
Definition writes_last {A : Type} (m : Eff Negotiator A) : Prop :=
  forall (n n' : Negotiator) (r : result A),
    m n = (r, n') ->
    match r with
    | Raise _ => observer n' = observer n
    | Ok _ =>
        exists data : list byte,
          observer n' = observer n ++ [ObsWrite data] /\
          buffer n' = Some empty_stream
    end.

(** A computation writes at most once when a run has either called nothing
    on the observer, or returned after exactly one call, a [write], leaving
    the buffer empty. *)
Definition writes_at_most_once {A : Type} (m : Eff Negotiator A) : Prop :=
  forall (n n' : Negotiator) (r : result A),
    m n = (r, n') ->
    observer n' = observer n \/
    exists (a : A) (data : list byte),
      r = Ok a /\
      observer n' = observer n ++ [ObsWrite data] /\
      buffer n' = Some empty_stream.

(** A computation idles on an empty buffer when, run on one, it returns,
    calls nothing on the observer and leaves the buffer empty. *)
Definition idles_on_empty {A : Type} (m : Eff Negotiator A) : Prop :=
  forall (n n' : Negotiator) (r : result A),
    buffer n = Some empty_stream ->
    m n = (r, n') ->
    (exists a : A, r = Ok a) /\
    observer n' = observer n /\
    buffer n' = Some empty_stream.

(** The calls one [dataReceived] may make on the observer: nothing, one
    [write], [handshakeSuccess], one [write] and then [handshakeSuccess], or
    one [handshakeFailure]. *)
Definition call_shape (evs : list Event) : Prop :=
  evs = [] \/
  (exists data : list byte, evs = [ObsWrite data]) \/
  evs = [ObsHandshakeSuccess] \/
  (exists data : list byte, evs = [ObsWrite data; ObsHandshakeSuccess]) \/
  (exists e : exn, evs = [ObsHandshakeFailure e]).

(** The calls a run of the body of the [try] of [dataReceived] may make:
    none when it raises; when it returns, a call shape without failure. *)
Definition try_shape (r : result unit) (evs : list Event) : Prop :=
  match r with
  | Raise _ => evs = []
  | Ok _ =>
      evs = [] \/
      (exists data : list byte, evs = [ObsWrite data]) \/
      evs = [ObsHandshakeSuccess] \/
      (exists data : list byte, evs = [ObsWrite data; ObsHandshakeSuccess])
  end.

Definition shaped (m : Eff Negotiator unit) : Prop :=
  forall (n n' : Negotiator) (r : result unit),
    m n = (r, n') ->
    exists evs : list Event,
      observer n' = observer n ++ evs /\ try_shape r evs.

(** ** What one call keeps of the negotiator *)

(** A computation keeps [started] and, among [peer_version], [peer_syn] and
    [peer_ack], the attributes selected by [pv], [ps] and [pa]. *)
Definition keeps (pv ps pa : bool) {A : Type} (m : Eff Negotiator A)
  : Prop :=
  forall (n n' : Negotiator) (r : result A),
    m n = (r, n') ->
    started n' = started n /\
    (pv = true -> peer_version n' = peer_version n) /\
    (ps = true -> peer_syn n' = peer_syn n) /\
    (pa = true -> peer_ack n' = peer_ack n).

(** From [n] to [n'] no stage of the handshake is undone or redone: the
    negotiator is started as before, and a peer version, a peer syn or a
    peer ack that was there is still the same. *)
Definition progress (n n' : Negotiator) : Prop :=
  started n' = started n /\
  (not_version (peer_version n) = false ->
   peer_version n' = peer_version n) /\
  (is_Some (peer_syn n) -> peer_syn n' = peer_syn n) /\
  (is_Some (peer_ack n) -> peer_ack n' = peer_ack n).

Definition advances {A : Type} (m : Eff Negotiator A) : Prop :=
  forall (n n' : Negotiator) (r : result A),
    m n = (r, n') -> progress n n'.

(** ** An observer whose methods may raise *)

(** Above, a call on the observer is recorded and returns.  In
    [dataReceived] the calls of [write] and [handshakeSuccess] are made
    inside the [try], and the call of [handshakeFailure] inside the
    [except]: what the negotiator does when one of them raises is part of
    the code.  Here the negotiators are embedded again, over an observer
    that answers each call by returning or by raising. *)
Module Raising.

(** [obs evs e] is what the observer does with the call [e] that follows
    the calls [evs]: [None] when the method returns, [Some x] when it raises
    [x]. *)
Definition Observer : Type := list Event -> Event -> option exn.

Section Negotiators.

Variable obs : Observer.

(** A call of a method of the observer: it is recorded, then it returns or
    raises. *)
Definition observer_call (e : Event) : Eff Negotiator unit :=
  fun n =>
    let n' := set_observer (observer n ++ [e]) n in
    match obs (observer n) e with
    | Some x => (Raise x, n')
    | None => (Ok tt, n')
    end.

(** [BaseNegotiator._writePacket]. *)
Definition _writePacket (packet : PacketRef) : Eff Negotiator unit :=
  n <- get ;;
  p <- attr (deref packet n) ;;
  with_buffer (Packet_encode p) ;;
  data <- with_buffer (b <- get ;; ret (getvalue b)) ;;
  with_buffer truncate ;;
  observer_call (ObsWrite data).

(** [BaseNegotiator.writeVersionAndSyn]. *)
Definition writeVersionAndSyn : Eff Negotiator unit :=
  with_buffer truncate ;;
  with_buffer (write_uchar (VInt protocolVersion)) ;;
  _writePacket Ref_my_syn.

(** [BaseNegotiator.writeAck]. *)
Definition writeAck : Eff Negotiator unit :=
  buildAckPayload Ref_my_ack ;;
  with_buffer truncate ;;
  _writePacket Ref_my_ack.

(** [ClientNegotiator.start]. *)
Definition ClientNegotiator_start (uptime version : value)
  : Eff Negotiator unit :=
  BaseNegotiator_start uptime version ;;
  buildSynPayload Ref_my_syn ;;
  writeVersionAndSyn.

(** [ClientNegotiator.ackReceived]. *)
Definition ClientNegotiator_ackReceived : Eff Negotiator unit :=
  r <- with_buffer (b <- get ;; ret (remaining b)) ;;
  (if negb (r =? 0)%nat then raise HandshakeError else ret tt) ;;
  n <- get ;;
  pa <- attr (peer_ack n) ;;
  ms <- attr (my_syn n) ;;
  (if negb (bool_decide (first pa = first ms))
   then raise VerificationError else ret tt) ;;
  (if negb (bool_decide (payload pa = payload ms))
   then raise VerificationError else ret tt) ;;
  ps <- attr (peer_syn n) ;;
  p <- with_world
         (Packet_new {| kw_first := Some (first ps);
                        kw_second := Some (timestamp ms);
                        kw_payload := None; kw_timestamp := None |}) ;;
  modify (set_my_ack (Some p)) ;;
  writeAck.

Definition ClientNegotiator : NegotiatorClass :=
  {| start := ClientNegotiator_start;
     versionReceived := ClientNegotiator_versionReceived;
     synReceived := ClientNegotiator_synReceived;
     ackReceived := ClientNegotiator_ackReceived |}.

(** [ServerNegotiator.versionReceived]. *)
Definition ServerNegotiator_versionReceived : Eff Negotiator unit :=
  BaseNegotiator_versionReceived ;;
  buildSynPayload Ref_my_syn ;;
  writeVersionAndSyn.

(** [ServerNegotiator.synReceived]. *)
Definition ServerNegotiator_synReceived : Eff Negotiator unit :=
  n <- get ;;
  ps <- attr (peer_syn n) ;;
  ms <- attr (my_syn n) ;;
  p <- with_world
         (Packet_new {| kw_first := Some (timestamp ps);
                        kw_second := Some (timestamp ms);
                        kw_payload := None; kw_timestamp := None |}) ;;
  modify (set_my_ack (Some p)) ;;
  writeAck.

Definition ServerNegotiator : NegotiatorClass :=
  {| start := BaseNegotiator_start;
     versionReceived := ServerNegotiator_versionReceived;
     synReceived := ServerNegotiator_synReceived;
     ackReceived := ServerNegotiator_ackReceived |}.

Definition negotiator_class (r : Role) : NegotiatorClass :=
  match r with
  | Client => ClientNegotiator
  | Server => ServerNegotiator
  end.

(** [BaseNegotiator._process]. *)
Definition _process (cls : NegotiatorClass) : Eff Negotiator unit :=
  go <- process_version cls ;;
  if negb go then ret tt else
  go <- process_syn cls ;;
  if negb go then ret tt else
  go <- process_ack cls ;;
  if negb go then ret tt else
  observer_call ObsHandshakeSuccess.

(** The body of the [try] in [BaseNegotiator.dataReceived]. *)
Definition dataReceived_try (cls : NegotiatorClass) (data : list byte)
  : Eff Negotiator unit :=
  n <- get ;;
  (if negb (started n) then raise HandshakeError else ret tt) ;;
  with_buffer (append data) ;;
  _process cls.

(** [BaseNegotiator.dataReceived]: an exception of the body, those of
    [write] and [handshakeSuccess] included, is handed to
    [handshakeFailure]; one raised by [handshakeFailure] itself goes to the
    caller. *)
Definition dataReceived (cls : NegotiatorClass) (data : list byte)
  : Eff Negotiator unit :=
  try_except (dataReceived_try cls data)
             (fun e => observer_call (ObsHandshakeFailure e)).

End Negotiators.

(** An observer all of whose methods return. *)
Definition returning : Observer := fun _ _ => None.

(** An observer whose [handshakeSuccess] raises [RuntimeError]. *)
Definition failing_success : Observer :=
  fun _ e =>
    match e with
    | ObsHandshakeSuccess => Some RuntimeError
    | _ => None
    end.

End Raising.

(** * Properties *)

(** ** Bytes and network-order integers *)

Lemma byte_of_Z_mod (z : Z) : Z_of_byte (byte_of_Z z) = z mod 256.
Proof.
  unfold Z_of_byte, byte_of_Z.
  change 255 with (Z.ones 8). rewrite Z.land_ones by lia.
  change (2 ^ 8) with 256.
  pose proof (Z.mod_pos_bound z 256 ltac:(lia)) as Hm.
  destruct (Byte.of_N (Z.to_N (z mod 256))) as [b|] eqn:E.
  - apply Byte.to_of_N in E. simpl. rewrite E. lia.
  - apply Byte.of_N_None_iff in E. lia.
Qed.

Lemma lor_shiftl_8 (a b : Z) :
  0 <= a -> 0 <= b < 256 -> Z.lor (Z.shiftl a 8) b = a * 256 + b.
Proof.
  intros Ha Hb.
  assert (Hland : Z.land (Z.shiftl a 8) b = 0).
  { apply Z.bits_inj'. intros n Hn.
    rewrite Z.land_spec, Z.bits_0.
    destruct (Z.lt_ge_cases n 8) as [Hlt|Hge].
    - rewrite Z.shiftl_spec_low by lia. reflexivity.
    - destruct (Z.eq_dec b 0) as [->|Hb0].
      + rewrite Z.bits_0. apply andb_false_r.
      + rewrite (Z.bits_above_log2 b n); [apply andb_false_r | lia |].
        apply Z.log2_lt_pow2; [lia|].
        apply Z.lt_le_trans with (2 ^ 8); [simpl; lia|].
        apply Z.pow_le_mono_r; lia. }
  pose proof (Z.add_lor_land (Z.shiftl a 8) b) as H.
  rewrite Hland, Z.add_0_r in H. rewrite H.
  rewrite Z.shiftl_mul_pow2 by lia. reflexivity.
Qed.

(** Four network-order bytes read back as the integer they were packed
    from. *)
Lemma unpack_pack_ulong (l : Z) :
  0 <= l <= 4294967295 -> unpack_be (pack_ulong l) = l.
Proof.
  intros Hl. unfold unpack_be, pack_ulong. cbn [fold_left].
  rewrite !byte_of_Z_mod, !Z.shiftr_div_pow2 by lia.
  rewrite Z.shiftl_0_l, Z.lor_0_l.
  change (2 ^ 24) with (256 * 256 * 256). change (2 ^ 16) with (256 * 256).
  change (2 ^ 8) with 256.
  rewrite <- !Z.div_div by lia.
  set (a := l / 256). set (b := a / 256). set (c := b / 256).
  assert (Ha : l = a * 256 + l mod 256)
    by (subst a; Z.div_mod_to_equations; lia).
  assert (Hb : a = b * 256 + a mod 256)
    by (subst b; Z.div_mod_to_equations; lia).
  assert (Hc : c mod 256 = c).
  { apply Z.mod_small. subst c b a. Z.div_mod_to_equations. lia. }
  pose proof (Z.mod_pos_bound l 256 ltac:(lia)).
  pose proof (Z.mod_pos_bound a 256 ltac:(lia)).
  pose proof (Z.mod_pos_bound b 256 ltac:(lia)).
  assert (0 <= c) by (subst c b a; Z.div_mod_to_equations; lia).
  assert (Hbc : b = c * 256 + b mod 256)
    by (subst c; Z.div_mod_to_equations; lia).
  rewrite Hc.
  rewrite (lor_shiftl_8 c (b mod 256)) by lia.
  rewrite (lor_shiftl_8 _ (a mod 256)) by lia.
  rewrite (lor_shiftl_8 _ (l mod 256)) by lia. lia.
Qed.

Lemma pack_ulong_length (l : Z) : length (pack_ulong l) = 4%nat.
Proof. reflexivity. Qed.

(** ** The byte stream *)

(** A write at the end of the stream appends. *)
Lemma write_bytes_at_end (s : list byte) (b : BufferedByteStream) :
  tell b = length (getvalue b) ->
  write_bytes s b =
    (Ok tt, {| getvalue := getvalue b ++ s;
               tell := (length (getvalue b) + length s)%nat |}).
Proof.
  intros Ht. unfold write_bytes. rewrite Ht.
  rewrite firstn_all, skipn_all2 by lia.
  rewrite app_nil_r. reflexivity.
Qed.

(** A read of exactly the bytes that follow the position. *)
Lemma read_exact (pre x post : list byte) :
  read (length x) {| getvalue := pre ++ x ++ post; tell := length pre |} =
    (Ok x, {| getvalue := pre ++ x ++ post;
              tell := (length pre + length x)%nat |}).
Proof.
  unfold read, remaining. cbn [getvalue tell].
  rewrite !length_app.
  destruct (Nat.ltb_spec (length pre + (length x + length post) - length pre)
                         (length x)) as [Hlt|Hge]; [lia|].
  rewrite drop_app_length, take_app_length. reflexivity.
Qed.

(** ** Packets *)

Lemma write_ulong_ok (v : value) (l : Z) (b : BufferedByteStream) :
  ulong_of v = Some l ->
  tell b = length (getvalue b) ->
  write_ulong (py_or v (VInt 0)) b =
    (Ok tt, {| getvalue := getvalue b ++ pack_ulong l;
               tell := (length (getvalue b) + 4)%nat |}).
Proof.
  unfold ulong_of, write_ulong. intros Hv Ht.
  destruct (py_or v (VInt 0)) as [|z|]; try discriminate.
  destruct ((0 <=? z) && (z <=? 4294967295)); [|discriminate].
  injection Hv as ->. apply write_bytes_at_end, Ht.
Qed.

(** Encoding at the end of a stream appends the two integers and the
    payload, whatever the length of the payload. *)
Lemma Packet_encode_at_end (p : Packet) (f g : Z) (s : list byte)
    (b : BufferedByteStream) :
  ulong_of (first p) = Some f ->
  ulong_of (second p) = Some g ->
  payload p = VStr s ->
  tell b = length (getvalue b) ->
  Packet_encode p b =
    (Ok tt, {| getvalue := getvalue b ++ pack_ulong f ++ pack_ulong g ++ s;
               tell := (length (getvalue b) + (8 + length s))%nat |}).
Proof.
  intros Hf Hg Hp Ht. unfold Packet_encode, bind.
  rewrite (write_ulong_ok _ f) by assumption.
  rewrite (write_ulong_ok _ g)
    by (try assumption; cbn [getvalue tell]; rewrite length_app; reflexivity).
  rewrite Hp. unfold write. cbn [getvalue tell].
  rewrite write_bytes_at_end
    by (cbn [getvalue tell]; rewrite !length_app; reflexivity).
  cbn [getvalue tell]. rewrite !length_app, <- !app_assoc.
  do 2 f_equal. cbn [length pack_ulong]. lia.
Qed.

(** Decoding a stream whose next 1536 bytes are two integers and a payload
    of 1528 bytes. *)
Lemma Packet_decode_exact (self : Packet) (f g : Z)
    (pre s post : list byte) :
  0 <= f <= 4294967295 ->
  0 <= g <= 4294967295 ->
  length s = (HANDSHAKE_LENGTH - 8)%nat ->
  Packet_decode self
    {| getvalue := pre ++ (pack_ulong f ++ pack_ulong g ++ s) ++ post;
       tell := length pre |} =
    (Ok {| first := VInt f; second := VInt g; payload := VStr s;
           timestamp := timestamp self |},
     {| getvalue := pre ++ (pack_ulong f ++ pack_ulong g ++ s) ++ post;
        tell := (length pre + HANDSHAKE_LENGTH)%nat |}).
Proof.
  intros Hf Hg Hs. unfold Packet_decode, read_ulong, bind, ret.
  rewrite <- !app_assoc.
  change 4%nat with (length (pack_ulong f)) at 1.
  rewrite read_exact.
  rewrite (app_assoc pre (pack_ulong f)).
  replace (length pre + length (pack_ulong f))%nat
    with (length (pre ++ pack_ulong f)) by (rewrite length_app; reflexivity).
  change 4%nat with (length (pack_ulong g)) at 1.
  rewrite read_exact.
  rewrite (app_assoc (pre ++ pack_ulong f) (pack_ulong g)).
  replace (length (pre ++ pack_ulong f) + length (pack_ulong g))%nat
    with (length ((pre ++ pack_ulong f) ++ pack_ulong g))
    by (rewrite !length_app; reflexivity).
  rewrite <- Hs, read_exact.
  rewrite !unpack_pack_ulong by assumption.
  rewrite !length_app, <- !app_assoc, Hs, !pack_ulong_length.
  do 2 f_equal. unfold HANDSHAKE_LENGTH. lia.
Qed.

Lemma ulong_of_Some (v : value) (l : Z) :
  ulong_of v = Some l -> py_or v (VInt 0) = VInt l /\ 0 <= l <= 4294967295.
Proof.
  unfold ulong_of. destruct (py_or v (VInt 0)) as [|z|]; try discriminate.
  destruct (0 <=? z) eqn:E1; destruct (z <=? 4294967295) eqn:E2;
    try discriminate.
  intros [= ->]. split; [reflexivity | lia].
Qed.

(** C3 (amended).  A packet whose [first] and [second] are unset or 32-bit
    integers and whose payload is a byte string encodes, whatever the length
    of the payload, to the two integers in network order followed by the
    payload: [Packet.encode] checks no length.  When the payload has exactly
    1528 bytes, decoding the bytes produced yields a packet with the same
    [first] and [second] (0 where unset) and the same payload, and consumes
    all of them. *)
Theorem Packet_encode_decode_roundtrip
    (p self : Packet) (f g : Z) (s : list byte) :
  ulong_of (first p) = Some f ->
  ulong_of (second p) = Some g ->
  payload p = VStr s ->
  exists out : BufferedByteStream,
    Packet_encode p empty_stream = (Ok tt, out) /\
    getvalue out = pack_ulong f ++ pack_ulong g ++ s /\
    length (getvalue out) = (8 + length s)%nat /\
    (length s = (HANDSHAKE_LENGTH - 8)%nat ->
     exists (q : Packet) (rest : BufferedByteStream),
       Packet_decode self (stream_of (getvalue out)) = (Ok q, rest) /\
       first q = py_or (first p) (VInt 0) /\
       second q = py_or (second p) (VInt 0) /\
       payload q = payload p /\
       remaining rest = 0%nat).
Proof.
  intros Hf Hg Hp.
  destruct (ulong_of_Some _ _ Hf) as [Hf1 Hf2].
  destruct (ulong_of_Some _ _ Hg) as [Hg1 Hg2].
  eexists. split.
  { apply (Packet_encode_at_end p f g s empty_stream); auto. }
  cbn [getvalue empty_stream app]. split; [reflexivity|]. split.
  { rewrite !length_app, !pack_ulong_length. lia. }
  intros Hs.
  pose proof (Packet_decode_exact self f g [] s [] Hf2 Hg2 Hs) as Hd.
  cbn [app length] in Hd. rewrite app_nil_r in Hd.
  unfold stream_of. rewrite Hd.
  do 2 eexists. split; [reflexivity|].
  cbn [first second payload]. rewrite Hf1, Hg1, Hp.
  repeat split. unfold remaining. cbn [getvalue tell].
  rewrite !length_app, !pack_ulong_length, Hs. reflexivity.
Qed.

(** C3, witness: a packet with an unset [first], [second = 7] and a payload
    of 1528 zero bytes. *)
Lemma Packet_encode_decode_roundtrip_witness :
  exists out : BufferedByteStream,
    Packet_encode
      {| first := VNone; second := VInt 7;
         payload := VStr (repeat x00 1528); timestamp := VInt 1 |}
      empty_stream = (Ok tt, out) /\
    getvalue out = pack_ulong 0 ++ pack_ulong 7 ++ repeat x00 1528 /\
    length (getvalue out) = (8 + length (repeat x00 1528))%nat /\
    (length (repeat x00 1528) = (HANDSHAKE_LENGTH - 8)%nat ->
     exists (q : Packet) (rest : BufferedByteStream),
       Packet_decode (Packet_init 5 no_kwargs) (stream_of (getvalue out))
         = (Ok q, rest) /\
       first q = py_or VNone (VInt 0) /\
       second q = py_or (VInt 7) (VInt 0) /\
       payload q = VStr (repeat x00 1528) /\
       remaining rest = 0%nat).
Proof.
  apply (Packet_encode_decode_roundtrip
           {| first := VNone; second := VInt 7;
              payload := VStr (repeat x00 1528); timestamp := VInt 1 |}
           (Packet_init 5 no_kwargs) 0 7 (repeat x00 1528));
    reflexivity.
Defined.

(** C3, counterexample: a packet whose payload has 3 bytes, not 1528,
    encodes without failing, to 11 bytes. *)
Lemma Packet_encode_wrong_length_succeeds :
  length [x0a; x0b; x0c] = 3%nat /\
  Packet_encode
    {| first := VInt 1; second := VInt 2; payload := VStr [x0a; x0b; x0c];
       timestamp := VInt 1 |}
    empty_stream
  = (Ok tt,
     {| getvalue := [x00; x00; x00; x01; x00; x00; x00; x02; x0a; x0b; x0c];
        tell := 11 |}).
Proof. split; reflexivity. Qed.

(** C10.  [Packet(...)] never fails.  A timestamp that is absent or false
    ([None], [0], the empty string) is replaced by the current time
    [int(time.time())], and a true one is kept.  The clock reads 0 only
    during the first second of 1970; at any other time the timestamp of a
    new packet is never 0. *)
Theorem Packet_new_timestamp (kw : kwargs) (w : World) :
  clock w (ticks w) <> 0 ->
  exists (p : Packet) (w' : World),
    Packet_new kw w = (Ok p, w') /\
    (truthy (default VNone (kw_timestamp kw)) = false ->
     timestamp p = VInt (clock w (ticks w)) /\
     p = Packet_init (clock w (ticks w)) kw) /\
    (truthy (default VNone (kw_timestamp kw)) = true ->
     Some (timestamp p) = kw_timestamp kw) /\
    timestamp p <> VInt 0.
Proof.
  intros Hclock. unfold Packet_new, Packet_init.
  destruct (truthy (default VNone (kw_timestamp kw))) eqn:Ht;
    cbn [negb]; unfold bind, time_time, ret; do 2 eexists;
    (split; [reflexivity|]); cbn [timestamp default].
  - split; [discriminate|]. split.
    + intros _. destruct (kw_timestamp kw); [reflexivity | discriminate].
    + intros H0. destruct (kw_timestamp kw) as [v|]; [|discriminate].
      simpl in H0, Ht. rewrite H0 in Ht. discriminate.
  - split; [auto|]. split; [discriminate|].
    intros [= H0]. contradiction.
Qed.

(** C10, witness: in the sample world, whose clock reads 1000, a packet is
    built with an explicit timestamp of 0. *)
Lemma Packet_new_timestamp_witness :
  let kw := {| kw_first := None; kw_second := None; kw_payload := None;
               kw_timestamp := Some (VInt 0) |} in
  exists (p : Packet) (w' : World),
    Packet_new kw sample_world = (Ok p, w') /\
    (truthy (default VNone (kw_timestamp kw)) = false ->
     timestamp p = VInt 1000 /\
     p = Packet_init 1000 kw) /\
    (truthy (default VNone (kw_timestamp kw)) = true ->
     Some (timestamp p) = kw_timestamp kw) /\
    timestamp p <> VInt 0.
Proof.
  apply (Packet_new_timestamp
           {| kw_first := None; kw_second := None; kw_payload := None;
              kw_timestamp := Some (VInt 0) |} sample_world).
  vm_compute. discriminate.
Defined.

(** ** The monad *)

Lemma bind_Ok {S A B : Type} (m : Eff S A) (k : A -> Eff S B)
    (s s' : S) (a : A) :
  m s = (Ok a, s') -> bind m k s = k a s'.
Proof. unfold bind. intros ->. reflexivity. Qed.

Lemma bind_Raise {S A B : Type} (m : Eff S A) (k : A -> Eff S B)
    (s s' : S) (e : exn) :
  m s = (Raise e, s') -> bind m k s = (Raise e, s').
Proof. unfold bind. intros ->. reflexivity. Qed.

(** ** What a negotiator tells its observer *)

Lemma failures_app (a b : list Event) :
  failures (a ++ b) = failures a ++ failures b.
Proof. apply omap_app. Qed.

Lemma quiet_ret {A : Type} (a : A) : quiet (ret a).
Proof.
  intros n n' r [= <- <-]. exists []. rewrite app_nil_r. auto.
Qed.

Lemma quiet_raise {A : Type} (e : exn) : quiet (raise (A:=A) e).
Proof.
  intros n n' r [= <- <-]. exists []. rewrite app_nil_r. auto.
Qed.

Lemma quiet_get : quiet get.
Proof.
  intros n n' r [= <- <-]. exists []. rewrite app_nil_r. auto.
Qed.

Lemma quiet_bind {A B : Type} (m : Eff Negotiator A)
    (k : A -> Eff Negotiator B) :
  quiet m -> (forall a, quiet (k a)) -> quiet (bind m k).
Proof.
  intros Hm Hk n n' r. unfold bind.
  destruct (m n) as [[a|e] n1] eqn:E.
  - intros Hr. destruct (Hm _ _ _ E) as (ev1 & H1 & F1).
    destruct (Hk a _ _ _ Hr) as (ev2 & H2 & F2).
    exists (ev1 ++ ev2). rewrite H2, H1, failures_app, F1, F2, app_assoc.
    auto.
  - intros [= <- <-]. apply (Hm _ _ _ E).
Qed.

Lemma quiet_modify (f : Negotiator -> Negotiator) :
  (forall n, observer (f n) = observer n) -> quiet (modify f).
Proof.
  intros Hf n n' r [= <- <-]. exists []. rewrite app_nil_r, Hf. auto.
Qed.

Lemma quiet_with_buffer {A : Type} (m : Eff BufferedByteStream A) :
  quiet (with_buffer m).
Proof.
  intros n n' r H. unfold with_buffer in H. exists [].
  destruct (buffer n) as [b|]; [destruct (m b) as [r' b']|];
    injection H as <- <-; rewrite app_nil_r; auto.
Qed.

Lemma quiet_with_world {A : Type} (m : Eff World A) : quiet (with_world m).
Proof.
  intros n n' r H. unfold with_world in H. exists [].
  destruct (m (world n)) as [r' w']. injection H as <- <-.
  rewrite app_nil_r; auto.
Qed.

Lemma quiet_attr {A : Type} (o : option A) : quiet (attr o).
Proof. destruct o; [apply quiet_ret | apply quiet_raise]. Qed.

Lemma quiet_write (data : list byte) : quiet (observer_call (ObsWrite data)).
Proof.
  intros n n' r [= <- <-]. exists [ObsWrite data]. auto.
Qed.

Lemma quiet_success : quiet (observer_call ObsHandshakeSuccess).
Proof.
  intros n n' r [= <- <-]. exists [ObsHandshakeSuccess]. auto.
Qed.

Create HintDb quiet.
#[local] Hint Resolve quiet_ret quiet_raise quiet_get quiet_bind
  quiet_with_buffer quiet_with_world quiet_attr quiet_write quiet_success
  : quiet.
#[local] Hint Extern 1 (quiet (modify _)) =>
  apply quiet_modify; intros; reflexivity : quiet.
#[local] Hint Extern 2 (quiet (if ?c then _ else _)) => destruct c : quiet.
#[local] Hint Extern 2 (quiet (modify (assign ?r _))) => destruct r : quiet.

Ltac quiet_unfold f := unfold f; auto 20 with quiet.

Lemma quiet_generate_payload (r : PacketRef) : quiet (generate_payload r).
Proof. quiet_unfold generate_payload. Qed.

Lemma quiet__writePacket (r : PacketRef) : quiet (_writePacket r).
Proof. quiet_unfold _writePacket. Qed.

#[local] Hint Resolve quiet_generate_payload quiet__writePacket : quiet.

Lemma quiet_writeVersionAndSyn : quiet writeVersionAndSyn.
Proof. quiet_unfold writeVersionAndSyn. Qed.

Lemma quiet_writeAck : quiet writeAck.
Proof. unfold writeAck, buildAckPayload. auto 20 with quiet. Qed.

Lemma quiet_getPeerPacket : quiet getPeerPacket.
Proof. quiet_unfold getPeerPacket. Qed.

#[local] Hint Resolve quiet_writeVersionAndSyn quiet_writeAck
  quiet_getPeerPacket : quiet.

Lemma quiet_BaseNegotiator_versionReceived :
  quiet BaseNegotiator_versionReceived.
Proof. quiet_unfold BaseNegotiator_versionReceived. Qed.

#[local] Hint Resolve quiet_BaseNegotiator_versionReceived : quiet.

Lemma quiet_versionReceived (r : Role) :
  quiet (versionReceived (negotiator_class r)).
Proof.
  destruct r; cbn [negotiator_class versionReceived ClientNegotiator
                   ServerNegotiator].
  - quiet_unfold ClientNegotiator_versionReceived.
  - unfold ServerNegotiator_versionReceived, buildSynPayload.
    auto 20 with quiet.
Qed.

Lemma quiet_synReceived (r : Role) :
  quiet (synReceived (negotiator_class r)).
Proof.
  destruct r; cbn [negotiator_class synReceived ClientNegotiator
                   ServerNegotiator].
  - quiet_unfold ClientNegotiator_synReceived.
  - quiet_unfold ServerNegotiator_synReceived.
Qed.

Lemma quiet_ackReceived (r : Role) :
  quiet (ackReceived (negotiator_class r)).
Proof.
  destruct r; cbn [negotiator_class ackReceived ClientNegotiator
                   ServerNegotiator].
  - quiet_unfold ClientNegotiator_ackReceived.
  - quiet_unfold ServerNegotiator_ackReceived.
Qed.

#[local] Hint Resolve quiet_versionReceived quiet_synReceived
  quiet_ackReceived : quiet.

Lemma quiet__process (r : Role) : quiet (_process (negotiator_class r)).
Proof.
  unfold _process, process_version, process_syn, process_ack.
  auto 30 with quiet.
Qed.

Lemma quiet_dataReceived_try (r : Role) (data : list byte) :
  quiet (dataReceived_try (negotiator_class r) data).
Proof.
  unfold dataReceived_try. pose proof (quiet__process r).
  auto 20 with quiet.
Qed.

(** C4.  For either role, in any state and for any data, [dataReceived]
    returns normally (the observer records the calls it receives and raises
    nothing itself).  The calls it makes on the observer contain exactly
    one [handshakeFailure], the last call, carrying the exception, when the
    body of its [try] raised one, and none when it did not.  In particular
    data received before [start] is answered by the single call
    [handshakeFailure(HandshakeError)]. *)
Theorem dataReceived_reports_failure_once
    (r : Role) (data : list byte) (n : Negotiator) :
  exists (n' : Negotiator) (evs : list Event),
    dataReceived (negotiator_class r) data n = (Ok tt, n') /\
    observer n' = observer n ++ evs /\
    failures evs =
      match fst (dataReceived_try (negotiator_class r) data n) with
      | Raise e => [e]
      | Ok _ => []
      end /\
    (forall e : exn,
       fst (dataReceived_try (negotiator_class r) data n) = Raise e ->
       last evs = Some (ObsHandshakeFailure e)) /\
    (started n = false -> evs = [ObsHandshakeFailure HandshakeError]).
Proof.
  pose proof (quiet_dataReceived_try r data n) as Hq.
  unfold dataReceived, try_except.
  assert (Hns : started n = false ->
            dataReceived_try (negotiator_class r) data n =
              (Raise HandshakeError, n)).
  { intros Hs. unfold dataReceived_try, bind, get, raise. rewrite Hs.
    reflexivity. }
  destruct (dataReceived_try (negotiator_class r) data n) as [[[]|e] n1] eqn:E.
  - destruct (Hq _ _ eq_refl) as (evs & Hobs & Hf).
    exists n1, evs. cbn [fst]. repeat split; auto.
    + discriminate.
    + intros Hs. discriminate (Hns Hs).
  - destruct (Hq _ _ eq_refl) as (evs & Hobs & Hf).
    eexists. exists (evs ++ [ObsHandshakeFailure e]).
    unfold observer_call, modify. cbn [fst]. split; [reflexivity|].
    cbn [observer set_observer]. rewrite Hobs, app_assoc.
    split; [reflexivity|]. rewrite failures_app, Hf.
    split; [reflexivity|]. split.
    + intros e' [= <-]. apply last_snoc.
    + intros Hs. injection (Hns Hs) as -> ->.
      rewrite <- (app_nil_r (observer n)) in Hobs at 1.
      apply app_inv_head in Hobs. subst evs. reflexivity.
Qed.

(** ** Running the stream and the negotiator step by step *)

Lemma remaining_advance (k : nat) (b : BufferedByteStream) :
  remaining (advance k b) = (remaining b - k)%nat.
Proof. unfold remaining, advance. cbn. lia. Qed.

Lemma unread_advance (k : nat) (b : BufferedByteStream) :
  unread (advance k b) = skipn k (unread b).
Proof. unfold unread, advance. cbn. rewrite drop_drop. reflexivity. Qed.

Lemma advance_advance (j k : nat) (b : BufferedByteStream) :
  advance k (advance j b) = advance (j + k) b.
Proof. unfold advance. cbn. f_equal. lia. Qed.

Lemma read_enough (k : nat) (b : BufferedByteStream) :
  (k <= remaining b)%nat ->
  read k b = (Ok (firstn k (unread b)), advance k b).
Proof.
  intros Hk. unfold read.
  destruct (Nat.ltb_spec (remaining b) k); [lia | reflexivity].
Qed.

(** With 1536 bytes or more to read, [Packet.decode] succeeds and moves
    the position 1536 bytes on. *)
Lemma Packet_decode_enough (self : Packet) (b : BufferedByteStream) :
  (HANDSHAKE_LENGTH <= remaining b)%nat ->
  Packet_decode self b =
    (Ok (decoded b (timestamp self)), advance HANDSHAKE_LENGTH b).
Proof.
  unfold HANDSHAKE_LENGTH. intros Hr.
  unfold Packet_decode, read_ulong, bind, ret.
  rewrite (read_enough 4 b) by lia.
  rewrite (read_enough 4 (advance 4 b)) by (rewrite remaining_advance; lia).
  rewrite read_enough
    by (rewrite !remaining_advance; unfold HANDSHAKE_LENGTH; lia).
  rewrite !advance_advance, !unread_advance, ?drop_drop. reflexivity.
Qed.

Lemma set_buffer_id (n : Negotiator) (b : BufferedByteStream) :
  buffer n = Some b -> set_buffer (Some b) n = n.
Proof. destruct n; cbn; intros ->; reflexivity. Qed.

Lemma with_buffer_run {A : Type} (m : Eff BufferedByteStream A)
    (n : Negotiator) (b b' : BufferedByteStream) (r : result A) :
  buffer n = Some b -> m b = (r, b') ->
  with_buffer m n = (r, set_buffer (Some b') n).
Proof. unfold with_buffer. intros -> ->. reflexivity. Qed.

Lemma getPeerPacket_short (n : Negotiator) (b : BufferedByteStream) :
  buffer n = Some b -> (remaining b < HANDSHAKE_LENGTH)%nat ->
  getPeerPacket n = (Ok None, n).
Proof.
  intros Hb Hr. unfold getPeerPacket.
  erewrite bind_Ok; [|apply (with_buffer_run _ n b b _ Hb); reflexivity].
  destruct (Nat.ltb_spec (remaining b) HANDSHAKE_LENGTH); [|lia].
  unfold ret. rewrite set_buffer_id by assumption. reflexivity.
Qed.

Lemma getPeerPacket_full (n : Negotiator) (b : BufferedByteStream) :
  buffer n = Some b -> (HANDSHAKE_LENGTH <= remaining b)%nat ->
  getPeerPacket n =
    (Ok (Some (decoded b (VInt (clock (world n) (ticks (world n)))))),
     set_buffer (Some (advance HANDSHAKE_LENGTH b))
       (set_world (tick (world n)) n)).
Proof.
  intros Hb Hr. unfold getPeerPacket.
  erewrite bind_Ok; [|apply (with_buffer_run _ n b b _ Hb); reflexivity].
  destruct (Nat.ltb_spec (remaining b) HANDSHAKE_LENGTH); [lia|].
  rewrite set_buffer_id by assumption.
  erewrite bind_Ok; [|reflexivity].
  erewrite bind_Ok;
    [|apply (with_buffer_run _ _ b); [exact Hb|apply Packet_decode_enough, Hr]].
  reflexivity.
Qed.

Lemma process_version_skip (cls : NegotiatorClass) (n : Negotiator) :
  not_version (peer_version n) = false ->
  process_version cls n = (Ok true, n).
Proof.
  intros Hv. unfold process_version, bind, get. rewrite Hv. reflexivity.
Qed.

(** Reading the version byte [c] off the stream. *)
Lemma process_version_read (cls : NegotiatorClass) (n : Negotiator)
    (b : BufferedByteStream) (c : byte) (rest : list byte) :
  buffer n = Some b ->
  not_version (peer_version n) = true ->
  unread b = c :: rest ->
  process_version cls n =
    bind (versionReceived cls) (fun _ => ret true)
      (set_peer_version (Some (Z_of_byte c))
         (set_buffer (Some (advance 1 b)) n)).
Proof.
  intros Hb Hv Hu.
  assert (Hr : (1 <= remaining b)%nat).
  { unfold remaining. unfold unread in Hu.
    assert (Hl : length (skipn (tell b) (getvalue b)) = S (length rest))
      by (rewrite Hu; reflexivity).
    rewrite length_drop in Hl. lia. }
  unfold process_version.
  erewrite bind_Ok; [|reflexivity]. rewrite Hv.
  erewrite bind_Ok; [|apply (with_buffer_run _ n b b _ Hb); reflexivity].
  destruct (Nat.ltb_spec (remaining b) 1); [lia|].
  rewrite set_buffer_id by assumption.
  erewrite bind_Ok.
  2:{ eapply with_buffer_run; [exact Hb|]. unfold read_uchar.
      erewrite bind_Ok; [|apply read_enough; exact Hr]. rewrite Hu.
      reflexivity. }
  erewrite bind_Ok; [|reflexivity]. reflexivity.
Qed.

Lemma process_syn_skip (cls : NegotiatorClass) (n : Negotiator)
    (ps : Packet) :
  peer_syn n = Some ps -> process_syn cls n = (Ok true, n).
Proof.
  intros Hp. unfold process_syn, bind, get. rewrite Hp. reflexivity.
Qed.

Lemma process_ack_skip (cls : NegotiatorClass) (n : Negotiator)
    (pa : Packet) :
  peer_ack n = Some pa -> process_ack cls n = (Ok true, n).
Proof.
  intros Hp. unfold process_ack, bind, get. rewrite Hp. reflexivity.
Qed.

Lemma process_syn_short (cls : NegotiatorClass) (n : Negotiator)
    (b : BufferedByteStream) :
  peer_syn n = None -> buffer n = Some b ->
  (remaining b < HANDSHAKE_LENGTH)%nat ->
  process_syn cls n = (Ok false, set_peer_syn None n).
Proof.
  intros Hp Hb Hr. unfold process_syn.
  erewrite bind_Ok; [|reflexivity]. rewrite Hp.
  cbn [negb bool_decide decide_rel is_Some_dec].
  erewrite bind_Ok; [|apply (getPeerPacket_short n b); assumption].
  reflexivity.
Qed.

Lemma process_ack_short (cls : NegotiatorClass) (n : Negotiator)
    (b : BufferedByteStream) :
  peer_ack n = None -> buffer n = Some b ->
  (remaining b < HANDSHAKE_LENGTH)%nat ->
  process_ack cls n = (Ok false, set_peer_ack None n).
Proof.
  intros Hp Hb Hr. unfold process_ack.
  erewrite bind_Ok; [|reflexivity]. rewrite Hp.
  cbn [negb bool_decide decide_rel is_Some_dec].
  erewrite bind_Ok; [|apply (getPeerPacket_short n b); assumption].
  reflexivity.
Qed.

(** With less than a packet buffered, the stages after the version do not
    fail. *)
Lemma process_rest_short (cls : NegotiatorClass) (n : Negotiator)
    (b : BufferedByteStream) :
  buffer n = Some b -> (remaining b < HANDSHAKE_LENGTH)%nat ->
  exists n' : Negotiator,
    bind (process_syn cls) (fun go =>
      if negb go then ret tt else
      bind (process_ack cls) (fun go =>
        if negb go then ret tt else observer_call ObsHandshakeSuccess)) n
    = (Ok tt, n').
Proof.
  intros Hb Hr.
  destruct (peer_syn n) as [ps|] eqn:Hps.
  - erewrite bind_Ok; [|apply (process_syn_skip _ _ ps Hps)]. cbn [negb].
    destruct (peer_ack n) as [pa|] eqn:Hpa.
    + erewrite bind_Ok; [|apply (process_ack_skip _ _ pa Hpa)].
      cbn [negb]. eexists. reflexivity.
    + erewrite bind_Ok; [|apply (process_ack_short _ _ b Hpa Hb Hr)].
      cbn [negb]. eexists. reflexivity.
  - erewrite bind_Ok; [|apply (process_syn_short _ _ b Hps Hb Hr)].
    cbn [negb]. eexists. reflexivity.
Qed.

Lemma BaseNegotiator_start_run (uptime version : value) (n : Negotiator) :
  started n = false ->
  BaseNegotiator_start uptime version n =
    (Ok tt,
     {| observer := observer n; started := true;
        buffer := Some empty_stream; peer_version := None;
        my_syn :=
          Some {| first := uptime; second := version; payload := VNone;
                  timestamp := VInt (clock (world n) (ticks (world n))) |};
        my_ack := None; peer_syn := None; peer_ack := None;
        world := tick (world n) |}).
Proof.
  intros Hs. unfold BaseNegotiator_start.
  erewrite bind_Ok; [|reflexivity]. rewrite Hs.
  reflexivity.
Qed.

Lemma generate_payload_run (r : PacketRef) (n : Negotiator) (p : Packet) :
  deref r n = Some p ->
  generate_payload r n =
    (Ok tt,
     assign r (set_payload
                 (VStr (entropy (world n) (draws (world n))
                          (HANDSHAKE_LENGTH - 8))) p)
       (set_world (draw (world n)) n)).
Proof.
  intros Hp. unfold generate_payload.
  erewrite bind_Ok; [|reflexivity].
  erewrite bind_Ok; [|reflexivity].
  match goal with
  | |- context [deref r ?m] =>
      replace (deref r m) with (Some p)
        by (rewrite <- Hp; destruct r; reflexivity)
  end.
  reflexivity.
Qed.

Lemma _writePacket_run (r : PacketRef) (n : Negotiator) (p : Packet)
    (b b' : BufferedByteStream) :
  deref r n = Some p ->
  buffer n = Some b ->
  Packet_encode p b = (Ok tt, b') ->
  _writePacket r n =
    (Ok tt,
     set_observer (observer n ++ [ObsWrite (getvalue b')])
       (set_buffer (Some empty_stream) n)).
Proof.
  intros Hp Hb He. unfold _writePacket.
  erewrite bind_Ok; [|reflexivity]. rewrite Hp.
  erewrite bind_Ok; [|reflexivity].
  erewrite bind_Ok; [|apply (with_buffer_run _ n b b' _ Hb He)].
  erewrite bind_Ok; [|apply (with_buffer_run _ _ b' b'); reflexivity].
  erewrite bind_Ok;
    [|apply (with_buffer_run _ _ b' empty_stream); reflexivity].
  reflexivity.
Qed.

Lemma writeVersionAndSyn_run (n : Negotiator) (p : Packet)
    (b : BufferedByteStream) (f g : Z) (s : list byte) :
  my_syn n = Some p ->
  buffer n = Some b ->
  ulong_of (first p) = Some f ->
  ulong_of (second p) = Some g ->
  payload p = VStr s ->
  writeVersionAndSyn n =
    (Ok tt,
     set_observer
       (observer n ++
        [ObsWrite (byte_of_Z protocolVersion ::
                   pack_ulong f ++ pack_ulong g ++ s)])
       (set_buffer (Some empty_stream) n)).
Proof.
  intros Hp Hb Hf Hg Hs. unfold writeVersionAndSyn.
  erewrite bind_Ok;
    [|apply (with_buffer_run _ n b empty_stream); [exact Hb|reflexivity]].
  erewrite bind_Ok;
    [|apply (with_buffer_run _ _ empty_stream
               {| getvalue := [byte_of_Z protocolVersion]; tell := 1 |});
      reflexivity].
  pose proof (Packet_encode_at_end p f g s
           {| getvalue := [byte_of_Z protocolVersion]; tell := 1 |}
           Hf Hg Hs eq_refl) as He.
  rewrite (_writePacket_run Ref_my_syn
             (set_buffer
                (Some {| getvalue := [byte_of_Z protocolVersion]; tell := 1 |})
                (set_buffer (Some empty_stream) n))
             p _ _ Hp eq_refl He).
  reflexivity.
Qed.

Lemma writeAck_run (n : Negotiator) (p : Packet) (b : BufferedByteStream)
    (f g : Z) :
  my_ack n = Some p ->
  buffer n = Some b ->
  ulong_of (first p) = Some f ->
  ulong_of (second p) = Some g ->
  writeAck n =
    (Ok tt,
     set_observer
       (observer n ++
        [ObsWrite (pack_ulong f ++ pack_ulong g ++
                   entropy (world n) (draws (world n))
                     (HANDSHAKE_LENGTH - 8))])
       (set_buffer (Some empty_stream)
          (set_my_ack
             (Some (set_payload
                      (VStr (entropy (world n) (draws (world n))
                               (HANDSHAKE_LENGTH - 8))) p))
             (set_world (draw (world n)) n)))).
Proof.
  intros Hp Hb Hf Hg. unfold writeAck, buildAckPayload.
  erewrite bind_Ok; [|apply (generate_payload_run Ref_my_ack n p Hp)].
  cbn [assign].
  erewrite bind_Ok;
    [|apply (with_buffer_run _ _ b empty_stream); [exact Hb|reflexivity]].
  set (bytes := entropy (world n) (draws (world n)) (HANDSHAKE_LENGTH - 8)).
  pose proof (Packet_encode_at_end (set_payload (VStr bytes) p) f g bytes
                empty_stream Hf Hg eq_refl eq_refl) as He.
  rewrite (_writePacket_run Ref_my_ack
             (set_buffer (Some empty_stream)
                (set_my_ack (Some (set_payload (VStr bytes) p))
                   (set_world (draw (world n)) n)))
             _ _ _ eq_refl eq_refl He).
  reflexivity.
Qed.

Lemma ClientNegotiator_versionReceived_outcome (n : Negotiator) (v : Z) :
  peer_version n = Some v ->
  ClientNegotiator_versionReceived n = (version_outcome v, n).
Proof.
  intros Hv.
  unfold ClientNegotiator_versionReceived, BaseNegotiator_versionReceived,
    version_outcome, bind, get, ret, raise, protocolVersion,
    RTMP_PROTOCOL_VERSION, MAX_PROTOCOL_VERSION.
  rewrite Hv. cbn [py_gt py_lt].
  destruct (Z.eqb_spec v 3) as [->|Hne].
  - rewrite bool_decide_eq_true_2 by reflexivity. rewrite Hv. reflexivity.
  - rewrite bool_decide_eq_false_2 by congruence.
    destruct (Z.ltb_spec 31 v); [reflexivity|].
    destruct (Z.ltb_spec 3 v); [reflexivity|].
    rewrite Hv. cbn [py_lt].
    destruct (Z.ltb_spec v 3); [reflexivity|lia].
Qed.

Lemma version_outcome_cases (v : Z) :
  (version_outcome v = Raise ProtocolVersionError <-> 31 < v) /\
  (version_outcome v = Raise ProtocolTooHigh <-> 3 < v <= 31) /\
  (version_outcome v = Raise ProtocolDegraded <-> v < 3) /\
  (version_outcome v = Ok tt <-> v = 3).
Proof.
  unfold version_outcome, RTMP_PROTOCOL_VERSION, MAX_PROTOCOL_VERSION.
  destruct (Z.eqb_spec v 3); [|destruct (Z.ltb_spec 31 v);
    [|destruct (Z.ltb_spec 3 v)]];
    repeat split; intros; try discriminate; try lia; try reflexivity.
Qed.

(** The first check of [ClientNegotiator.ackReceived]: bytes left after
    the ack raise the generic [HandshakeError]. *)
Lemma ClientNegotiator_ackReceived_trailing
    (n : Negotiator) (b : BufferedByteStream) :
  buffer n = Some b -> remaining b <> 0%nat ->
  ClientNegotiator_ackReceived n = (Raise HandshakeError, n).
Proof.
  intros Hb Hr. unfold ClientNegotiator_ackReceived.
  erewrite bind_Ok; [|apply (with_buffer_run _ n b b _ Hb); reflexivity].
  rewrite set_buffer_id by assumption.
  destruct (Nat.eqb_spec (remaining b) 0); [contradiction|]. reflexivity.
Qed.

(** ** The client negotiator *)

(** C1 (amended).  For a client whose buffer holds nothing beyond the peer
    ack it has just read: when [peer_ack.first] differs from [my_syn.first]
    or [peer_ack.payload] from [my_syn.payload], [ackReceived] raises
    [VerificationError] and changes nothing; otherwise (with
    [peer_syn.first] and [my_syn.timestamp] unset or 32-bit integers) it
    sets [my_ack] to a packet with [first = peer_syn.first] and
    [second = my_syn.timestamp], gives it a fresh random payload, and writes
    its encoding to the observer in one call. *)
Theorem ClientNegotiator_ackReceived_verifies
    (n : Negotiator) (b : BufferedByteStream) (pa ms ps : Packet) :
  buffer n = Some b ->
  remaining b = 0%nat ->
  peer_ack n = Some pa ->
  my_syn n = Some ms ->
  peer_syn n = Some ps ->
  (first pa <> first ms \/ payload pa <> payload ms ->
   ackReceived ClientNegotiator n = (Raise VerificationError, n)) /\
  (first pa = first ms -> payload pa = payload ms ->
   forall f g : Z,
   ulong_of (first ps) = Some f ->
   ulong_of (timestamp ms) = Some g ->
   let w := world n in
   let bytes := entropy w (draws w) (HANDSHAKE_LENGTH - 8) in
   let ack := {| first := first ps; second := timestamp ms;
                 payload := VStr bytes;
                 timestamp := VInt (clock w (ticks w)) |} in
   exists (n' : Negotiator) (enc : BufferedByteStream),
     ackReceived ClientNegotiator n = (Ok tt, n') /\
     my_ack n' = Some ack /\
     Packet_encode ack empty_stream = (Ok tt, enc) /\
     getvalue enc = pack_ulong f ++ pack_ulong g ++ bytes /\
     observer n' = observer n ++ [ObsWrite (getvalue enc)]).
Proof.
  intros Hb Hr Hpa Hms Hps.
  assert (Hstart : forall k : unit -> Eff Negotiator unit,
    ClientNegotiator_ackReceived n =
    bind (if negb (bool_decide (first pa = first ms))
          then raise VerificationError else ret tt)
      (fun _ =>
       bind (if negb (bool_decide (payload pa = payload ms))
             then raise VerificationError else ret tt)
         (fun _ =>
          bind (attr (peer_syn n)) (fun ps =>
          bind (with_world
                  (Packet_new {| kw_first := Some (first ps);
                                 kw_second := Some (timestamp ms);
                                 kw_payload := None;
                                 kw_timestamp := None |})) (fun p =>
          bind (modify (set_my_ack (Some p))) (fun _ => writeAck))))) n).
  { intros _. unfold ClientNegotiator_ackReceived.
    erewrite bind_Ok; [|apply (with_buffer_run _ n b b _ Hb); reflexivity].
    rewrite set_buffer_id by assumption. rewrite Hr. cbn [Nat.eqb negb].
    erewrite bind_Ok; [|reflexivity].
    erewrite bind_Ok; [|reflexivity].
    rewrite Hpa. erewrite bind_Ok; [|reflexivity].
    rewrite Hms. erewrite bind_Ok; [|reflexivity].
    reflexivity. }
  change (ackReceived ClientNegotiator) with ClientNegotiator_ackReceived.
  rewrite (Hstart (fun _ => ret tt)).
  clear Hstart. split.
  - intros Hne.
    destruct (decide (first pa = first ms)) as [E1|E1].
    + rewrite (bool_decide_eq_true_2 _ E1). cbn [negb].
      erewrite bind_Ok; [|reflexivity].
      destruct Hne as [Hne|Hne]; [contradiction|].
      rewrite (bool_decide_eq_false_2 _ Hne). reflexivity.
    + rewrite (bool_decide_eq_false_2 _ E1). reflexivity.
  - intros E1 E2 f g Hf Hg w bytes ack.
    rewrite (bool_decide_eq_true_2 _ E1), (bool_decide_eq_true_2 _ E2).
    cbn [negb].
    erewrite bind_Ok; [|reflexivity].
    erewrite bind_Ok; [|reflexivity].
    rewrite Hps. erewrite bind_Ok; [|reflexivity].
    erewrite bind_Ok; [|reflexivity].
    erewrite bind_Ok; [|reflexivity].
    set (p0 := {| first := first ps; second := timestamp ms;
                  payload := VNone; timestamp := VInt (clock w (ticks w)) |}).
    change (Packet_init _ _) with p0.
    rewrite (writeAck_run
               (set_my_ack (Some p0) (set_world (tick (world n)) n))
               p0 b f g eq_refl Hb Hf Hg).
    exists (set_observer
              (observer n ++ [ObsWrite (pack_ulong f ++ pack_ulong g ++ bytes)])
              (set_buffer (Some empty_stream)
                 (set_my_ack (Some ack)
                    (set_world (draw (tick (world n))) n)))).
    exists {| getvalue := [] ++ pack_ulong f ++ pack_ulong g ++ bytes;
              tell := (0 + (8 + length bytes))%nat |}.
    split; [reflexivity|]. split; [reflexivity|]. split.
    + apply (Packet_encode_at_end ack f g bytes empty_stream Hf Hg);
        reflexivity.
    + split; reflexivity.
Qed.

(** C1, witness: the sample client about to call [ackReceived], once with
    an ack whose [first] is 9 instead of 1, once with an ack that echoes its
    syn. *)
Lemma ClientNegotiator_ackReceived_verifies_witness :
  ackReceived ClientNegotiator (client_at_ack wrong_ack)
    = (Raise VerificationError, client_at_ack wrong_ack) /\
  (let w := world (client_at_ack echo_ack) in
   let bytes := entropy w (draws w) (HANDSHAKE_LENGTH - 8) in
   let ack := {| first := first sample_peer_syn;
                 second := timestamp sample_my_syn;
                 payload := VStr bytes;
                 timestamp := VInt (clock w (ticks w)) |} in
   exists (n' : Negotiator) (enc : BufferedByteStream),
     ackReceived ClientNegotiator (client_at_ack echo_ack) = (Ok tt, n') /\
     my_ack n' = Some ack /\
     Packet_encode ack empty_stream = (Ok tt, enc) /\
     getvalue enc = pack_ulong 5 ++ pack_ulong 1000 ++ bytes /\
     observer n' =
       observer (client_at_ack echo_ack) ++ [ObsWrite (getvalue enc)]).
Proof.
  split.
  - apply (proj1 (ClientNegotiator_ackReceived_verifies
                    (client_at_ack wrong_ack) sample_stream wrong_ack
                    sample_my_syn sample_peer_syn
                    ltac:(vm_compute; reflexivity)
                    ltac:(vm_compute; reflexivity)
                    ltac:(vm_compute; reflexivity)
                    ltac:(vm_compute; reflexivity)
                    ltac:(vm_compute; reflexivity))).
    left. vm_compute. discriminate.
  - apply (proj2 (ClientNegotiator_ackReceived_verifies
                    (client_at_ack echo_ack) sample_stream echo_ack
                    sample_my_syn sample_peer_syn
                    ltac:(vm_compute; reflexivity)
                    ltac:(vm_compute; reflexivity)
                    ltac:(vm_compute; reflexivity)
                    ltac:(vm_compute; reflexivity)
                    ltac:(vm_compute; reflexivity)));
      vm_compute; reflexivity.
Defined.

(** C1, counterexample: the sample client receives, in one piece, a full
    ack whose [first] is 9 (its own syn has [first = 1]) followed by one more
    byte.  The exception raised is [HandshakeError], which is not a
    [VerificationError]. *)
Lemma ClientNegotiator_ack_mismatch_with_trailing_byte :
  let r := dataReceived_try ClientNegotiator
             (wire 9 0 (repeat x00 (HANDSHAKE_LENGTH - 8)) ++ [x00])
             client_awaiting_ack in
  option_map first (peer_ack (snd r)) = Some (VInt 9) /\
  option_map first (my_syn (snd r)) = Some (VInt 1) /\
  fst r = Raise HandshakeError /\
  isinstance HandshakeError VerificationError = false.
Proof. vm_compute. repeat split. Qed.

(** C6 (amended).  A started client that has the peer's version and syn and
    awaits the ack receives data that, with what it had buffered, holds more
    than the 1536 bytes of the ack.  It reads the ack, and [ackReceived]
    raises [HandshakeError] (the generic class, which is not a
    [VerificationError]) before it compares anything; [dataReceived] reports
    it to the observer with one [handshakeFailure]. *)
Theorem ClientNegotiator_trailing_data_fails
    (n : Negotiator) (b : BufferedByteStream) (ps : Packet)
    (data : list byte) :
  started n = true ->
  buffer n = Some b ->
  not_version (peer_version n) = false ->
  peer_syn n = Some ps ->
  peer_ack n = None ->
  (HANDSHAKE_LENGTH < length (getvalue b) + length data - tell b)%nat ->
  exists n' : Negotiator,
    dataReceived ClientNegotiator data n = (Ok tt, n') /\
    fst (dataReceived_try ClientNegotiator data n) = Raise HandshakeError /\
    isinstance HandshakeError VerificationError = false /\
    observer n' = observer n ++ [ObsHandshakeFailure HandshakeError] /\
    peer_ack n' =
      Some (decoded {| getvalue := getvalue b ++ data; tell := tell b |}
              (VInt (clock (world n) (ticks (world n))))).
Proof.
  intros Hs Hb Hv Hps Hpa Hlen.
  set (b1 := {| getvalue := getvalue b ++ data; tell := tell b |}).
  set (n1 := set_buffer (Some b1) n).
  assert (Hr1 : (HANDSHAKE_LENGTH < remaining b1)%nat).
  { unfold remaining, b1. cbn. rewrite length_app. exact Hlen. }
  set (pa := decoded b1 (VInt (clock (world n1) (ticks (world n1))))).
  set (n2 := set_peer_ack (Some pa)
               (set_buffer (Some (advance HANDSHAKE_LENGTH b1))
                  (set_world (tick (world n1)) n1))).
  assert (Htry : dataReceived_try ClientNegotiator data n
                 = (Raise HandshakeError, n2)).
  { unfold dataReceived_try.
    erewrite bind_Ok; [|reflexivity]. rewrite Hs. cbn [negb].
    erewrite bind_Ok; [|reflexivity].
    erewrite bind_Ok; [|apply (with_buffer_run _ n b b1 _ Hb); reflexivity].
    fold n1. unfold _process.
    erewrite bind_Ok; [|apply process_version_skip; exact Hv]. cbn [negb].
    erewrite bind_Ok; [|apply (process_syn_skip _ _ ps); exact Hps].
    cbn [negb].
    apply bind_Raise. unfold process_ack.
    erewrite bind_Ok; [|reflexivity].
    replace (peer_ack n1) with (@None Packet) by (symmetry; exact Hpa).
    cbn [negb bool_decide decide_rel is_Some_dec].
    erewrite bind_Ok;
      [|apply (getPeerPacket_full n1 b1); [reflexivity | lia]].
    erewrite bind_Ok; [|reflexivity].
    cbn [negb bool_decide decide_rel is_Some_dec].
    apply bind_Raise. fold pa.
    apply (ClientNegotiator_ackReceived_trailing _
             (advance HANDSHAKE_LENGTH b1)); [reflexivity|].
    rewrite remaining_advance. lia. }
  unfold dataReceived, try_except. rewrite Htry.
  eexists. split; [reflexivity|]. cbn [fst].
  repeat split.
Qed.

(** C6, witness: the sample client receives an ack that echoes its syn,
    followed by two more bytes. *)
Lemma ClientNegotiator_trailing_data_fails_witness :
  let data := wire 1 0 (repeat x00 (HANDSHAKE_LENGTH - 8)) ++ [x01; x02] in
  exists n' : Negotiator,
    dataReceived ClientNegotiator data client_awaiting_ack = (Ok tt, n') /\
    fst (dataReceived_try ClientNegotiator data client_awaiting_ack)
      = Raise HandshakeError /\
    isinstance HandshakeError VerificationError = false /\
    observer n' =
      observer client_awaiting_ack ++ [ObsHandshakeFailure HandshakeError] /\
    peer_ack n' =
      Some (decoded {| getvalue := getvalue sample_stream ++ data;
                       tell := tell sample_stream |}
              (VInt (clock (world client_awaiting_ack)
                       (ticks (world client_awaiting_ack))))).
Proof.
  apply (ClientNegotiator_trailing_data_fails client_awaiting_ack
           sample_stream sample_peer_syn);
    vm_compute; solve [reflexivity | lia].
Defined.

(** C6, counterexample: the sample client receives an ack that echoes its
    syn, followed by one more byte.  The handshake fails, and the reason
    given to the observer is a [HandshakeError], not a
    [VerificationError]. *)
Lemma ClientNegotiator_trailing_byte_is_HandshakeError :
  let r := dataReceived ClientNegotiator
             (wire 1 0 (repeat x00 (HANDSHAKE_LENGTH - 8)) ++ [x00])
             client_awaiting_ack in
  fst r = Ok tt /\
  failures (observer (snd r)) = [HandshakeError] /\
  isinstance HandshakeError VerificationError = false.
Proof. vm_compute. repeat split. Qed.

(** C2.  A started client with nothing unread in its buffer and no peer
    version yet receives the single byte [c], the peer's version [v].  The
    processing of that data raises [ProtocolVersionError] exactly when
    [v > 31], [ProtocolTooHigh] exactly when [3 < v <= 31],
    [ProtocolDegraded] exactly when [v < 3], and ends without an error
    exactly when [v = 3]; and [versionReceived], in any state whose peer
    version is [v'], does what [version_outcome v'] says and changes
    nothing. *)
Theorem ClientNegotiator_version_check
    (n : Negotiator) (b : BufferedByteStream) (c : byte) :
  started n = true ->
  buffer n = Some b ->
  tell b = length (getvalue b) ->
  not_version (peer_version n) = true ->
  let v := Z_of_byte c in
  let r := fst (dataReceived_try ClientNegotiator [c] n) in
  (r = Raise ProtocolVersionError <-> 31 < v) /\
  (r = Raise ProtocolTooHigh <-> 3 < v <= 31) /\
  (r = Raise ProtocolDegraded <-> v < 3) /\
  (r = Ok tt <-> v = 3) /\
  (forall (m : Negotiator) (v' : Z),
     peer_version m = Some v' ->
     versionReceived ClientNegotiator m = (version_outcome v', m)).
Proof.
  intros Hs Hb Ht Hv v r.
  assert (Hr : r = version_outcome v).
  2:{ rewrite Hr. pose proof (version_outcome_cases v) as (H1 & H2 & H3 & H4).
      split; [exact H1|]. split; [exact H2|]. split; [exact H3|].
      split; [exact H4|]. intros m v' Hm.
      apply (ClientNegotiator_versionReceived_outcome m v' Hm). }
  subst r.
  set (b1 := {| getvalue := getvalue b ++ [c]; tell := tell b |}).
  set (n1 := set_buffer (Some b1) n).
  set (n2 := set_peer_version (Some v)
               (set_buffer (Some (advance 1 b1)) n1)).
  assert (Hu : unread b1 = [c]).
  { unfold unread, b1. cbn. rewrite Ht, drop_app_length. reflexivity. }
  unfold dataReceived_try.
  erewrite bind_Ok; [|reflexivity]. rewrite Hs. cbn [negb].
  erewrite bind_Ok; [|reflexivity].
  erewrite bind_Ok; [|apply (with_buffer_run _ n b b1 _ Hb); reflexivity].
  fold n1. unfold _process.
  assert (Hpv : process_version ClientNegotiator n1 =
                match version_outcome v with
                | Ok _ => (Ok true, n2)
                | Raise e => (Raise e, n2)
                end).
  { rewrite (process_version_read _ n1 b1 c []);
      [|reflexivity|exact Hv|exact Hu].
    fold v. fold n2. unfold bind. cbn [versionReceived ClientNegotiator].
    rewrite (ClientNegotiator_versionReceived_outcome n2 v) by reflexivity.
    destruct (version_outcome v) as [[]|e]; reflexivity. }
  destruct (version_outcome v) as [[]|e] eqn:Ho.
  - erewrite bind_Ok; [|exact Hpv]. cbn [negb].
    destruct (process_rest_short ClientNegotiator n2 (advance 1 b1))
      as [n' Hn'].
    + reflexivity.
    + rewrite remaining_advance. unfold remaining, b1. cbn.
      rewrite length_app, Ht. cbn. unfold HANDSHAKE_LENGTH. lia.
    + rewrite Hn'. reflexivity.
  - erewrite bind_Raise; [|exact Hpv]. reflexivity.
Qed.

(** C2, witness: the sample client, just started, receives the version
    byte 4. *)
Lemma ClientNegotiator_version_check_witness :
  let v := Z_of_byte x04 in
  let r := fst (dataReceived_try ClientNegotiator [x04] started_client) in
  (r = Raise ProtocolVersionError <-> 31 < v) /\
  (r = Raise ProtocolTooHigh <-> 3 < v <= 31) /\
  (r = Raise ProtocolDegraded <-> v < 3) /\
  (r = Ok tt <-> v = 3) /\
  (forall (m : Negotiator) (v' : Z),
     peer_version m = Some v' ->
     versionReceived ClientNegotiator m = (version_outcome v', m)).
Proof.
  apply (ClientNegotiator_version_check started_client empty_stream x04);
    vm_compute; reflexivity.
Defined.

(** C5.  [start(uptime, version)] on a client not yet started, with
    [uptime] and [version] unset or 32-bit integers, succeeds: [my_syn] has
    [first = uptime], [second = version], the 1528 bytes the random source
    gave as payload and the current time as timestamp, and the observer
    receives one [write] of 1537 bytes: the protocol version byte, then the
    1536 bytes [Packet.encode] gives for [my_syn]. *)
Theorem ClientNegotiator_start_writes_version_and_syn
    (n : Negotiator) (uptime version : value) (f g : Z) :
  started n = false ->
  ulong_of uptime = Some f ->
  ulong_of version = Some g ->
  let w := world n in
  let bytes := entropy w (draws w) (HANDSHAKE_LENGTH - 8) in
  length bytes = (HANDSHAKE_LENGTH - 8)%nat ->
  let syn := {| first := uptime; second := version; payload := VStr bytes;
                timestamp := VInt (clock w (ticks w)) |} in
  exists (n' : Negotiator) (enc : BufferedByteStream),
    start ClientNegotiator uptime version n = (Ok tt, n') /\
    started n' = true /\
    my_syn n' = Some syn /\
    Packet_encode syn empty_stream = (Ok tt, enc) /\
    length (getvalue enc) = HANDSHAKE_LENGTH /\
    observer n' =
      observer n ++ [ObsWrite (byte_of_Z protocolVersion :: getvalue enc)] /\
    length (byte_of_Z protocolVersion :: getvalue enc)
      = S HANDSHAKE_LENGTH.
Proof.
  intros Hs Hf Hg w bytes Hlen syn.
  change (start ClientNegotiator) with ClientNegotiator_start.
  unfold ClientNegotiator_start, buildSynPayload.
  erewrite bind_Ok; [|apply (BaseNegotiator_start_run _ _ n Hs)].
  set (n1 := {| observer := observer n; started := true;
                buffer := Some empty_stream; peer_version := None;
                my_syn :=
                  Some {| first := uptime; second := version;
                          payload := VNone;
                          timestamp := VInt (clock w (ticks w)) |};
                my_ack := None; peer_syn := None; peer_ack := None;
                world := tick w |}).
  erewrite bind_Ok; [|apply (generate_payload_run Ref_my_syn n1 _ eq_refl)].
  cbn [assign].
  change (set_payload _ _) with syn.
  set (n2 := set_my_syn (Some syn) (set_world (draw (world n1)) n1)).
  rewrite (writeVersionAndSyn_run n2 syn empty_stream f g bytes
             eq_refl eq_refl Hf Hg eq_refl).
  assert (Hl : length (pack_ulong f ++ pack_ulong g ++ bytes)
               = HANDSHAKE_LENGTH).
  { rewrite !length_app, !pack_ulong_length, Hlen. reflexivity. }
  eexists. exists {| getvalue := [] ++ pack_ulong f ++ pack_ulong g ++ bytes;
                     tell := (0 + (8 + length bytes))%nat |}.
  split; [reflexivity|]. split; [reflexivity|]. split; [reflexivity|].
  split.
  { apply (Packet_encode_at_end syn f g bytes empty_stream Hf Hg);
      reflexivity. }
  cbn [getvalue app]. split; [exact Hl|]. split; [reflexivity|].
  cbn [length]. rewrite Hl. reflexivity.
Qed.

(** C5, witness: a fresh client of the sample world started with uptime 1
    and version 2. *)
Lemma ClientNegotiator_start_writes_version_and_syn_witness :
  let n := BaseNegotiator_init sample_world in
  let w := world n in
  let bytes := entropy w (draws w) (HANDSHAKE_LENGTH - 8) in
  let syn := {| first := VInt 1; second := VInt 2; payload := VStr bytes;
                timestamp := VInt (clock w (ticks w)) |} in
  exists (n' : Negotiator) (enc : BufferedByteStream),
    start ClientNegotiator (VInt 1) (VInt 2) n = (Ok tt, n') /\
    started n' = true /\
    my_syn n' = Some syn /\
    Packet_encode syn empty_stream = (Ok tt, enc) /\
    length (getvalue enc) = HANDSHAKE_LENGTH /\
    observer n' =
      observer n ++ [ObsWrite (byte_of_Z protocolVersion :: getvalue enc)] /\
    length (byte_of_Z protocolVersion :: getvalue enc)
      = S HANDSHAKE_LENGTH.
Proof.
  apply (ClientNegotiator_start_writes_version_and_syn
           (BaseNegotiator_init sample_world) (VInt 1) (VInt 2) 1 2);
    vm_compute; reflexivity.
Defined.

(** ** The session *)

(** C7.  When [handshakeSuccess] runs on a session that has a negotiator,
    the session ends in the streaming phase, without the negotiator, with a
    new decoder whose whole input so far is the bytes the negotiator still
    held in its buffer; data that arrives afterwards is decoded after
    them. *)
Theorem Session_handshakeSuccess_replays_buffer
    (p : Session.BaseProtocol) (h : Session.Handshaker) :
  Session.handshaker p = Some h ->
  exists p' : Session.BaseProtocol,
    Session.handshakeSuccess p = (Ok tt, p') /\
    Session.state p' = Some Session.STREAM /\
    Session.handshaker p' = None /\
    Session.decoder p' =
      Some {| Session.stream_input := [Session.buffer h];
              Session.decoder_paused := false |} /\
    Session.decoded_bytes p' = Session.buffer h /\
    (forall data : list byte,
       exists p'' : Session.BaseProtocol,
         Session.dataReceived data p' = (Ok tt, p'') /\
         Session.decoded_bytes p'' = Session.buffer h ++ data).
Proof.
  intros Hh. unfold Session.handshakeSuccess.
  erewrite bind_Ok; [|reflexivity]. rewrite Hh.
  erewrite bind_Ok; [|reflexivity].
  erewrite bind_Ok; [|reflexivity].
  eexists. split; [reflexivity|].
  split; [reflexivity|]. split; [reflexivity|]. split; [reflexivity|].
  split.
  - unfold Session.decoded_bytes. cbn. apply app_nil_r.
  - intros data. eexists. split; [reflexivity|].
    unfold Session.decoded_bytes. cbn. rewrite app_nil_r. reflexivity.
Qed.

(** C7, witness: the session of [test_handshake_overflow], whose negotiator
    still holds the three bytes of "foo". *)
Lemma Session_handshakeSuccess_replays_buffer_witness :
  let h := {| Session.buffer := [x66; x6f; x6f];
              Session.handshake_input := [] |} in
  let p := {| Session.state := Some Session.HANDSHAKE;
              Session.handshaker := Some h;
              Session.decoder := None; Session.encoder := None |} in
  exists p' : Session.BaseProtocol,
    Session.handshakeSuccess p = (Ok tt, p') /\
    Session.state p' = Some Session.STREAM /\
    Session.handshaker p' = None /\
    Session.decoder p' =
      Some {| Session.stream_input := [Session.buffer h];
              Session.decoder_paused := false |} /\
    Session.decoded_bytes p' = Session.buffer h /\
    (forall data : list byte,
       exists p'' : Session.BaseProtocol,
         Session.dataReceived data p' = (Ok tt, p'') /\
         Session.decoded_bytes p'' = Session.buffer h ++ data).
Proof.
  apply (Session_handshakeSuccess_replays_buffer
           {| Session.state := Some Session.HANDSHAKE;
              Session.handshaker :=
                Some {| Session.buffer := [x66; x6f; x6f];
                        Session.handshake_input := [] |};
              Session.decoder := None; Session.encoder := None |}).
  reflexivity.
Defined.

(** ** Call correlation *)

(** C8.  A response of a kind other than ["_result"] and ["_error"] for a
    pending call id removes the call from the active calls and leaves every
    result handle, the call's own included, as it was. *)
Theorem RPC_handleResponse_unknown_kind
    (h : RPC.CallHandler) (id : Z) (kind : string)
    (args : list value) (cmd : value) (ctx : RPC.CallContext) :
  RPC.activeCalls h !! id = Some ctx ->
  kind <> "_result"%string ->
  kind <> "_error"%string ->
  RPC.isCallActive id h = true /\
  RPC.isCallActive id (RPC.handleResponse kind id args cmd h) = false /\
  RPC.handles (RPC.handleResponse kind id args cmd h) = RPC.handles h /\
  RPC.handles (RPC.handleResponse kind id args cmd h)
    !! RPC.resultHandle ctx = RPC.handles h !! RPC.resultHandle ctx /\
  RPC.activeCalls (RPC.handleResponse kind id args cmd h)
    = delete id (RPC.activeCalls h).
Proof.
  intros Hctx Hr He.
  assert (Hh : RPC.handleResponse kind id args cmd h =
               snd (RPC.finishCall id h)).
  { unfold RPC.handleResponse, RPC.finishCall. rewrite Hctx.
    rewrite (bool_decide_eq_false_2 _ Hr), (bool_decide_eq_false_2 _ He).
    reflexivity. }
  rewrite Hh. unfold RPC.finishCall, RPC.isCallActive. cbn.
  rewrite Hctx, lookup_delete_eq.
  repeat split.
Qed.

(** C8, witness: the handler of [test_unknown_response]: one call made
    with [callWithResult], answered by a response of kind ["foo"] for its
    id 1. *)
Lemma RPC_handleResponse_unknown_kind_witness :
  let h := snd (RPC.callWithResult "some_remote_method" [] VNone
                  RPC.new_CallHandler) in
  let ctx := {| RPC.resultHandle := 0; RPC.methodName := "some_remote_method";
                RPC.originalArgs := []; RPC.command := VNone |} in
  let h' := RPC.handleResponse "foo" 1 [VStr [x01]] VNone h in
  RPC.isCallActive 1 h = true /\
  RPC.isCallActive 1 h' = false /\
  RPC.handles h' = RPC.handles h /\
  RPC.handles h' !! RPC.resultHandle ctx
    = RPC.handles h !! RPC.resultHandle ctx /\
  RPC.activeCalls h' = delete 1 (RPC.activeCalls h).
Proof.
  apply (RPC_handleResponse_unknown_kind
           (snd (RPC.callWithResult "some_remote_method" [] VNone
                   RPC.new_CallHandler))
           1 "foo" [VStr [x01]] VNone
           {| RPC.resultHandle := 0; RPC.methodName := "some_remote_method";
              RPC.originalArgs := []; RPC.command := VNone |}).
  - vm_compute. reflexivity.
  - discriminate.
  - discriminate.
Defined.

(** ** The stream registry *)

(** C9.  [registerStream(id, handle)] raises [ValueError] for every id
    below 0 or above 65535; for an id in range, [TypeError] when the handle
    does not provide [IStream]; for an id in range and such a handle,
    [IndexError] when the id is occupied.  In each case the registry is left
    as it was.  Registering one handle under two free ids in range succeeds
    twice, both ids then map to the handle, and no other id changes. *)
Theorem Codec_registerStream_checks
    (c : Codec.BaseCodec) (id : Z) (h : Codec.Handle) :
  (id < 0 \/ 65535 < id ->
   Codec.registerStream id h c = (Raise ValueError, c)) /\
  (0 <= id <= 65535 -> Codec.provides_IStream h = false ->
   Codec.registerStream id h c = (Raise TypeError, c)) /\
  (0 <= id <= 65535 -> Codec.provides_IStream h = true ->
   is_Some (Codec.streams c !! id) ->
   Codec.registerStream id h c = (Raise IndexError, c)) /\
  (forall id2 : Z,
     0 <= id <= 65535 -> 0 <= id2 <= 65535 -> id <> id2 ->
     Codec.provides_IStream h = true ->
     Codec.streams c !! id = None -> Codec.streams c !! id2 = None ->
     exists c1 c2 : Codec.BaseCodec,
       Codec.registerStream id h c = (Ok tt, c1) /\
       Codec.registerStream id2 h c1 = (Ok tt, c2) /\
       Codec.streams c2 !! id = Some h /\
       Codec.streams c2 !! id2 = Some h /\
       (forall k : Z, k <> id -> k <> id2 ->
          Codec.streams c2 !! k = Codec.streams c !! k)).
Proof.
  assert (Hrange : forall i : Z, 0 <= i <= 65535 ->
            (i <? 0) || (Codec.MAX_STREAMS <? i) = false).
  { intros i Hi. unfold Codec.MAX_STREAMS.
    destruct (Z.ltb_spec i 0); [lia|].
    destruct (Z.ltb_spec 65535 i); [lia|]. reflexivity. }
  assert (Hfree : forall (i : Z) (x : Codec.Handle) (d : Codec.BaseCodec),
            0 <= i <= 65535 -> Codec.provides_IStream x = true ->
            Codec.streams d !! i = None ->
            Codec.registerStream i x d =
              (Ok tt, {| Codec.streams := <[i := x]> (Codec.streams d) |})).
  { intros i x d Hi Hx Hd. unfold Codec.registerStream, bind, get, modify.
    rewrite (Hrange i Hi), Hx, Hd. cbn [negb].
    rewrite bool_decide_eq_false_2 by (intros [y Hy]; discriminate).
    reflexivity. }
  split; [|split; [|split]].
  - intros Hout. unfold Codec.registerStream, bind, get, raise.
    replace ((id <? 0) || (Codec.MAX_STREAMS <? id)) with true;
      [reflexivity|].
    unfold Codec.MAX_STREAMS. symmetry. apply orb_true_iff.
    destruct Hout; [left; apply Z.ltb_lt | right; apply Z.ltb_lt]; lia.
  - intros Hin Hh. unfold Codec.registerStream, bind, get, raise.
    rewrite (Hrange id Hin), Hh. reflexivity.
  - intros Hin Hh Hocc. unfold Codec.registerStream, bind, get, raise.
    rewrite (Hrange id Hin), Hh. cbn [negb].
    rewrite (bool_decide_eq_true_2 _ Hocc). reflexivity.
  - intros id2 Hin Hin2 Hne Hh Hf1 Hf2.
    do 2 eexists. split; [apply (Hfree id h c Hin Hh Hf1)|].
    split.
    { apply (Hfree id2 h _ Hin2 Hh). cbn.
      rewrite lookup_insert_ne by exact Hne. exact Hf2. }
    cbn. split; [|split].
    + rewrite lookup_insert_ne by (intros E; apply Hne; symmetry; exact E).
      apply lookup_insert_eq.
    + apply lookup_insert_eq.
    + intros k Hk1 Hk2.
      rewrite !lookup_insert_ne by (intros E; symmetry in E; contradiction).
      reflexivity.
Qed.

(** C9, witness: the calls of [test_registerStream] on an empty registry
    and on one whose id 3 is taken: [-1] and [65536] are out of range, a
    plain object is no stream, id 3 is occupied, and one stream goes under
    the ids 1 and 2. *)
Lemma Codec_registerStream_checks_witness :
  let none := {| Codec.identity := 0; Codec.provides_IStream := false |} in
  let s := {| Codec.identity := 1; Codec.provides_IStream := true |} in
  let empty := {| Codec.streams := ∅ |} in
  let taken := {| Codec.streams := {[ 3 := none ]} |} in
  Codec.registerStream (-1) none empty = (Raise ValueError, empty) /\
  Codec.registerStream 65536 none empty = (Raise ValueError, empty) /\
  Codec.registerStream 0 none empty = (Raise TypeError, empty) /\
  Codec.registerStream 3 s taken = (Raise IndexError, taken) /\
  (exists c1 c2 : Codec.BaseCodec,
     Codec.registerStream 1 s empty = (Ok tt, c1) /\
     Codec.registerStream 2 s c1 = (Ok tt, c2) /\
     Codec.streams c2 !! 1 = Some s /\
     Codec.streams c2 !! 2 = Some s /\
     (forall k : Z, k <> 1 -> k <> 2 ->
        Codec.streams c2 !! k = Codec.streams empty !! k)).
Proof.
  intros none s empty taken.
  split; [|split; [|split; [|split]]].
  - apply (proj1 (Codec_registerStream_checks empty (-1) none)). left. lia.
  - apply (proj1 (Codec_registerStream_checks empty 65536 none)).
    right. lia.
  - apply (proj1 (proj2 (Codec_registerStream_checks empty 0 none)));
      [lia | reflexivity].
  - apply (proj1 (proj2 (proj2 (Codec_registerStream_checks taken 3 s))));
      [lia | reflexivity | ].
    exists none. apply lookup_singleton_eq.
  - apply (proj2 (proj2 (proj2 (Codec_registerStream_checks empty 1 s))) 2);
      try lia; try reflexivity; apply lookup_empty.
Defined.

(** * Further properties of the negotiators *)

(** ** Common steps *)

Lemma set_peer_syn_id (n : Negotiator) (o : option Packet) :
  peer_syn n = o -> set_peer_syn o n = n.
Proof. destruct n; cbn; intros ->; reflexivity. Qed.

Lemma set_peer_ack_id (n : Negotiator) (o : option Packet) :
  peer_ack n = o -> set_peer_ack o n = n.
Proof. destruct n; cbn; intros ->; reflexivity. Qed.

Lemma remaining_appended (data : list byte) (b : BufferedByteStream) :
  remaining (appended data b)
  = (length (getvalue b) + length data - tell b)%nat.
Proof. unfold remaining, appended. cbn. rewrite length_app. reflexivity. Qed.

(** The body of the [try] of [dataReceived], on a started negotiator, is
    [_process] on the buffer with the data appended. *)
Lemma dataReceived_try_started (cls : NegotiatorClass) (data : list byte)
    (n : Negotiator) (b : BufferedByteStream) :
  started n = true ->
  buffer n = Some b ->
  dataReceived_try cls data n =
    _process cls (set_buffer (Some (appended data b)) n).
Proof.
  intros Hs Hb. unfold dataReceived_try.
  erewrite bind_Ok; [|reflexivity]. rewrite Hs. cbn [negb].
  erewrite bind_Ok; [|reflexivity].
  erewrite bind_Ok;
    [|apply (with_buffer_run _ n b (appended data b) _ Hb); reflexivity].
  reflexivity.
Qed.

Lemma dataReceived_Ok (cls : NegotiatorClass) (data : list byte)
    (n n' : Negotiator) :
  dataReceived_try cls data n = (Ok tt, n') ->
  dataReceived cls data n = (Ok tt, n').
Proof. unfold dataReceived, try_except. intros ->. reflexivity. Qed.

Lemma dataReceived_Raise (cls : NegotiatorClass) (data : list byte)
    (n n' : Negotiator) (e : exn) :
  dataReceived_try cls data n = (Raise e, n') ->
  dataReceived cls data n =
    (Ok tt, set_observer (observer n' ++ [ObsHandshakeFailure e]) n').
Proof. unfold dataReceived, try_except. intros ->. reflexivity. Qed.

(** The stage of the ack when a whole packet is there to read. *)
Lemma process_ack_full (cls : NegotiatorClass) (n : Negotiator)
    (b : BufferedByteStream) :
  peer_ack n = None ->
  buffer n = Some b ->
  (HANDSHAKE_LENGTH <= remaining b)%nat ->
  process_ack cls n =
    bind (ackReceived cls) (fun _ => ret true)
      (set_peer_ack
         (Some (decoded b (VInt (clock (world n) (ticks (world n))))))
         (set_buffer (Some (advance HANDSHAKE_LENGTH b))
            (set_world (tick (world n)) n))).
Proof.
  intros Hp Hb Hr. unfold process_ack.
  erewrite bind_Ok; [|reflexivity]. rewrite Hp.
  cbn [negb bool_decide decide_rel is_Some_dec].
  erewrite bind_Ok; [|apply (getPeerPacket_full n b Hb Hr)].
  erewrite bind_Ok; [|reflexivity].
  reflexivity.
Qed.

Lemma process_syn_full (cls : NegotiatorClass) (n : Negotiator)
    (b : BufferedByteStream) :
  peer_syn n = None ->
  buffer n = Some b ->
  (HANDSHAKE_LENGTH <= remaining b)%nat ->
  process_syn cls n =
    bind (synReceived cls) (fun _ => ret true)
      (set_peer_syn
         (Some (decoded b (VInt (clock (world n) (ticks (world n))))))
         (set_buffer (Some (advance HANDSHAKE_LENGTH b))
            (set_world (tick (world n)) n))).
Proof.
  intros Hp Hb Hr. unfold process_syn.
  erewrite bind_Ok; [|reflexivity]. rewrite Hp.
  cbn [negb bool_decide decide_rel is_Some_dec].
  erewrite bind_Ok; [|apply (getPeerPacket_full n b Hb Hr)].
  erewrite bind_Ok; [|reflexivity].
  reflexivity.
Qed.

(** ** Starting twice *)

(** X1.  [start] on a negotiator of either role that was started before
    raises [HandshakeError]: nothing is reset and nothing is written. *)
Theorem start_twice_fails
    (r : Role) (uptime version : value) (n : Negotiator) :
  started n = true ->
  start (negotiator_class r) uptime version n = (Raise HandshakeError, n).
Proof.
  intros Hs.
  assert (Hb : BaseNegotiator_start uptime version n
               = (Raise HandshakeError, n)).
  { unfold BaseNegotiator_start.
    erewrite bind_Ok; [|reflexivity]. rewrite Hs. reflexivity. }
  destruct r; cbn [negotiator_class start ClientNegotiator ServerNegotiator].
  - unfold ClientNegotiator_start. apply bind_Raise, Hb.
  - exact Hb.
Qed.

(** X1, witness: the sample client, started once, is started again. *)
Lemma start_twice_fails_witness :
  start (negotiator_class Client) (VInt 7) (VInt 8) started_client
  = (Raise HandshakeError, started_client).
Proof.
  apply (start_twice_fails Client (VInt 7) (VInt 8) started_client).
  vm_compute. reflexivity.
Defined.

(** ** Reading a packet off the buffer *)

(** X2.  [getPeerPacket] on a negotiator that has a buffer never fails.
    With fewer than 1536 unread bytes it answers [None] and changes nothing;
    otherwise it answers the packet made of the next 1536 unread bytes,
    stamped with the current time, and moves the position 1536 bytes on,
    leaving what follows unread. *)
Theorem getPeerPacket_reads_whole_packets
    (n : Negotiator) (b : BufferedByteStream) :
  buffer n = Some b ->
  ((remaining b < HANDSHAKE_LENGTH)%nat -> getPeerPacket n = (Ok None, n)) /\
  ((HANDSHAKE_LENGTH <= remaining b)%nat ->
   exists n' : Negotiator,
     getPeerPacket n =
       (Ok (Some (decoded b (VInt (clock (world n) (ticks (world n)))))),
        n') /\
     buffer n' = Some (advance HANDSHAKE_LENGTH b) /\
     unread (advance HANDSHAKE_LENGTH b) = skipn HANDSHAKE_LENGTH (unread b) /\
     remaining (advance HANDSHAKE_LENGTH b)
       = (remaining b - HANDSHAKE_LENGTH)%nat /\
     observer n' = observer n /\
     world n' = tick (world n)).
Proof.
  intros Hb. split.
  - intros Hr. apply (getPeerPacket_short n b Hb Hr).
  - intros Hr. eexists. split; [apply (getPeerPacket_full n b Hb Hr)|].
    split; [reflexivity|]. split; [apply unread_advance|].
    split; [apply remaining_advance|]. split; reflexivity.
Qed.

(** X2, witness: the sample client awaiting the ack, whose buffer is read
    to the end. *)
Lemma getPeerPacket_reads_whole_packets_witness :
  ((remaining sample_stream < HANDSHAKE_LENGTH)%nat ->
   getPeerPacket client_awaiting_ack = (Ok None, client_awaiting_ack)) /\
  ((HANDSHAKE_LENGTH <= remaining sample_stream)%nat ->
   exists n' : Negotiator,
     getPeerPacket client_awaiting_ack =
       (Ok (Some (decoded sample_stream
                    (VInt (clock (world client_awaiting_ack)
                             (ticks (world client_awaiting_ack)))))),
        n') /\
     buffer n' = Some (advance HANDSHAKE_LENGTH sample_stream) /\
     unread (advance HANDSHAKE_LENGTH sample_stream)
       = skipn HANDSHAKE_LENGTH (unread sample_stream) /\
     remaining (advance HANDSHAKE_LENGTH sample_stream)
       = (remaining sample_stream - HANDSHAKE_LENGTH)%nat /\
     observer n' = observer client_awaiting_ack /\
     world n' = tick (world client_awaiting_ack)).
Proof.
  apply (getPeerPacket_reads_whole_packets client_awaiting_ack sample_stream).
  vm_compute. reflexivity.
Defined.

(** ** Short reads *)

(** X3.  A started negotiator of either role that has the peer's version
    and still awaits the syn or the ack receives data that leaves fewer than
    1536 bytes unread: [dataReceived] only appends the data to the buffer.
    Nothing else changes and the observer is not called. *)
Theorem dataReceived_short_read_is_buffered
    (r : Role) (n : Negotiator) (b : BufferedByteStream)
    (data : list byte) :
  started n = true ->
  buffer n = Some b ->
  not_version (peer_version n) = false ->
  peer_ack n = None ->
  (length (getvalue b) + length data - tell b < HANDSHAKE_LENGTH)%nat ->
  dataReceived (negotiator_class r) data n =
    (Ok tt, set_buffer (Some (appended data b)) n).
Proof.
  intros Hs Hb Hv Hpa Hlen.
  set (n1 := set_buffer (Some (appended data b)) n).
  assert (Hr : (remaining (appended data b) < HANDSHAKE_LENGTH)%nat)
    by (rewrite remaining_appended; exact Hlen).
  apply dataReceived_Ok.
  rewrite (dataReceived_try_started _ data n b Hs Hb). fold n1.
  unfold _process.
  erewrite bind_Ok; [|apply process_version_skip; exact Hv]. cbn [negb].
  destruct (peer_syn n) as [ps|] eqn:Hps.
  - erewrite bind_Ok; [|apply (process_syn_skip _ n1 ps); exact Hps].
    cbn [negb].
    erewrite bind_Ok;
      [|apply (process_ack_short _ n1 (appended data b) Hpa eq_refl Hr)].
    cbn [negb]. unfold ret.
    rewrite (set_peer_ack_id n1 None Hpa). reflexivity.
  - erewrite bind_Ok;
      [|apply (process_syn_short _ n1 (appended data b) Hps eq_refl Hr)].
    cbn [negb]. unfold ret.
    rewrite (set_peer_syn_id n1 None Hps). reflexivity.
Qed.

(** X3, witness: the sample client awaiting the ack receives the first
    100 bytes of it. *)
Lemma dataReceived_short_read_is_buffered_witness :
  dataReceived (negotiator_class Client) (repeat x00 100) client_awaiting_ack
  = (Ok tt,
     set_buffer (Some (appended (repeat x00 100) sample_stream))
       client_awaiting_ack).
Proof.
  apply (dataReceived_short_read_is_buffered Client client_awaiting_ack
           sample_stream (repeat x00 100));
    vm_compute; solve [reflexivity | lia].
Defined.

(** ** The server and the peer's version *)

Lemma BaseNegotiator_versionReceived_outcome (n : Negotiator) (v : Z) :
  peer_version n = Some v ->
  BaseNegotiator_versionReceived n = (base_version_outcome v, n).
Proof.
  intros Hv.
  unfold BaseNegotiator_versionReceived, base_version_outcome, bind, get,
    ret, raise, protocolVersion, RTMP_PROTOCOL_VERSION, MAX_PROTOCOL_VERSION.
  rewrite Hv. cbn [py_gt].
  destruct (Z.eqb_spec v 3) as [->|Hne].
  - rewrite bool_decide_eq_true_2 by reflexivity. reflexivity.
  - rewrite bool_decide_eq_false_2 by congruence.
    destruct (31 <? v); [reflexivity|].
    destruct (3 <? v); reflexivity.
Qed.

Lemma base_version_outcome_cases (v : Z) :
  (31 < v -> base_version_outcome v = Raise ProtocolVersionError) /\
  (3 < v <= 31 -> base_version_outcome v = Raise ProtocolTooHigh) /\
  (v <= 3 -> base_version_outcome v = Ok tt).
Proof.
  unfold base_version_outcome, RTMP_PROTOCOL_VERSION, MAX_PROTOCOL_VERSION.
  destruct (Z.eqb_spec v 3); [|destruct (Z.ltb_spec 31 v);
    [|destruct (Z.ltb_spec 3 v)]];
    repeat split; intros; try lia; reflexivity.
Qed.

Lemma ServerNegotiator_versionReceived_refused
    (n : Negotiator) (v : Z) (e : exn) :
  peer_version n = Some v ->
  base_version_outcome v = Raise e ->
  ServerNegotiator_versionReceived n = (Raise e, n).
Proof.
  intros Hv Ho. unfold ServerNegotiator_versionReceived.
  apply bind_Raise. rewrite (BaseNegotiator_versionReceived_outcome n v Hv).
  rewrite Ho. reflexivity.
Qed.

Lemma ServerNegotiator_versionReceived_accepted
    (n : Negotiator) (v : Z) (ms : Packet) (b : BufferedByteStream)
    (f g : Z) :
  peer_version n = Some v ->
  base_version_outcome v = Ok tt ->
  my_syn n = Some ms ->
  buffer n = Some b ->
  ulong_of (first ms) = Some f ->
  ulong_of (second ms) = Some g ->
  ServerNegotiator_versionReceived n =
    (Ok tt,
     set_observer
       (observer n ++
        [ObsWrite (byte_of_Z protocolVersion ::
                   pack_ulong f ++ pack_ulong g ++
                   entropy (world n) (draws (world n))
                     (HANDSHAKE_LENGTH - 8))])
       (set_buffer (Some empty_stream)
          (set_my_syn
             (Some (set_payload
                      (VStr (entropy (world n) (draws (world n))
                               (HANDSHAKE_LENGTH - 8))) ms))
             (set_world (draw (world n)) n)))).
Proof.
  intros Hv Ho Hms Hb Hf Hg. unfold ServerNegotiator_versionReceived.
  erewrite bind_Ok.
  2:{ rewrite (BaseNegotiator_versionReceived_outcome n v Hv), Ho.
      reflexivity. }
  unfold buildSynPayload.
  erewrite bind_Ok; [|apply (generate_payload_run Ref_my_syn n ms Hms)].
  cbn [assign].
  set (bytes := entropy (world n) (draws (world n)) (HANDSHAKE_LENGTH - 8)).
  rewrite (writeVersionAndSyn_run
             (set_my_syn (Some (set_payload (VStr bytes) ms))
                (set_world (draw (world n)) n))
             (set_payload (VStr bytes) ms) b f g bytes
             eq_refl Hb Hf Hg eq_refl).
  reflexivity.
Qed.

(** What a started server that awaits the version does with data whose
    first byte is [c]: the state and result of the body of the [try]. *)
Lemma ServerNegotiator_version_step
    (n : Negotiator) (b : BufferedByteStream) (ms : Packet) (f g : Z)
    (c : byte) (rest : list byte) :
  started n = true ->
  buffer n = Some b ->
  tell b = length (getvalue b) ->
  not_version (peer_version n) = true ->
  peer_syn n = None ->
  my_syn n = Some ms ->
  ulong_of (first ms) = Some f ->
  ulong_of (second ms) = Some g ->
  let v := Z_of_byte c in
  let n1 := set_peer_version (Some v)
              (set_buffer (Some (advance 1 (appended (c :: rest) b))) n) in
  let bytes := entropy (world n) (draws (world n)) (HANDSHAKE_LENGTH - 8) in
  dataReceived_try ServerNegotiator (c :: rest) n =
    match base_version_outcome v with
    | Raise e => (Raise e, n1)
    | Ok _ =>
        (Ok tt,
         set_observer
           (observer n ++
            [ObsWrite (byte_of_Z protocolVersion ::
                       pack_ulong f ++ pack_ulong g ++ bytes)])
           (set_buffer (Some empty_stream)
              (set_my_syn (Some (set_payload (VStr bytes) ms))
                 (set_world (draw (world n)) n1))))
    end.
Proof.
  intros Hs Hb Ht Hv Hps Hms Hf Hg v n1 bytes.
  rewrite (dataReceived_try_started _ (c :: rest) n b Hs Hb).
  set (b1 := appended (c :: rest) b).
  assert (Hu : unread b1 = c :: rest).
  { unfold unread, b1, appended. cbn. rewrite Ht, drop_app_length.
    reflexivity. }
  pose proof (process_version_read ServerNegotiator
                (set_buffer (Some b1) n) b1 c rest eq_refl Hv Hu) as Hpv.
  change (set_peer_version (Some (Z_of_byte c))
            (set_buffer (Some (advance 1 b1)) (set_buffer (Some b1) n)))
    with n1 in Hpv.
  change (versionReceived ServerNegotiator)
    with ServerNegotiator_versionReceived in Hpv.
  unfold _process.
  destruct (base_version_outcome v) as [[]|e] eqn:Ho.
  - erewrite bind_Ok.
    2:{ rewrite Hpv. erewrite bind_Ok;
          [|apply (ServerNegotiator_versionReceived_accepted n1 v ms
                     (advance 1 b1) f g eq_refl Ho Hms eq_refl Hf Hg)].
        reflexivity. }
    cbn [negb].
    erewrite bind_Ok;
      [|eapply process_syn_short;
        [exact Hps | reflexivity
        | unfold remaining, HANDSHAKE_LENGTH; cbn; lia]].
    cbn [negb]. unfold ret. rewrite set_peer_syn_id by exact Hps.
    reflexivity.
  - apply bind_Raise. rewrite Hpv. apply bind_Raise.
    apply (ServerNegotiator_versionReceived_refused n1 v e eq_refl Ho).
Qed.

(** X4.  A started server that awaits the version receives data whose
    first byte is the version [v].  [dataReceived] returns normally and
    reports [ProtocolVersionError] when [v > 31], [ProtocolTooHigh] when
    [3 < v <= 31] and no failure at all when [v <= 3]: unlike the client,
    the server lets a lower version through. *)
Theorem ServerNegotiator_version_check
    (n : Negotiator) (b : BufferedByteStream) (ms : Packet) (f g : Z)
    (c : byte) (rest : list byte) :
  started n = true ->
  buffer n = Some b ->
  tell b = length (getvalue b) ->
  not_version (peer_version n) = true ->
  peer_syn n = None ->
  my_syn n = Some ms ->
  ulong_of (first ms) = Some f ->
  ulong_of (second ms) = Some g ->
  let v := Z_of_byte c in
  exists (n' : Negotiator) (evs : list Event),
    dataReceived ServerNegotiator (c :: rest) n = (Ok tt, n') /\
    observer n' = observer n ++ evs /\
    peer_version n' = Some v /\
    (31 < v -> evs = [ObsHandshakeFailure ProtocolVersionError]) /\
    (3 < v <= 31 -> evs = [ObsHandshakeFailure ProtocolTooHigh]) /\
    (v <= 3 -> failures evs = []).
Proof.
  intros Hs Hb Ht Hv Hps Hms Hf Hg v.
  pose proof (ServerNegotiator_version_step n b ms f g c rest
                Hs Hb Ht Hv Hps Hms Hf Hg) as Hstep.
  cbv zeta in Hstep. fold v in Hstep.
  destruct (base_version_outcome_cases v) as (H1 & H2 & H3).
  destruct (base_version_outcome v) as [[]|e] eqn:Ho.
  - rewrite (dataReceived_Ok _ _ _ _ Hstep).
    do 2 eexists. split; [reflexivity|]. split; [reflexivity|].
    split; [reflexivity|].
    split; [intros H; discriminate (H1 H)|].
    split; [intros H; discriminate (H2 H)|].
    intros _. reflexivity.
  - rewrite (dataReceived_Raise _ _ _ _ _ Hstep).
    do 2 eexists. split; [reflexivity|]. split; [reflexivity|].
    split; [reflexivity|].
    split; [intros H; injection (H1 H) as ->; reflexivity|].
    split; [intros H; injection (H2 H) as ->; reflexivity|].
    intros H. discriminate (H3 H).
Qed.

(** X4, witness: the sample server, just started, receives the version
    byte 2. *)
Lemma ServerNegotiator_version_check_witness :
  let v := Z_of_byte x02 in
  exists (n' : Negotiator) (evs : list Event),
    dataReceived ServerNegotiator [x02] started_server = (Ok tt, n') /\
    observer n' = observer started_server ++ evs /\
    peer_version n' = Some v /\
    (31 < v -> evs = [ObsHandshakeFailure ProtocolVersionError]) /\
    (3 < v <= 31 -> evs = [ObsHandshakeFailure ProtocolTooHigh]) /\
    (v <= 3 -> failures evs = []).
Proof.
  apply (ServerNegotiator_version_check started_server empty_stream
           {| first := VInt 1; second := VInt 2; payload := VNone;
              timestamp := VInt 1000 |} 1 2 x02 []);
    vm_compute; reflexivity.
Defined.

(** X5.  A started server that awaits the version receives, in one piece,
    a version byte [v <= 3] followed by any bytes.  It draws the payload of
    its syn and answers with one [write] of the version byte 3 and the
    encoding of its syn; the bytes that followed the version byte are not
    kept: the buffer is left empty and no peer syn is seen. *)
Theorem ServerNegotiator_version_answer_drops_rest
    (n : Negotiator) (b : BufferedByteStream) (ms : Packet) (f g : Z)
    (c : byte) (rest : list byte) :
  started n = true ->
  buffer n = Some b ->
  tell b = length (getvalue b) ->
  not_version (peer_version n) = true ->
  peer_syn n = None ->
  my_syn n = Some ms ->
  ulong_of (first ms) = Some f ->
  ulong_of (second ms) = Some g ->
  Z_of_byte c <= 3 ->
  let bytes := entropy (world n) (draws (world n)) (HANDSHAKE_LENGTH - 8) in
  exists n' : Negotiator,
    dataReceived ServerNegotiator (c :: rest) n = (Ok tt, n') /\
    observer n' =
      observer n ++
      [ObsWrite (byte_of_Z protocolVersion ::
                 pack_ulong f ++ pack_ulong g ++ bytes)] /\
    my_syn n' = Some (set_payload (VStr bytes) ms) /\
    buffer n' = Some empty_stream /\
    peer_syn n' = None /\
    peer_ack n' = peer_ack n.
Proof.
  intros Hs Hb Ht Hv Hps Hms Hf Hg Hle bytes.
  pose proof (ServerNegotiator_version_step n b ms f g c rest
                Hs Hb Ht Hv Hps Hms Hf Hg) as Hstep.
  cbv zeta in Hstep.
  destruct (base_version_outcome_cases (Z_of_byte c)) as (_ & _ & H3).
  rewrite (H3 Hle) in Hstep.
  rewrite (dataReceived_Ok _ _ _ _ Hstep).
  eexists. split; [reflexivity|]. split; [reflexivity|].
  split; [reflexivity|]. split; [reflexivity|].
  split; [exact Hps | reflexivity].
Qed.

(** X5, witness: the sample server, just started, receives the version
    byte 3 and a whole syn in one piece. *)
Lemma ServerNegotiator_version_answer_drops_rest_witness :
  let rest := wire 7 0 (repeat xff (HANDSHAKE_LENGTH - 8)) in
  let ms := {| first := VInt 1; second := VInt 2; payload := VNone;
               timestamp := VInt 1000 |} in
  let bytes := entropy (world started_server) (draws (world started_server))
                 (HANDSHAKE_LENGTH - 8) in
  exists n' : Negotiator,
    dataReceived ServerNegotiator (x03 :: rest) started_server = (Ok tt, n') /\
    observer n' =
      observer started_server ++
      [ObsWrite (byte_of_Z protocolVersion ::
                 pack_ulong 1 ++ pack_ulong 2 ++ bytes)] /\
    my_syn n' = Some (set_payload (VStr bytes) ms) /\
    buffer n' = Some empty_stream /\
    peer_syn n' = None /\
    peer_ack n' = peer_ack started_server.
Proof.
  apply (ServerNegotiator_version_answer_drops_rest started_server
           empty_stream
           {| first := VInt 1; second := VInt 2; payload := VNone;
              timestamp := VInt 1000 |} 1 2 x03
           (wire 7 0 (repeat xff (HANDSHAKE_LENGTH - 8))));
    vm_compute; solve [reflexivity | discriminate].
Defined.

(** ** The server and the peer's syn *)

Lemma ServerNegotiator_synReceived_run
    (n : Negotiator) (b : BufferedByteStream) (ps ms : Packet) (f g : Z) :
  peer_syn n = Some ps ->
  my_syn n = Some ms ->
  buffer n = Some b ->
  ulong_of (timestamp ps) = Some f ->
  ulong_of (timestamp ms) = Some g ->
  let w := world n in
  let bytes := entropy w (draws w) (HANDSHAKE_LENGTH - 8) in
  ServerNegotiator_synReceived n =
    (Ok tt,
     set_observer
       (observer n ++ [ObsWrite (pack_ulong f ++ pack_ulong g ++ bytes)])
       (set_buffer (Some empty_stream)
          (set_my_ack
             (Some {| first := timestamp ps; second := timestamp ms;
                      payload := VStr bytes;
                      timestamp := VInt (clock w (ticks w)) |})
             (set_world (draw (tick w)) n)))).
Proof.
  intros Hps Hms Hb Hf Hg w bytes. unfold ServerNegotiator_synReceived.
  erewrite bind_Ok; [|reflexivity]. rewrite Hps.
  erewrite bind_Ok; [|reflexivity]. rewrite Hms.
  erewrite bind_Ok; [|reflexivity].
  erewrite bind_Ok; [|reflexivity].
  erewrite bind_Ok; [|reflexivity].
  set (p0 := {| first := timestamp ps; second := timestamp ms;
                payload := VNone; timestamp := VInt (clock w (ticks w)) |}).
  change (Packet_init _ _) with p0.
  rewrite (writeAck_run
             (set_my_ack (Some p0) (set_world (tick (world n)) n))
             p0 b f g eq_refl Hb Hf Hg).
  reflexivity.
Qed.

(** The read that brings the syn to a server: the state it leaves. *)
Lemma ServerNegotiator_syn_step
    (n : Negotiator) (b : BufferedByteStream) (ms : Packet) (f g : Z)
    (data : list byte) :
  started n = true ->
  buffer n = Some b ->
  not_version (peer_version n) = false ->
  peer_syn n = None ->
  peer_ack n = None ->
  my_syn n = Some ms ->
  (HANDSHAKE_LENGTH <= length (getvalue b) + length data - tell b)%nat ->
  let w := world n in
  ulong_of (VInt (clock w (ticks w))) = Some f ->
  ulong_of (timestamp ms) = Some g ->
  let bytes := entropy w (draws w) (HANDSHAKE_LENGTH - 8) in
  let b1 := appended data b in
  dataReceived ServerNegotiator data n =
    (Ok tt,
     set_observer
       (observer n ++ [ObsWrite (pack_ulong f ++ pack_ulong g ++ bytes)])
       (set_buffer (Some empty_stream)
          (set_my_ack
             (Some {| first := VInt (clock w (ticks w));
                      second := timestamp ms;
                      payload := VStr bytes;
                      timestamp := VInt (clock w (S (ticks w))) |})
             (set_world (draw (tick (tick w)))
                (set_peer_syn
                   (Some (decoded b1 (VInt (clock w (ticks w)))))
                   (set_buffer (Some (advance HANDSHAKE_LENGTH b1)) n)))))).
Proof.
  intros Hs Hb Hv Hps Hpa Hms Hlen w Hf Hg bytes b1.
  set (n1 := set_buffer (Some b1) n).
  assert (Hr : (HANDSHAKE_LENGTH <= remaining b1)%nat)
    by (unfold b1; rewrite remaining_appended; exact Hlen).
  set (ps := decoded b1 (VInt (clock w (ticks w)))).
  set (n2 := set_peer_syn (Some ps)
               (set_buffer (Some (advance HANDSHAKE_LENGTH b1))
                  (set_world (tick (world n1)) n1))).
  pose proof (ServerNegotiator_synReceived_run n2
                (advance HANDSHAKE_LENGTH b1) ps ms f g
                eq_refl Hms eq_refl Hf Hg) as Hsyn.
  cbv zeta in Hsyn.
  apply dataReceived_Ok.
  rewrite (dataReceived_try_started _ data n b Hs Hb). fold b1 n1.
  unfold _process.
  erewrite bind_Ok; [|apply process_version_skip; exact Hv]. cbn [negb].
  erewrite bind_Ok.
  2:{ rewrite (process_syn_full _ n1 b1 Hps eq_refl Hr). fold ps n2.
      change (synReceived ServerNegotiator)
        with ServerNegotiator_synReceived.
      erewrite bind_Ok; [|exact Hsyn]. reflexivity. }
  cbn [negb].
  erewrite bind_Ok;
    [|eapply process_ack_short;
      [exact Hpa | reflexivity
      | unfold remaining, HANDSHAKE_LENGTH; cbn; lia]].
  cbn [negb]. unfold ret. rewrite set_peer_ack_id by exact Hpa.
  reflexivity.
Qed.

(** X6.  A started server that has the peer's version and awaits the syn
    receives data that brings 1536 unread bytes or more.  It reads the syn
    and answers with one [write]: the encoding of an ack whose [first] is
    the time at which the syn was read (not a field of the syn), whose
    [second] is the timestamp of its own syn, and whose payload is freshly
    drawn.  The buffer is then emptied, so bytes that followed the syn in
    the same read are not kept, and the ack stage only waits. *)
Theorem ServerNegotiator_syn_answer
    (n : Negotiator) (b : BufferedByteStream) (ms : Packet) (f g : Z)
    (data : list byte) :
  started n = true ->
  buffer n = Some b ->
  not_version (peer_version n) = false ->
  peer_syn n = None ->
  peer_ack n = None ->
  my_syn n = Some ms ->
  (HANDSHAKE_LENGTH <= length (getvalue b) + length data - tell b)%nat ->
  let w := world n in
  ulong_of (VInt (clock w (ticks w))) = Some f ->
  ulong_of (timestamp ms) = Some g ->
  let bytes := entropy w (draws w) (HANDSHAKE_LENGTH - 8) in
  exists n' : Negotiator,
    dataReceived ServerNegotiator data n = (Ok tt, n') /\
    peer_syn n' =
      Some (decoded (appended data b) (VInt (clock w (ticks w)))) /\
    my_ack n' =
      Some {| first := VInt (clock w (ticks w)); second := timestamp ms;
              payload := VStr bytes;
              timestamp := VInt (clock w (S (ticks w))) |} /\
    observer n' =
      observer n ++ [ObsWrite (pack_ulong f ++ pack_ulong g ++ bytes)] /\
    buffer n' = Some empty_stream /\
    peer_ack n' = None.
Proof.
  intros Hs Hb Hv Hps Hpa Hms Hlen w Hf Hg bytes.
  eexists. split.
  - apply (ServerNegotiator_syn_step n b ms f g data
             Hs Hb Hv Hps Hpa Hms Hlen Hf Hg).
  - split; [reflexivity|]. split; [reflexivity|]. split; [reflexivity|].
    split; [reflexivity | exact Hpa].
Qed.

(** X6, witness: the sample server, after the version byte, receives a
    whole syn followed by one more byte. *)
Lemma ServerNegotiator_syn_answer_witness :
  let n := server_awaiting_syn in
  let data := wire 7 0 (repeat xff (HANDSHAKE_LENGTH - 8)) ++ [x09] in
  let w := world n in
  let bytes := entropy w (draws w) (HANDSHAKE_LENGTH - 8) in
  exists n' : Negotiator,
    dataReceived ServerNegotiator data n = (Ok tt, n') /\
    peer_syn n' =
      Some (decoded (appended data empty_stream)
              (VInt (clock w (ticks w)))) /\
    my_ack n' =
      Some {| first := VInt (clock w (ticks w));
              second := timestamp (set_payload (VStr (repeat x00 1528))
                                     sample_my_syn);
              payload := VStr bytes;
              timestamp := VInt (clock w (S (ticks w))) |} /\
    observer n' =
      observer n ++ [ObsWrite (pack_ulong 1001 ++ pack_ulong 1000 ++ bytes)] /\
    buffer n' = Some empty_stream /\
    peer_ack n' = None.
Proof.
  apply (ServerNegotiator_syn_answer server_awaiting_syn empty_stream
           (set_payload (VStr (repeat x00 1528)) sample_my_syn) 1001 1000
           (wire 7 0 (repeat xff (HANDSHAKE_LENGTH - 8)) ++ [x09]));
    vm_compute; solve [reflexivity | lia].
Defined.

(** ** The server and the peer's ack *)

Lemma ServerNegotiator_ackReceived_echo
    (n : Negotiator) (ms pa : Packet) :
  my_syn n = Some ms ->
  peer_ack n = Some pa ->
  first ms = first pa ->
  payload ms = payload pa ->
  ServerNegotiator_ackReceived n = (Ok tt, n).
Proof.
  intros Hms Hpa E1 E2. unfold ServerNegotiator_ackReceived.
  erewrite bind_Ok; [|reflexivity]. rewrite Hms.
  erewrite bind_Ok; [|reflexivity]. rewrite Hpa.
  erewrite bind_Ok; [|reflexivity].
  rewrite (bool_decide_eq_true_2 _ E1), (bool_decide_eq_true_2 _ E2).
  reflexivity.
Qed.

Lemma ServerNegotiator_ackReceived_mismatch
    (n : Negotiator) (ms pa : Packet) :
  my_syn n = Some ms ->
  peer_ack n = Some pa ->
  first ms <> first pa \/ payload ms <> payload pa ->
  ServerNegotiator_ackReceived n = (Raise VerificationError, n).
Proof.
  intros Hms Hpa Hne. unfold ServerNegotiator_ackReceived.
  erewrite bind_Ok; [|reflexivity]. rewrite Hms.
  erewrite bind_Ok; [|reflexivity]. rewrite Hpa.
  erewrite bind_Ok; [|reflexivity].
  destruct (decide (first ms = first pa)) as [E1|E1].
  - rewrite (bool_decide_eq_true_2 _ E1). cbn [negb].
    erewrite bind_Ok; [|reflexivity].
    destruct Hne as [Hne|Hne]; [contradiction|].
    rewrite (bool_decide_eq_false_2 _ Hne). reflexivity.
  - rewrite (bool_decide_eq_false_2 _ E1). reflexivity.
Qed.

(** X7.  A started server that has the peer's version and syn and awaits
    the ack receives data that brings 1536 unread bytes or more.  It reads
    the ack; when the ack carries the [first] and the payload of the
    server's own syn the observer gets [handshakeSuccess] and nothing else,
    otherwise it gets [handshakeFailure(VerificationError)].  Either way the
    server writes nothing, and the bytes after the ack stay unread in its
    buffer: unlike the client, it does not refuse trailing data. *)
Theorem ServerNegotiator_ack_verification
    (n : Negotiator) (b : BufferedByteStream) (ps ms : Packet)
    (data : list byte) :
  started n = true ->
  buffer n = Some b ->
  not_version (peer_version n) = false ->
  peer_syn n = Some ps ->
  peer_ack n = None ->
  my_syn n = Some ms ->
  (HANDSHAKE_LENGTH <= length (getvalue b) + length data - tell b)%nat ->
  let pa := decoded (appended data b)
              (VInt (clock (world n) (ticks (world n)))) in
  exists n' : Negotiator,
    dataReceived ServerNegotiator data n = (Ok tt, n') /\
    peer_ack n' = Some pa /\
    buffer n' = Some (advance HANDSHAKE_LENGTH (appended data b)) /\
    unread (advance HANDSHAKE_LENGTH (appended data b))
      = skipn HANDSHAKE_LENGTH (unread (appended data b)) /\
    (first ms = first pa /\ payload ms = payload pa ->
     observer n' = observer n ++ [ObsHandshakeSuccess]) /\
    (first ms <> first pa \/ payload ms <> payload pa ->
     observer n' = observer n ++ [ObsHandshakeFailure VerificationError]).
Proof.
  intros Hs Hb Hv Hps Hpa Hms Hlen pa.
  set (b1 := appended data b) in *.
  set (n1 := set_buffer (Some b1) n).
  assert (Hr : (HANDSHAKE_LENGTH <= remaining b1)%nat)
    by (unfold b1; rewrite remaining_appended; exact Hlen).
  set (n2 := set_peer_ack (Some pa)
               (set_buffer (Some (advance HANDSHAKE_LENGTH b1))
                  (set_world (tick (world n1)) n1))).
  assert (Htry : dataReceived_try ServerNegotiator data n =
                 bind (process_ack ServerNegotiator) (fun go =>
                   if negb go then ret tt
                   else observer_call ObsHandshakeSuccess) n1).
  { rewrite (dataReceived_try_started _ data n b Hs Hb). fold b1 n1.
    unfold _process.
    erewrite bind_Ok; [|apply process_version_skip; exact Hv]. cbn [negb].
    erewrite bind_Ok; [|apply (process_syn_skip _ n1 ps); exact Hps].
    reflexivity. }
  pose proof (process_ack_full ServerNegotiator n1 b1 Hpa eq_refl Hr) as Hack.
  fold pa n2 in Hack.
  change (ackReceived ServerNegotiator) with ServerNegotiator_ackReceived
    in Hack.
  destruct (decide (first ms = first pa /\ payload ms = payload pa))
    as [[E1 E2]|Hne].
  - exists (set_observer (observer n2 ++ [ObsHandshakeSuccess]) n2).
    split.
    + apply dataReceived_Ok. rewrite Htry.
      erewrite bind_Ok.
      2:{ rewrite Hack. erewrite bind_Ok;
            [|apply (ServerNegotiator_ackReceived_echo n2 ms pa
                       Hms eq_refl E1 E2)].
          reflexivity. }
      reflexivity.
    + split; [reflexivity|]. split; [reflexivity|].
      split; [apply unread_advance|]. split; [reflexivity|].
      intros [H|H]; contradiction.
  - assert (Hne' : first ms <> first pa \/ payload ms <> payload pa).
    { destruct (decide (first ms = first pa)) as [E1|E1]; [|left; exact E1].
      right. intros E2. apply Hne. split; assumption. }
    exists (set_observer
              (observer n2 ++ [ObsHandshakeFailure VerificationError]) n2).
    split.
    + apply dataReceived_Raise. rewrite Htry.
      apply bind_Raise. rewrite Hack. apply bind_Raise.
      apply (ServerNegotiator_ackReceived_mismatch n2 ms pa
               Hms eq_refl Hne').
    + split; [reflexivity|]. split; [reflexivity|].
      split; [apply unread_advance|].
      split; [intros H; contradiction | reflexivity].
Qed.

(** X7, witness: the sample server, after the version byte and a syn,
    receives an ack that echoes its syn, followed by one more byte. *)
Lemma ServerNegotiator_ack_verification_witness :
  let n := server_awaiting_ack in
  let data := wire 1 0 (repeat x00 (HANDSHAKE_LENGTH - 8)) ++ [x09] in
  let pa := decoded (appended data empty_stream)
              (VInt (clock (world n) (ticks (world n)))) in
  exists n' : Negotiator,
    dataReceived ServerNegotiator data n = (Ok tt, n') /\
    peer_ack n' = Some pa /\
    buffer n' = Some (advance HANDSHAKE_LENGTH (appended data empty_stream)) /\
    unread (advance HANDSHAKE_LENGTH (appended data empty_stream))
      = skipn HANDSHAKE_LENGTH (unread (appended data empty_stream)) /\
    (first sample_my_syn = first pa /\ payload sample_my_syn = payload pa ->
     observer n' = observer n ++ [ObsHandshakeSuccess]) /\
    (first sample_my_syn <> first pa \/ payload sample_my_syn <> payload pa ->
     observer n' = observer n ++ [ObsHandshakeFailure VerificationError]).
Proof.
  apply (ServerNegotiator_ack_verification server_awaiting_ack empty_stream
           (decoded (appended (wire 7 0 (repeat xff (HANDSHAKE_LENGTH - 8)))
                       empty_stream) (VInt 1001))
           sample_my_syn
           (wire 1 0 (repeat x00 (HANDSHAKE_LENGTH - 8)) ++ [x09]));
    vm_compute; solve [reflexivity | lia].
Defined.

(** ** The client and the peer's ack *)

(** With nothing left unread, [ClientNegotiator.ackReceived] is its two
    comparisons followed by the building and the writing of the ack. *)
Lemma ClientNegotiator_ackReceived_checks
    (n : Negotiator) (b : BufferedByteStream) (pa ms : Packet) :
  buffer n = Some b ->
  remaining b = 0%nat ->
  peer_ack n = Some pa ->
  my_syn n = Some ms ->
  ClientNegotiator_ackReceived n =
    bind (if negb (bool_decide (first pa = first ms))
          then raise VerificationError else ret tt)
      (fun _ =>
       bind (if negb (bool_decide (payload pa = payload ms))
             then raise VerificationError else ret tt)
         (fun _ =>
          bind (attr (peer_syn n)) (fun ps =>
          bind (with_world
                  (Packet_new {| kw_first := Some (first ps);
                                 kw_second := Some (timestamp ms);
                                 kw_payload := None;
                                 kw_timestamp := None |})) (fun p =>
          bind (modify (set_my_ack (Some p))) (fun _ => writeAck))))) n.
Proof.
  intros Hb Hr Hpa Hms. unfold ClientNegotiator_ackReceived.
  erewrite bind_Ok; [|apply (with_buffer_run _ n b b _ Hb); reflexivity].
  rewrite set_buffer_id by assumption. rewrite Hr. cbn [Nat.eqb negb].
  erewrite bind_Ok; [|reflexivity].
  erewrite bind_Ok; [|reflexivity].
  rewrite Hpa. erewrite bind_Ok; [|reflexivity].
  rewrite Hms. erewrite bind_Ok; [|reflexivity].
  reflexivity.
Qed.

Lemma ClientNegotiator_ackReceived_mismatch
    (n : Negotiator) (b : BufferedByteStream) (pa ms : Packet) :
  buffer n = Some b ->
  remaining b = 0%nat ->
  peer_ack n = Some pa ->
  my_syn n = Some ms ->
  first pa <> first ms \/ payload pa <> payload ms ->
  ClientNegotiator_ackReceived n = (Raise VerificationError, n).
Proof.
  intros Hb Hr Hpa Hms Hne.
  rewrite (ClientNegotiator_ackReceived_checks n b pa ms Hb Hr Hpa Hms).
  destruct (decide (first pa = first ms)) as [E1|E1].
  - rewrite (bool_decide_eq_true_2 _ E1). cbn [negb].
    erewrite bind_Ok; [|reflexivity].
    destruct Hne as [Hne|Hne]; [contradiction|].
    rewrite (bool_decide_eq_false_2 _ Hne). reflexivity.
  - rewrite (bool_decide_eq_false_2 _ E1). reflexivity.
Qed.

Lemma ClientNegotiator_ackReceived_echo
    (n : Negotiator) (b : BufferedByteStream) (pa ms ps : Packet)
    (f g : Z) :
  buffer n = Some b ->
  remaining b = 0%nat ->
  peer_ack n = Some pa ->
  my_syn n = Some ms ->
  peer_syn n = Some ps ->
  first pa = first ms ->
  payload pa = payload ms ->
  ulong_of (first ps) = Some f ->
  ulong_of (timestamp ms) = Some g ->
  let w := world n in
  let bytes := entropy w (draws w) (HANDSHAKE_LENGTH - 8) in
  ClientNegotiator_ackReceived n =
    (Ok tt,
     set_observer
       (observer n ++ [ObsWrite (pack_ulong f ++ pack_ulong g ++ bytes)])
       (set_buffer (Some empty_stream)
          (set_my_ack
             (Some {| first := first ps; second := timestamp ms;
                      payload := VStr bytes;
                      timestamp := VInt (clock w (ticks w)) |})
             (set_world (draw (tick w)) n)))).
Proof.
  intros Hb Hr Hpa Hms Hps E1 E2 Hf Hg w bytes.
  rewrite (ClientNegotiator_ackReceived_checks n b pa ms Hb Hr Hpa Hms).
  rewrite (bool_decide_eq_true_2 _ E1), (bool_decide_eq_true_2 _ E2).
  cbn [negb].
  erewrite bind_Ok; [|reflexivity].
  erewrite bind_Ok; [|reflexivity].
  rewrite Hps. erewrite bind_Ok; [|reflexivity].
  erewrite bind_Ok; [|reflexivity].
  erewrite bind_Ok; [|reflexivity].
  set (p0 := {| first := first ps; second := timestamp ms;
                payload := VNone; timestamp := VInt (clock w (ticks w)) |}).
  change (Packet_init _ _) with p0.
  rewrite (writeAck_run
             (set_my_ack (Some p0) (set_world (tick (world n)) n))
             p0 b f g eq_refl Hb Hf Hg).
  reflexivity.
Qed.

(** What [dataReceived] runs on a started negotiator that has the peer's
    version and syn and no ack yet. *)
Lemma dataReceived_try_at_ack (cls : NegotiatorClass) (data : list byte)
    (n : Negotiator) (b : BufferedByteStream) (ps : Packet) :
  started n = true ->
  buffer n = Some b ->
  not_version (peer_version n) = false ->
  peer_syn n = Some ps ->
  dataReceived_try cls data n =
    bind (process_ack cls) (fun go =>
      if negb go then ret tt else observer_call ObsHandshakeSuccess)
      (set_buffer (Some (appended data b)) n).
Proof.
  intros Hs Hb Hv Hps.
  rewrite (dataReceived_try_started _ data n b Hs Hb).
  unfold _process.
  erewrite bind_Ok; [|apply process_version_skip; exact Hv]. cbn [negb].
  erewrite bind_Ok;
    [|apply (process_syn_skip _ (set_buffer (Some (appended data b)) n) ps);
      exact Hps].
  reflexivity.
Qed.

(** The read that brings a client an ack that differs from its syn. *)
Lemma ClientNegotiator_ack_mismatch_step
    (n : Negotiator) (b : BufferedByteStream) (ps ms : Packet)
    (data : list byte) :
  started n = true ->
  buffer n = Some b ->
  not_version (peer_version n) = false ->
  peer_syn n = Some ps ->
  peer_ack n = None ->
  my_syn n = Some ms ->
  (length (getvalue b) + length data - tell b)%nat = HANDSHAKE_LENGTH ->
  let b1 := appended data b in
  let pa := decoded b1 (VInt (clock (world n) (ticks (world n)))) in
  first pa <> first ms \/ payload pa <> payload ms ->
  dataReceived ClientNegotiator data n =
    (Ok tt,
     set_observer (observer n ++ [ObsHandshakeFailure VerificationError])
       (set_peer_ack (Some pa)
          (set_buffer (Some (advance HANDSHAKE_LENGTH b1))
             (set_world (tick (world n)) n)))).
Proof.
  intros Hs Hb Hv Hps Hpa Hms Hlen b1 pa Hne.
  set (n1 := set_buffer (Some b1) n).
  assert (Hr : remaining b1 = HANDSHAKE_LENGTH)
    by (unfold b1; rewrite remaining_appended; exact Hlen).
  assert (Hr0 : remaining (advance HANDSHAKE_LENGTH b1) = 0%nat)
    by (rewrite remaining_advance, Hr; lia).
  set (n2 := set_peer_ack (Some pa)
               (set_buffer (Some (advance HANDSHAKE_LENGTH b1))
                  (set_world (tick (world n1)) n1))).
  pose proof (dataReceived_try_at_ack ClientNegotiator data n b ps
                Hs Hb Hv Hps) as Htry.
  fold b1 n1 in Htry.
  assert (Hack : process_ack ClientNegotiator n1 =
                 bind ClientNegotiator_ackReceived (fun _ => ret true) n2).
  { apply (process_ack_full ClientNegotiator n1 b1 Hpa eq_refl).
    rewrite Hr. apply Nat.le_refl. }
  change (dataReceived ClientNegotiator data n =
          (Ok tt,
           set_observer
             (observer n2 ++ [ObsHandshakeFailure VerificationError]) n2)).
  apply dataReceived_Raise. rewrite Htry.
  apply bind_Raise. rewrite Hack. apply bind_Raise.
  apply (ClientNegotiator_ackReceived_mismatch n2
           (advance HANDSHAKE_LENGTH b1) pa ms eq_refl Hr0 eq_refl Hms Hne).
Qed.

(** X8.  A started client that has the peer's version and syn receives
    data that completes exactly one packet (1536 unread bytes, nothing
    more).  When the ack differs from its syn in [first] or in the payload,
    the observer gets [handshakeFailure(VerificationError)] and nothing is
    written.  When the ack echoes both, the observer gets the client's ack
    in one [write] and then [handshakeSuccess], in this order, and the
    buffer is left empty. *)
Theorem ClientNegotiator_ack_completes
    (n : Negotiator) (b : BufferedByteStream) (ps ms : Packet)
    (data : list byte) :
  started n = true ->
  buffer n = Some b ->
  not_version (peer_version n) = false ->
  peer_syn n = Some ps ->
  peer_ack n = None ->
  my_syn n = Some ms ->
  (length (getvalue b) + length data - tell b)%nat = HANDSHAKE_LENGTH ->
  let w := world n in
  let pa := decoded (appended data b) (VInt (clock w (ticks w))) in
  (first pa <> first ms \/ payload pa <> payload ms ->
   exists n' : Negotiator,
     dataReceived ClientNegotiator data n = (Ok tt, n') /\
     observer n' = observer n ++ [ObsHandshakeFailure VerificationError]) /\
  (first pa = first ms -> payload pa = payload ms ->
   forall f g : Z,
   ulong_of (first ps) = Some f ->
   ulong_of (timestamp ms) = Some g ->
   let bytes := entropy w (draws w) (HANDSHAKE_LENGTH - 8) in
   exists n' : Negotiator,
     dataReceived ClientNegotiator data n = (Ok tt, n') /\
     observer n' =
       observer n ++ [ObsWrite (pack_ulong f ++ pack_ulong g ++ bytes);
                      ObsHandshakeSuccess] /\
     my_ack n' =
       Some {| first := first ps; second := timestamp ms;
               payload := VStr bytes;
               timestamp := VInt (clock w (S (ticks w))) |} /\
     peer_ack n' = Some pa /\
     buffer n' = Some empty_stream).
Proof.
  intros Hs Hb Hv Hps Hpa Hms Hlen w pa.
  set (b1 := appended data b) in *.
  set (n1 := set_buffer (Some b1) n).
  assert (Hr : remaining b1 = HANDSHAKE_LENGTH)
    by (unfold b1; rewrite remaining_appended; exact Hlen).
  assert (Hr0 : remaining (advance HANDSHAKE_LENGTH b1) = 0%nat)
    by (rewrite remaining_advance, Hr; lia).
  set (n2 := set_peer_ack (Some pa)
               (set_buffer (Some (advance HANDSHAKE_LENGTH b1))
                  (set_world (tick (world n1)) n1))).
  pose proof (dataReceived_try_at_ack ClientNegotiator data n b ps
                Hs Hb Hv Hps) as Htry.
  fold b1 n1 in Htry.
  assert (Hack : process_ack ClientNegotiator n1 =
                 bind ClientNegotiator_ackReceived (fun _ => ret true) n2).
  { apply (process_ack_full ClientNegotiator n1 b1 Hpa eq_refl).
    rewrite Hr. apply Nat.le_refl. }
  split.
  - intros Hne. eexists. split.
    + apply (ClientNegotiator_ack_mismatch_step n b ps ms data
               Hs Hb Hv Hps Hpa Hms Hlen Hne).
    + reflexivity.
  - intros E1 E2 f g Hf Hg bytes.
    pose proof (ClientNegotiator_ackReceived_echo n2
                  (advance HANDSHAKE_LENGTH b1) pa ms ps f g
                  eq_refl Hr0 eq_refl Hms Hps E1 E2 Hf Hg) as Hecho.
    cbv zeta in Hecho.
    eexists. split.
    + apply dataReceived_Ok. rewrite Htry.
      erewrite bind_Ok.
      2:{ rewrite Hack. erewrite bind_Ok; [|exact Hecho]. reflexivity. }
      reflexivity.
    + split; [cbn; rewrite <- app_assoc; reflexivity|].
      split; [reflexivity|]. split; reflexivity.
Qed.

(** X8, witness: the sample client receives an ack that echoes its syn
    (first 1, 1528 zero bytes). *)
Lemma ClientNegotiator_ack_completes_witness :
  let n := client_awaiting_ack in
  let data := wire 1 0 (repeat x00 (HANDSHAKE_LENGTH - 8)) in
  let w := world n in
  let bytes := entropy w (draws w) (HANDSHAKE_LENGTH - 8) in
  exists n' : Negotiator,
    dataReceived ClientNegotiator data n = (Ok tt, n') /\
    observer n' =
      observer n ++ [ObsWrite (pack_ulong 5 ++ pack_ulong 1000 ++ bytes);
                     ObsHandshakeSuccess] /\
    my_ack n' =
      Some {| first := first sample_peer_syn;
              second := timestamp sample_my_syn;
              payload := VStr bytes;
              timestamp := VInt (clock w (S (ticks w))) |} /\
    peer_ack n' =
      Some (decoded (appended data sample_stream)
              (VInt (clock w (ticks w)))) /\
    buffer n' = Some empty_stream.
Proof.
  apply (ClientNegotiator_ack_completes client_awaiting_ack sample_stream
           sample_peer_syn sample_my_syn
           (wire 1 0 (repeat x00 (HANDSHAKE_LENGTH - 8))));
    vm_compute; solve [reflexivity | lia].
Defined.

(** ** A negotiator started without an uptime *)

(** X9.  [start(uptime=None)] leaves [my_syn.first = None]; [encode] sends
    it as 0 ([self.first or 0]), but the verification compares the
    attribute itself with the integer [decode] read.  So a negotiator of
    either role whose [my_syn.first] is [None] refuses every ack, whatever
    its bytes: the observer gets [handshakeFailure(VerificationError)]. *)
Theorem uptime_None_never_verifies
    (r : Role) (n : Negotiator) (b : BufferedByteStream) (ps ms : Packet)
    (data : list byte) :
  started n = true ->
  buffer n = Some b ->
  not_version (peer_version n) = false ->
  peer_syn n = Some ps ->
  peer_ack n = None ->
  my_syn n = Some ms ->
  first ms = VNone ->
  (length (getvalue b) + length data - tell b)%nat = HANDSHAKE_LENGTH ->
  exists n' : Negotiator,
    dataReceived (negotiator_class r) data n = (Ok tt, n') /\
    observer n' = observer n ++ [ObsHandshakeFailure VerificationError].
Proof.
  intros Hs Hb Hv Hps Hpa Hms Hf Hlen.
  set (b1 := appended data b).
  set (n1 := set_buffer (Some b1) n).
  assert (Hr : remaining b1 = HANDSHAKE_LENGTH)
    by (unfold b1; rewrite remaining_appended; exact Hlen).
  assert (Hr0 : remaining (advance HANDSHAKE_LENGTH b1) = 0%nat)
    by (rewrite remaining_advance, Hr; lia).
  set (pa := decoded b1 (VInt (clock (world n) (ticks (world n))))).
  set (n2 := set_peer_ack (Some pa)
               (set_buffer (Some (advance HANDSHAKE_LENGTH b1))
                  (set_world (tick (world n1)) n1))).
  pose proof (dataReceived_try_at_ack (negotiator_class r) data n b ps
                Hs Hb Hv Hps) as Htry.
  fold b1 n1 in Htry.
  assert (Hack : process_ack (negotiator_class r) n1 =
                 bind (ackReceived (negotiator_class r))
                      (fun _ => ret true) n2).
  { apply (process_ack_full (negotiator_class r) n1 b1 Hpa eq_refl).
    rewrite Hr. apply Nat.le_refl. }
  assert (Hraise : ackReceived (negotiator_class r) n2
                   = (Raise VerificationError, n2)).
  { destruct r; cbn [negotiator_class ackReceived ClientNegotiator
                     ServerNegotiator].
    - apply (ClientNegotiator_ackReceived_mismatch n2
               (advance HANDSHAKE_LENGTH b1) pa ms eq_refl Hr0 eq_refl Hms).
      left. rewrite Hf. discriminate.
    - apply (ServerNegotiator_ackReceived_mismatch n2 ms pa Hms eq_refl).
      left. rewrite Hf. discriminate. }
  exists (set_observer
            (observer n2 ++ [ObsHandshakeFailure VerificationError]) n2).
  split; [|reflexivity].
  apply dataReceived_Raise. rewrite Htry.
  apply bind_Raise. rewrite Hack. apply bind_Raise. exact Hraise.
Qed.

(** X9, witness: a client started with [uptime = None] receives the ack
    that echoes what it sent: first 0 and its 1528 payload bytes. *)
Lemma uptime_None_never_verifies_witness :
  exists n' : Negotiator,
    dataReceived (negotiator_class Client)
      (wire 0 0 (repeat x00 (HANDSHAKE_LENGTH - 8))) client_without_uptime
      = (Ok tt, n') /\
    observer n' =
      observer client_without_uptime
      ++ [ObsHandshakeFailure VerificationError].
Proof.
  apply (uptime_None_never_verifies Client client_without_uptime
           sample_stream sample_peer_syn
           {| first := VNone; second := VInt 2;
              payload := VStr (repeat x00 (HANDSHAKE_LENGTH - 8));
              timestamp := VInt 1000 |}
           (wire 0 0 (repeat x00 (HANDSHAKE_LENGTH - 8))));
    vm_compute; solve [reflexivity | lia].
Defined.

(** ** After the handshake *)

(** X10.  Nothing records that the handshake is over.  A started
    negotiator of either role that has the peer's version, syn and ack
    keeps every later read in its buffer, unread, and calls
    [handshakeSuccess] once more for each of them. *)
Theorem dataReceived_after_completion
    (r : Role) (n : Negotiator) (b : BufferedByteStream) (ps pa : Packet)
    (data : list byte) :
  started n = true ->
  buffer n = Some b ->
  not_version (peer_version n) = false ->
  peer_syn n = Some ps ->
  peer_ack n = Some pa ->
  dataReceived (negotiator_class r) data n =
    (Ok tt,
     set_observer (observer n ++ [ObsHandshakeSuccess])
       (set_buffer (Some (appended data b)) n)).
Proof.
  intros Hs Hb Hv Hps Hpa.
  apply dataReceived_Ok.
  rewrite (dataReceived_try_at_ack _ data n b ps Hs Hb Hv Hps).
  erewrite bind_Ok;
    [|apply (process_ack_skip _ (set_buffer (Some (appended data b)) n) pa);
      exact Hpa].
  reflexivity.
Qed.

(** X10, witness: the sample client, its handshake over, receives one
    byte. *)
Lemma dataReceived_after_completion_witness :
  dataReceived (negotiator_class Client) [x09] client_done =
    (Ok tt,
     set_observer (observer client_done ++ [ObsHandshakeSuccess])
       (set_buffer (Some (appended [x09] empty_stream)) client_done)).
Proof.
  apply (dataReceived_after_completion Client client_done empty_stream
           sample_peer_syn
           (decoded (appended (wire 1 0 (repeat x00 (HANDSHAKE_LENGTH - 8)))
                       sample_stream) (VInt 1002))
           [x09]);
    vm_compute; reflexivity.
Defined.

(** ** The client before the ack *)

(** The read that brings a client the version byte 3, a syn and less than
    a second packet: the state it leaves. *)
Lemma ClientNegotiator_version_syn_step
    (n : Negotiator) (b : BufferedByteStream) (c : byte)
    (rest : list byte) :
  started n = true ->
  buffer n = Some b ->
  tell b = length (getvalue b) ->
  not_version (peer_version n) = true ->
  peer_syn n = None ->
  peer_ack n = None ->
  Z_of_byte c = RTMP_PROTOCOL_VERSION ->
  (HANDSHAKE_LENGTH <= length rest < 2 * HANDSHAKE_LENGTH)%nat ->
  let b1 := appended (c :: rest) b in
  dataReceived ClientNegotiator (c :: rest) n =
    (Ok tt,
     set_peer_syn
       (Some (decoded (advance 1 b1)
                (VInt (clock (world n) (ticks (world n))))))
       (set_buffer (Some (advance (1 + HANDSHAKE_LENGTH) b1))
          (set_world (tick (world n))
             (set_peer_version (Some RTMP_PROTOCOL_VERSION) n)))).
Proof.
  intros Hs Hb Ht Hv Hps Hpa Hc Hlen b1.
  assert (Hu : unread b1 = c :: rest).
  { unfold unread, b1, appended. cbn. rewrite Ht, drop_app_length.
    reflexivity. }
  assert (Hrem : remaining b1 = S (length rest)).
  { unfold b1. rewrite remaining_appended. cbn [length]. lia. }
  set (n1 := set_peer_version (Some (Z_of_byte c))
               (set_buffer (Some (advance 1 b1)) (set_buffer (Some b1) n))).
  pose proof (process_version_read ClientNegotiator
                (set_buffer (Some b1) n) b1 c rest eq_refl Hv Hu) as Hpv.
  fold n1 in Hpv.
  change (versionReceived ClientNegotiator)
    with ClientNegotiator_versionReceived in Hpv.
  assert (Hvr : ClientNegotiator_versionReceived n1 = (Ok tt, n1)).
  { rewrite (ClientNegotiator_versionReceived_outcome n1 (Z_of_byte c)
               eq_refl).
    rewrite Hc. reflexivity. }
  set (ps := decoded (advance 1 b1)
               (VInt (clock (world n) (ticks (world n))))).
  set (n2 := set_peer_syn (Some ps)
               (set_buffer (Some (advance HANDSHAKE_LENGTH (advance 1 b1)))
                  (set_world (tick (world n1)) n1))).
  assert (Hsyn : process_syn ClientNegotiator n1 =
                 bind ClientNegotiator_synReceived (fun _ => ret true) n2).
  { apply (process_syn_full ClientNegotiator n1 (advance 1 b1) Hps eq_refl).
    rewrite remaining_advance, Hrem. lia. }
  apply dataReceived_Ok.
  rewrite (dataReceived_try_started _ (c :: rest) n b Hs Hb). fold b1.
  unfold _process.
  erewrite bind_Ok.
  2:{ rewrite Hpv. erewrite bind_Ok; [|exact Hvr]. reflexivity. }
  cbn [negb].
  erewrite bind_Ok; [|rewrite Hsyn; reflexivity].
  cbn [negb].
  erewrite bind_Ok;
    [|eapply process_ack_short;
      [exact Hpa | reflexivity
      | rewrite !remaining_advance, Hrem; lia]].
  cbn [negb]. unfold ret. rewrite set_peer_ack_id by exact Hpa.
  unfold n2, n1. rewrite advance_advance, Hc. reflexivity.
Qed.

(** X11.  A started client whose buffer holds nothing unread receives, in
    one read, the version byte 3, a whole syn, and fewer than 1536 bytes
    more.  It records the version and the syn, leaves the bytes after the
    syn unread in the buffer, and calls nothing on the observer: the client
    sends its ack only once the peer's ack has come. *)
Theorem ClientNegotiator_silent_until_ack
    (n : Negotiator) (b : BufferedByteStream) (c : byte)
    (rest : list byte) :
  started n = true ->
  buffer n = Some b ->
  tell b = length (getvalue b) ->
  not_version (peer_version n) = true ->
  peer_syn n = None ->
  peer_ack n = None ->
  Z_of_byte c = RTMP_PROTOCOL_VERSION ->
  (HANDSHAKE_LENGTH <= length rest < 2 * HANDSHAKE_LENGTH)%nat ->
  let b1 := appended (c :: rest) b in
  exists n' : Negotiator,
    dataReceived ClientNegotiator (c :: rest) n = (Ok tt, n') /\
    observer n' = observer n /\
    peer_version n' = Some RTMP_PROTOCOL_VERSION /\
    peer_syn n' =
      Some (decoded (advance 1 b1)
              (VInt (clock (world n) (ticks (world n))))) /\
    peer_ack n' = None /\
    buffer n' = Some (advance (1 + HANDSHAKE_LENGTH) b1) /\
    unread (advance (1 + HANDSHAKE_LENGTH) b1) = skipn HANDSHAKE_LENGTH rest.
Proof.
  intros Hs Hb Ht Hv Hps Hpa Hc Hlen b1.
  eexists. split.
  - apply (ClientNegotiator_version_syn_step n b c rest
             Hs Hb Ht Hv Hps Hpa Hc Hlen).
  - split; [reflexivity|]. split; [reflexivity|]. split; [reflexivity|].
    split; [exact Hpa|]. split; [reflexivity|].
    rewrite unread_advance. unfold unread, b1, appended. cbn [getvalue tell].
    rewrite Ht, drop_app_length. reflexivity.
Qed.

(** X11, witness: the sample client receives the version byte, a syn and
    two more bytes in one read. *)
Lemma ClientNegotiator_silent_until_ack_witness :
  let n := started_client in
  let rest := wire 5 0 (repeat xff (HANDSHAKE_LENGTH - 8)) ++ [x01; x02] in
  let b1 := appended (x03 :: rest) empty_stream in
  exists n' : Negotiator,
    dataReceived ClientNegotiator (x03 :: rest) n = (Ok tt, n') /\
    observer n' = observer n /\
    peer_version n' = Some RTMP_PROTOCOL_VERSION /\
    peer_syn n' =
      Some (decoded (advance 1 b1)
              (VInt (clock (world n) (ticks (world n))))) /\
    peer_ack n' = None /\
    buffer n' = Some (advance (1 + HANDSHAKE_LENGTH) b1) /\
    unread (advance (1 + HANDSHAKE_LENGTH) b1) = skipn HANDSHAKE_LENGTH rest.
Proof.
  apply (ClientNegotiator_silent_until_ack started_client empty_stream x03
           (wire 5 0 (repeat xff (HANDSHAKE_LENGTH - 8)) ++ [x01; x02]));
    vm_compute; solve [reflexivity | lia].
Defined.

(** ** The two negotiators against each other *)

(** The packet [decode] reads from a stream whose unread bytes are the
    wire form of two integers and a payload of 1528 bytes. *)
Lemma decoded_wire (b : BufferedByteStream) (f g : Z) (s : list byte)
    (ts : value) :
  unread b = pack_ulong f ++ pack_ulong g ++ s ->
  0 <= f <= 4294967295 ->
  0 <= g <= 4294967295 ->
  length s = (HANDSHAKE_LENGTH - 8)%nat ->
  decoded b ts =
    {| first := VInt f; second := VInt g; payload := VStr s;
       timestamp := ts |}.
Proof.
  intros Hu Hf Hg Hs. unfold decoded. rewrite Hu.
  replace (skipn 8 (pack_ulong f ++ pack_ulong g ++ s)) with s
    by reflexivity.
  replace (skipn 4 (pack_ulong f ++ pack_ulong g ++ s))
    with (pack_ulong g ++ s) by reflexivity.
  replace (firstn 4 (pack_ulong f ++ pack_ulong g ++ s))
    with (pack_ulong f) by reflexivity.
  replace (firstn 4 (pack_ulong g ++ s)) with (pack_ulong g)
    by reflexivity.
  rewrite firstn_all2 by (rewrite Hs; apply Nat.le_refl).
  rewrite !unpack_pack_ulong by assumption. reflexivity.
Qed.

Lemma ClientNegotiator_start_run
    (n : Negotiator) (uptime version : value) (f g : Z) :
  started n = false ->
  ulong_of uptime = Some f ->
  ulong_of version = Some g ->
  let w := world n in
  let bytes := entropy w (draws w) (HANDSHAKE_LENGTH - 8) in
  ClientNegotiator_start uptime version n =
    (Ok tt,
     {| observer :=
          observer n ++
          [ObsWrite (byte_of_Z protocolVersion ::
                     pack_ulong f ++ pack_ulong g ++ bytes)];
        started := true;
        buffer := Some empty_stream; peer_version := None;
        my_syn :=
          Some {| first := uptime; second := version;
                  payload := VStr bytes;
                  timestamp := VInt (clock w (ticks w)) |};
        my_ack := None; peer_syn := None; peer_ack := None;
        world := draw (tick w) |}).
Proof.
  intros Hs Hf Hg w bytes.
  unfold ClientNegotiator_start, buildSynPayload.
  erewrite bind_Ok; [|apply (BaseNegotiator_start_run _ _ n Hs)].
  set (n1 := {| observer := observer n; started := true;
                buffer := Some empty_stream; peer_version := None;
                my_syn :=
                  Some {| first := uptime; second := version;
                          payload := VNone;
                          timestamp := VInt (clock w (ticks w)) |};
                my_ack := None; peer_syn := None; peer_ack := None;
                world := tick w |}).
  erewrite bind_Ok; [|apply (generate_payload_run Ref_my_syn n1 _ eq_refl)].
  cbn [assign].
  set (syn := {| first := uptime; second := version; payload := VStr bytes;
                 timestamp := VInt (clock w (ticks w)) |}).
  change (set_payload _ _) with syn.
  set (n2 := set_my_syn (Some syn) (set_world (draw (world n1)) n1)).
  rewrite (writeVersionAndSyn_run n2 syn empty_stream f g bytes
             eq_refl eq_refl Hf Hg eq_refl).
  reflexivity.
Qed.

Lemma Z_of_byte_protocolVersion :
  Z_of_byte (byte_of_Z protocolVersion) = RTMP_PROTOCOL_VERSION.
Proof. reflexivity. Qed.

(** X12.  A client and a server of this module are started and each
    [write] is delivered to the other side whole.  The client's [start]
    writes the version byte and its syn in one piece; the server reads the
    version byte, answers with its own version and syn, and in doing so
    empties its buffer, the client's syn with it.  The client reads the
    server's version and syn and, being a client, waits for an ack.  The
    exchange is then stuck: the server still awaits the syn with an empty
    buffer, the client awaits the ack with nothing left unread, and neither
    observer was told of a success or of a failure. *)
Theorem handshake_exchange_stalls
    (c s : Negotiator) (uc vc us vs : value) (fc gc fs gs : Z) :
  started c = false ->
  started s = false ->
  ulong_of uc = Some fc ->
  ulong_of vc = Some gc ->
  ulong_of us = Some fs ->
  ulong_of vs = Some gs ->
  let bytes_c :=
    entropy (world c) (draws (world c)) (HANDSHAKE_LENGTH - 8) in
  let bytes_s :=
    entropy (world s) (draws (world s)) (HANDSHAKE_LENGTH - 8) in
  length bytes_s = (HANDSHAKE_LENGTH - 8)%nat ->
  let syn_c := byte_of_Z protocolVersion ::
               pack_ulong fc ++ pack_ulong gc ++ bytes_c in
  let syn_s := byte_of_Z protocolVersion ::
               pack_ulong fs ++ pack_ulong gs ++ bytes_s in
  exists c1 s1 s2 c2 : Negotiator,
    start ClientNegotiator uc vc c = (Ok tt, c1) /\
    observer c1 = observer c ++ [ObsWrite syn_c] /\
    start ServerNegotiator us vs s = (Ok tt, s1) /\
    observer s1 = observer s /\
    dataReceived ServerNegotiator syn_c s1 = (Ok tt, s2) /\
    observer s2 = observer s ++ [ObsWrite syn_s] /\
    dataReceived ClientNegotiator syn_s c1 = (Ok tt, c2) /\
    observer c2 = observer c1 /\
    peer_syn s2 = None /\
    buffer s2 = Some empty_stream /\
    peer_ack c2 = None /\
    exists bc : BufferedByteStream,
      buffer c2 = Some bc /\ remaining bc = 0%nat.
Proof.
  intros Hc Hs Hfc Hgc Hfs Hgs bytes_c bytes_s Hlen syn_c syn_s.
  (* the two starts *)
  pose proof (ClientNegotiator_start_run c uc vc fc gc Hc Hfc Hgc) as Hc1.
  cbv zeta in Hc1. fold bytes_c in Hc1.
  match type of Hc1 with _ = (_, ?x) => set (c1 := x) in * end.
  pose proof (BaseNegotiator_start_run us vs s Hs) as Hs1.
  match type of Hs1 with _ = (_, ?x) => set (s1 := x) in * end.
  (* the server reads the client's write *)
  pose proof (ServerNegotiator_version_step s1 empty_stream
                {| first := us; second := vs; payload := VNone;
                   timestamp := VInt (clock (world s) (ticks (world s))) |}
                fs gs (byte_of_Z protocolVersion)
                (pack_ulong fc ++ pack_ulong gc ++ bytes_c)
                eq_refl eq_refl eq_refl eq_refl eq_refl eq_refl Hfs Hgs)
    as Hs2.
  cbv zeta in Hs2. rewrite Z_of_byte_protocolVersion in Hs2.
  change (base_version_outcome RTMP_PROTOCOL_VERSION) with (Ok tt) in Hs2.
  cbv iota in Hs2.
  apply dataReceived_Ok in Hs2.
  match type of Hs2 with _ = (_, ?x) => set (s2 := x) in * end.
  (* the client reads the server's write *)
  assert (Hl : (HANDSHAKE_LENGTH
                <= length (pack_ulong fs ++ pack_ulong gs ++ bytes_s)
                < 2 * HANDSHAKE_LENGTH)%nat).
  { rewrite !length_app, !pack_ulong_length, Hlen.
    unfold HANDSHAKE_LENGTH. lia. }
  pose proof (ClientNegotiator_version_syn_step c1 empty_stream
                (byte_of_Z protocolVersion)
                (pack_ulong fs ++ pack_ulong gs ++ bytes_s)
                eq_refl eq_refl eq_refl eq_refl eq_refl eq_refl
                Z_of_byte_protocolVersion Hl) as Hc2.
  cbv zeta in Hc2.
  match type of Hc2 with _ = (_, ?x) => set (c2 := x) in * end.
  exists c1, s1, s2, c2.
  split; [exact Hc1|]. split; [reflexivity|].
  split; [exact Hs1|]. split; [reflexivity|].
  split; [exact Hs2|]. split; [reflexivity|].
  split; [exact Hc2|]. split; [reflexivity|].
  split; [reflexivity|]. split; [reflexivity|]. split; [reflexivity|].
  eexists. split; [reflexivity|].
  rewrite remaining_advance, remaining_appended.
  cbn [getvalue tell empty_stream length].
  rewrite !length_app, !pack_ulong_length, Hlen.
  unfold HANDSHAKE_LENGTH. lia.
Qed.

(** X12, witness: a client and a server, both in the sample world, started
    with uptime 1 and version 2. *)
Lemma handshake_exchange_stalls_witness :
  let c := BaseNegotiator_init sample_world in
  let s := BaseNegotiator_init sample_world in
  let syn := byte_of_Z protocolVersion ::
             pack_ulong 1 ++ pack_ulong 2 ++
             repeat x00 (HANDSHAKE_LENGTH - 8) in
  exists c1 s1 s2 c2 : Negotiator,
    start ClientNegotiator (VInt 1) (VInt 2) c = (Ok tt, c1) /\
    observer c1 = observer c ++ [ObsWrite syn] /\
    start ServerNegotiator (VInt 1) (VInt 2) s = (Ok tt, s1) /\
    observer s1 = observer s /\
    dataReceived ServerNegotiator syn s1 = (Ok tt, s2) /\
    observer s2 = observer s ++ [ObsWrite syn] /\
    dataReceived ClientNegotiator syn c1 = (Ok tt, c2) /\
    observer c2 = observer c1 /\
    peer_syn s2 = None /\
    buffer s2 = Some empty_stream /\
    peer_ack c2 = None /\
    exists bc : BufferedByteStream,
      buffer c2 = Some bc /\ remaining bc = 0%nat.
Proof.
  apply (handshake_exchange_stalls
           (BaseNegotiator_init sample_world)
           (BaseNegotiator_init sample_world)
           (VInt 1) (VInt 2) (VInt 1) (VInt 2) 1 2 1 2);
    vm_compute; reflexivity.
Defined.

(** X13.  Even when the syn reaches the server in a read of its own, the
    two negotiators of this module do not agree.  The server answers a syn
    with an ack whose [first] is its own clock reading and whose payload is
    freshly drawn; the client accepts an ack only when its [first] and
    payload are those of the client's own syn.  So unless both happen to
    coincide, the client that is given the server's ack tells its observer
    [handshakeFailure(VerificationError)]. *)
Theorem ServerNegotiator_ack_refused_by_client
    (s c : Negotiator) (bs bc : BufferedByteStream)
    (ms_s ms_c ps_c : Packet) (f g : Z) (data : list byte) :
  started s = true ->
  buffer s = Some bs ->
  not_version (peer_version s) = false ->
  peer_syn s = None ->
  peer_ack s = None ->
  my_syn s = Some ms_s ->
  (HANDSHAKE_LENGTH <= length (getvalue bs) + length data - tell bs)%nat ->
  let w := world s in
  ulong_of (VInt (clock w (ticks w))) = Some f ->
  ulong_of (timestamp ms_s) = Some g ->
  let bytes := entropy w (draws w) (HANDSHAKE_LENGTH - 8) in
  length bytes = (HANDSHAKE_LENGTH - 8)%nat ->
  started c = true ->
  buffer c = Some bc ->
  tell bc = length (getvalue bc) ->
  not_version (peer_version c) = false ->
  peer_syn c = Some ps_c ->
  peer_ack c = None ->
  my_syn c = Some ms_c ->
  first ms_c <> VInt f \/ payload ms_c <> VStr bytes ->
  let ack := pack_ulong f ++ pack_ulong g ++ bytes in
  exists s' c' : Negotiator,
    dataReceived ServerNegotiator data s = (Ok tt, s') /\
    observer s' = observer s ++ [ObsWrite ack] /\
    dataReceived ClientNegotiator ack c = (Ok tt, c') /\
    observer c' = observer c ++ [ObsHandshakeFailure VerificationError].
Proof.
  intros Hs Hbs Hvs Hpss Hpas Hmss Hlens w Hf Hg bytes Hlen
         Hc Hbc Htc Hvc Hpsc Hpac Hmsc Hne ack.
  destruct (ulong_of_Some _ _ Hf) as [_ Hfr].
  destruct (ulong_of_Some _ _ Hg) as [_ Hgr].
  assert (Hla : length ack = HANDSHAKE_LENGTH).
  { unfold ack. rewrite !length_app, !pack_ulong_length, Hlen.
    reflexivity. }
  assert (Hu : unread (appended ack bc) = pack_ulong f ++ pack_ulong g ++ bytes).
  { unfold unread, appended. cbn [getvalue tell].
    rewrite Htc, drop_app_length. reflexivity. }
  assert (Hlenc : (length (getvalue bc) + length ack - tell bc)%nat
                  = HANDSHAKE_LENGTH) by (rewrite Hla, Htc; lia).
  pose proof (decoded_wire (appended ack bc) f g bytes
                (VInt (clock (world c) (ticks (world c))))
                Hu Hfr Hgr Hlen) as Hd.
  assert (Hne' :
    first (decoded (appended ack bc)
             (VInt (clock (world c) (ticks (world c))))) <> first ms_c \/
    payload (decoded (appended ack bc)
               (VInt (clock (world c) (ticks (world c))))) <> payload ms_c).
  { rewrite Hd. cbn [first payload].
    destruct Hne as [H|H]; [left|right]; intros E; apply H; symmetry;
      exact E. }
  eexists. eexists. split.
  - apply (ServerNegotiator_syn_step s bs ms_s f g data
             Hs Hbs Hvs Hpss Hpas Hmss Hlens Hf Hg).
  - split; [reflexivity|]. split.
    + apply (ClientNegotiator_ack_mismatch_step c bc ps_c ms_c ack
               Hc Hbc Hvc Hpsc Hpac Hmsc Hlenc Hne').
    + reflexivity.
Qed.

(** X13, witness: the sample server is given a syn, and the sample client
    the ack the server wrote. *)
Lemma ServerNegotiator_ack_refused_by_client_witness :
  let s := server_awaiting_syn in
  let c := client_awaiting_ack in
  let ack := pack_ulong 1001 ++ pack_ulong 1000 ++
             repeat x01 (HANDSHAKE_LENGTH - 8) in
  exists s' c' : Negotiator,
    dataReceived ServerNegotiator
      (wire 1 2 (repeat x00 (HANDSHAKE_LENGTH - 8))) s = (Ok tt, s') /\
    observer s' = observer s ++ [ObsWrite ack] /\
    dataReceived ClientNegotiator ack c = (Ok tt, c') /\
    observer c' = observer c ++ [ObsHandshakeFailure VerificationError].
Proof.
  apply (ServerNegotiator_ack_refused_by_client
           server_awaiting_syn client_awaiting_ack
           empty_stream sample_stream
           sample_my_syn sample_my_syn sample_peer_syn 1001 1000
           (wire 1 2 (repeat x00 (HANDSHAKE_LENGTH - 8))));
    try (vm_compute; solve [reflexivity | lia]).
  left. vm_compute. discriminate.
Defined.

(** ** Whole handshakes with a peer that echoes *)

Lemma ulong_of_VInt (l : Z) :
  0 <= l <= 4294967295 -> ulong_of (VInt l) = Some l.
Proof.
  intros Hl. unfold ulong_of, py_or, truthy.
  destruct (Z.eqb_spec l 0) as [->|Hne]; cbn [negb]; [reflexivity|].
  destruct (Z.leb_spec 0 l); [|lia].
  destruct (Z.leb_spec l 4294967295); [|lia]. reflexivity.
Qed.

Lemma unread_appended_at_end (data : list byte) (b : BufferedByteStream) :
  tell b = length (getvalue b) -> unread (appended data b) = data.
Proof.
  intros Ht. unfold unread, appended. cbn [getvalue tell].
  rewrite Ht, drop_app_length. reflexivity.
Qed.

(** The read that brings a client an ack that echoes its syn. *)
Lemma ClientNegotiator_ack_echo_step
    (n : Negotiator) (b : BufferedByteStream) (ps ms : Packet) (f g : Z)
    (data : list byte) :
  started n = true ->
  buffer n = Some b ->
  not_version (peer_version n) = false ->
  peer_syn n = Some ps ->
  peer_ack n = None ->
  my_syn n = Some ms ->
  (length (getvalue b) + length data - tell b)%nat = HANDSHAKE_LENGTH ->
  let w := world n in
  let pa := decoded (appended data b) (VInt (clock w (ticks w))) in
  first pa = first ms ->
  payload pa = payload ms ->
  ulong_of (first ps) = Some f ->
  ulong_of (timestamp ms) = Some g ->
  let bytes := entropy w (draws w) (HANDSHAKE_LENGTH - 8) in
  dataReceived ClientNegotiator data n =
    (Ok tt,
     set_observer
       (observer n ++ [ObsWrite (pack_ulong f ++ pack_ulong g ++ bytes);
                       ObsHandshakeSuccess])
       (set_buffer (Some empty_stream)
          (set_my_ack
             (Some {| first := first ps; second := timestamp ms;
                      payload := VStr bytes;
                      timestamp := VInt (clock w (S (ticks w))) |})
             (set_world (draw (tick (tick w)))
                (set_peer_ack (Some pa) n))))).
Proof.
  intros Hs Hb Hv Hps Hpa Hms Hlen w pa E1 E2 Hf Hg bytes.
  set (b1 := appended data b) in *.
  set (n1 := set_buffer (Some b1) n).
  assert (Hr : remaining b1 = HANDSHAKE_LENGTH)
    by (unfold b1; rewrite remaining_appended; exact Hlen).
  assert (Hr0 : remaining (advance HANDSHAKE_LENGTH b1) = 0%nat)
    by (rewrite remaining_advance, Hr; lia).
  set (n2 := set_peer_ack (Some pa)
               (set_buffer (Some (advance HANDSHAKE_LENGTH b1))
                  (set_world (tick (world n1)) n1))).
  pose proof (dataReceived_try_at_ack ClientNegotiator data n b ps
                Hs Hb Hv Hps) as Htry.
  fold b1 n1 in Htry.
  assert (Hack : process_ack ClientNegotiator n1 =
                 bind ClientNegotiator_ackReceived (fun _ => ret true) n2).
  { apply (process_ack_full ClientNegotiator n1 b1 Hpa eq_refl).
    rewrite Hr. apply Nat.le_refl. }
  pose proof (ClientNegotiator_ackReceived_echo n2
                (advance HANDSHAKE_LENGTH b1) pa ms ps f g
                eq_refl Hr0 eq_refl Hms Hps E1 E2 Hf Hg) as Hecho.
  cbv zeta in Hecho.
  apply dataReceived_Ok. rewrite Htry.
  erewrite bind_Ok.
  2:{ rewrite Hack. erewrite bind_Ok; [|exact Hecho]. reflexivity. }
  cbn [negb]. unfold observer_call, modify.
  cbn [observer set_observer]. rewrite <- app_assoc. reflexivity.
Qed.

(** The read that brings a server an ack that echoes its syn. *)
Lemma ServerNegotiator_ack_echo_step
    (n : Negotiator) (b : BufferedByteStream) (ps ms : Packet)
    (data : list byte) :
  started n = true ->
  buffer n = Some b ->
  not_version (peer_version n) = false ->
  peer_syn n = Some ps ->
  peer_ack n = None ->
  my_syn n = Some ms ->
  (HANDSHAKE_LENGTH <= length (getvalue b) + length data - tell b)%nat ->
  let b1 := appended data b in
  let pa := decoded b1 (VInt (clock (world n) (ticks (world n)))) in
  first ms = first pa ->
  payload ms = payload pa ->
  dataReceived ServerNegotiator data n =
    (Ok tt,
     set_observer (observer n ++ [ObsHandshakeSuccess])
       (set_peer_ack (Some pa)
          (set_buffer (Some (advance HANDSHAKE_LENGTH b1))
             (set_world (tick (world n)) n)))).
Proof.
  intros Hs Hb Hv Hps Hpa Hms Hlen b1 pa E1 E2.
  set (n1 := set_buffer (Some b1) n).
  assert (Hr : (HANDSHAKE_LENGTH <= remaining b1)%nat)
    by (unfold b1; rewrite remaining_appended; exact Hlen).
  set (n2 := set_peer_ack (Some pa)
               (set_buffer (Some (advance HANDSHAKE_LENGTH b1))
                  (set_world (tick (world n1)) n1))).
  pose proof (dataReceived_try_at_ack ServerNegotiator data n b ps
                Hs Hb Hv Hps) as Htry.
  fold b1 n1 in Htry.
  pose proof (process_ack_full ServerNegotiator n1 b1 Hpa eq_refl Hr) as Hack.
  fold pa n2 in Hack.
  change (ackReceived ServerNegotiator) with ServerNegotiator_ackReceived
    in Hack.
  apply dataReceived_Ok. rewrite Htry.
  erewrite bind_Ok.
  2:{ rewrite Hack. erewrite bind_Ok;
        [|apply (ServerNegotiator_ackReceived_echo n2 ms pa
                   Hms eq_refl E1 E2)].
      reflexivity. }
  reflexivity.
Qed.

(** X14.  A whole client handshake.  A client is started with an integer
    uptime [fc]; the peer sends the version byte 3 and a syn, then an ack
    that carries [fc] and the payload of the client's syn (its second
    integer is free).  The observer is called three times in all: a [write]
    of the version byte and the client's syn, a [write] of the client's ack,
    whose integers are the peer syn's [first] and the time the client's syn
    was made, and [handshakeSuccess]. *)
Theorem ClientNegotiator_handshake_with_echoing_peer
    (c : Negotiator) (vc : value) (fc gc fp gp x tc : Z)
    (sp : list byte) :
  started c = false ->
  0 <= fc <= 4294967295 ->
  ulong_of vc = Some gc ->
  0 <= fp <= 4294967295 ->
  0 <= gp <= 4294967295 ->
  0 <= x <= 4294967295 ->
  length sp = (HANDSHAKE_LENGTH - 8)%nat ->
  let w := world c in
  ulong_of (VInt (clock w (ticks w))) = Some tc ->
  let bytes := entropy w (draws w) (HANDSHAKE_LENGTH - 8) in
  length bytes = (HANDSHAKE_LENGTH - 8)%nat ->
  let bytes' := entropy w (S (draws w)) (HANDSHAKE_LENGTH - 8) in
  exists c1 c2 c3 : Negotiator,
    start ClientNegotiator (VInt fc) vc c = (Ok tt, c1) /\
    dataReceived ClientNegotiator (x03 :: wire fp gp sp) c1 = (Ok tt, c2) /\
    dataReceived ClientNegotiator (wire fc x bytes) c2 = (Ok tt, c3) /\
    observer c3 =
      observer c ++
      [ObsWrite (byte_of_Z protocolVersion :: wire fc gc bytes);
       ObsWrite (wire fp tc bytes');
       ObsHandshakeSuccess].
Proof.
  intros Hc Hfc Hgc Hfp Hgp Hx Hsp w Htc bytes Hlen bytes'.
  (* start *)
  pose proof (ClientNegotiator_start_run c (VInt fc) vc fc gc Hc
                (ulong_of_VInt fc Hfc) Hgc) as H1.
  cbv zeta in H1. fold w bytes in H1.
  match type of H1 with _ = (_, ?s) => set (c1 := s) in * end.
  (* the version byte and the syn *)
  assert (Hl : (HANDSHAKE_LENGTH <= length (wire fp gp sp)
                < 2 * HANDSHAKE_LENGTH)%nat).
  { unfold wire. rewrite !length_app, !pack_ulong_length, Hsp.
    unfold HANDSHAKE_LENGTH. lia. }
  pose proof (ClientNegotiator_version_syn_step c1 empty_stream x03
                (wire fp gp sp)
                eq_refl eq_refl eq_refl eq_refl eq_refl eq_refl
                eq_refl Hl) as H2.
  cbv zeta in H2.
  set (b1 := appended (x03 :: wire fp gp sp) empty_stream) in *.
  assert (Hps : decoded (advance 1 b1)
                  (VInt (clock (world c1) (ticks (world c1))))
                = {| first := VInt fp; second := VInt gp; payload := VStr sp;
                     timestamp :=
                       VInt (clock (world c1) (ticks (world c1))) |}).
  { apply decoded_wire; try assumption. reflexivity. }
  rewrite Hps in H2.
  match type of H2 with _ = (_, ?s) => set (c2 := s) in * end.
  (* the ack *)
  set (bc := advance (1 + HANDSHAKE_LENGTH) b1).
  assert (Htl : tell bc = length (getvalue bc)).
  { unfold bc, b1, advance, appended, wire.
    cbn [getvalue tell empty_stream app length].
    rewrite !length_app, !pack_ulong_length, Hsp.
    unfold HANDSHAKE_LENGTH. lia. }
  assert (Hla : length (wire fc x bytes) = HANDSHAKE_LENGTH).
  { unfold wire. rewrite !length_app, !pack_ulong_length, Hlen.
    reflexivity. }
  assert (Hpa : decoded (appended (wire fc x bytes) bc)
                  (VInt (clock (world c2) (ticks (world c2))))
                = {| first := VInt fc; second := VInt x;
                     payload := VStr bytes;
                     timestamp :=
                       VInt (clock (world c2) (ticks (world c2))) |}).
  { apply decoded_wire; try assumption.
    apply unread_appended_at_end, Htl. }
  pose proof (ClientNegotiator_ack_echo_step c2 bc
                {| first := VInt fp; second := VInt gp; payload := VStr sp;
                   timestamp :=
                     VInt (clock (world c1) (ticks (world c1))) |}
                {| first := VInt fc; second := vc; payload := VStr bytes;
                   timestamp := VInt (clock w (ticks w)) |}
                fp tc (wire fc x bytes)
                eq_refl eq_refl eq_refl eq_refl eq_refl eq_refl) as H3.
  cbv zeta in H3. rewrite Hpa in H3.
  specialize (H3 ltac:(rewrite Hla, Htl; lia) eq_refl eq_refl
                 (ulong_of_VInt fp Hfp) Htc).
  match type of H3 with _ = (_, ?s) => set (c3 := s) in * end.
  exists c1, c2, c3.
  split; [exact H1|]. split; [exact H2|]. split; [exact H3|].
  cbn [c3 c2 c1 observer set_observer set_buffer set_my_ack set_world
       set_peer_ack set_peer_syn set_peer_version].
  rewrite <- app_assoc. reflexivity.
Qed.

(** X14, witness: the sample world, uptime 1, version 2; the peer's syn has
    [first = 5] and a payload of bytes [xff]. *)
Lemma ClientNegotiator_handshake_with_echoing_peer_witness :
  let c := BaseNegotiator_init sample_world in
  exists c1 c2 c3 : Negotiator,
    start ClientNegotiator (VInt 1) (VInt 2) c = (Ok tt, c1) /\
    dataReceived ClientNegotiator
      (x03 :: wire 5 0 (repeat xff (HANDSHAKE_LENGTH - 8))) c1
      = (Ok tt, c2) /\
    dataReceived ClientNegotiator
      (wire 1 0 (repeat x00 (HANDSHAKE_LENGTH - 8))) c2 = (Ok tt, c3) /\
    observer c3 =
      observer c ++
      [ObsWrite (byte_of_Z protocolVersion ::
                 wire 1 2 (repeat x00 (HANDSHAKE_LENGTH - 8)));
       ObsWrite (wire 5 1000 (repeat x01 (HANDSHAKE_LENGTH - 8)));
       ObsHandshakeSuccess].
Proof.
  apply (ClientNegotiator_handshake_with_echoing_peer
           (BaseNegotiator_init sample_world) (VInt 2) 1 2 5 0 0 1000
           (repeat xff (HANDSHAKE_LENGTH - 8)));
    vm_compute; solve [reflexivity | lia | split; discriminate].
Defined.

(** X15.  A whole server handshake.  A server is started with an integer
    uptime [fs]; the peer sends the version byte 3, then a syn, then an ack
    that carries [fs] and the payload of the server's syn, each in a read of
    its own.  The observer is called three times in all: a [write] of the
    version byte and the server's syn, a [write] of the server's ack, whose
    integers are the time the peer's syn was read and the time the server's
    syn was made, and [handshakeSuccess]. *)
Theorem ServerNegotiator_handshake_with_echoing_peer
    (s : Negotiator) (vs : value) (fs gs fp gp x t0 t1 : Z)
    (sp : list byte) :
  started s = false ->
  0 <= fs <= 4294967295 ->
  ulong_of vs = Some gs ->
  0 <= fp <= 4294967295 ->
  0 <= gp <= 4294967295 ->
  0 <= x <= 4294967295 ->
  length sp = (HANDSHAKE_LENGTH - 8)%nat ->
  let w := world s in
  ulong_of (VInt (clock w (ticks w))) = Some t0 ->
  ulong_of (VInt (clock w (S (ticks w)))) = Some t1 ->
  let bytes := entropy w (draws w) (HANDSHAKE_LENGTH - 8) in
  length bytes = (HANDSHAKE_LENGTH - 8)%nat ->
  let bytes' := entropy w (S (draws w)) (HANDSHAKE_LENGTH - 8) in
  exists s1 s2 s3 s4 : Negotiator,
    start ServerNegotiator (VInt fs) vs s = (Ok tt, s1) /\
    dataReceived ServerNegotiator [x03] s1 = (Ok tt, s2) /\
    dataReceived ServerNegotiator (wire fp gp sp) s2 = (Ok tt, s3) /\
    dataReceived ServerNegotiator (wire fs x bytes) s3 = (Ok tt, s4) /\
    observer s4 =
      observer s ++
      [ObsWrite (byte_of_Z protocolVersion :: wire fs gs bytes);
       ObsWrite (wire t1 t0 bytes');
       ObsHandshakeSuccess].
Proof.
  intros Hs Hfs Hgs Hfp Hgp Hx Hsp w Ht0 Ht1 bytes Hlen bytes'.
  (* start *)
  pose proof (BaseNegotiator_start_run (VInt fs) vs s Hs) as H1.
  fold w in H1.
  match type of H1 with _ = (_, ?n) => set (s1 := n) in * end.
  (* the version byte *)
  set (ms0 := {| first := VInt fs; second := vs; payload := VNone;
                 timestamp := VInt (clock w (ticks w)) |}).
  pose proof (ServerNegotiator_version_step s1 empty_stream ms0
                fs gs x03 []
                eq_refl eq_refl eq_refl eq_refl eq_refl eq_refl
                (ulong_of_VInt fs Hfs) Hgs) as H2.
  cbv zeta in H2.
  change (base_version_outcome (Z_of_byte x03)) with (Ok tt) in H2.
  cbv iota in H2.
  apply dataReceived_Ok in H2.
  change (entropy (world s1) (draws (world s1)) (HANDSHAKE_LENGTH - 8))
    with bytes in H2.
  match type of H2 with _ = (_, ?n) => set (s2 := n) in * end.
  (* the syn *)
  assert (Hls : length (wire fp gp sp) = HANDSHAKE_LENGTH).
  { unfold wire. rewrite !length_app, !pack_ulong_length, Hsp.
    reflexivity. }
  pose proof (ServerNegotiator_syn_step s2 empty_stream
                (set_payload (VStr bytes) ms0) t1 t0 (wire fp gp sp)
                eq_refl eq_refl eq_refl eq_refl eq_refl eq_refl) as H3.
  cbv zeta in H3.
  specialize (H3 ltac:(cbn [getvalue tell empty_stream length];
                       rewrite Hls; lia) Ht1 Ht0).
  change (entropy (world s2) (draws (world s2)) (HANDSHAKE_LENGTH - 8))
    with bytes' in H3.
  match type of H3 with _ = (_, ?n) => set (s3 := n) in * end.
  (* the ack *)
  assert (Hla : length (wire fs x bytes) = HANDSHAKE_LENGTH).
  { unfold wire. rewrite !length_app, !pack_ulong_length, Hlen.
    reflexivity. }
  assert (Hpa : decoded (appended (wire fs x bytes) empty_stream)
                  (VInt (clock (world s3) (ticks (world s3))))
                = {| first := VInt fs; second := VInt x;
                     payload := VStr bytes;
                     timestamp :=
                       VInt (clock (world s3) (ticks (world s3))) |}).
  { apply decoded_wire; try assumption.
    apply unread_appended_at_end. reflexivity. }
  pose proof (ServerNegotiator_ack_echo_step s3 empty_stream
                (decoded (appended (wire fp gp sp) empty_stream)
                   (VInt (clock (world s2) (ticks (world s2)))))
                (set_payload (VStr bytes) ms0) (wire fs x bytes)
                eq_refl eq_refl eq_refl eq_refl eq_refl eq_refl) as H4.
  cbv zeta in H4. rewrite Hpa in H4.
  specialize (H4 ltac:(cbn [getvalue tell empty_stream length];
                       rewrite Hla; lia) eq_refl eq_refl).
  match type of H4 with _ = (_, ?n) => set (s4 := n) in * end.
  exists s1, s2, s3, s4.
  split; [exact H1|]. split; [exact H2|]. split; [exact H3|].
  split; [exact H4|].
  cbn [s4 s3 s2 s1 observer set_observer set_buffer set_my_ack set_my_syn
       set_world set_peer_ack set_peer_syn set_peer_version].
  rewrite <- !app_assoc. reflexivity.
Qed.

(** X15, witness: the sample world, uptime 1, version 2; the peer's syn has
    [first = 7] and a payload of bytes [xff]. *)
Lemma ServerNegotiator_handshake_with_echoing_peer_witness :
  let s := BaseNegotiator_init sample_world in
  exists s1 s2 s3 s4 : Negotiator,
    start ServerNegotiator (VInt 1) (VInt 2) s = (Ok tt, s1) /\
    dataReceived ServerNegotiator [x03] s1 = (Ok tt, s2) /\
    dataReceived ServerNegotiator
      (wire 7 0 (repeat xff (HANDSHAKE_LENGTH - 8))) s2 = (Ok tt, s3) /\
    dataReceived ServerNegotiator
      (wire 1 0 (repeat x00 (HANDSHAKE_LENGTH - 8))) s3 = (Ok tt, s4) /\
    observer s4 =
      observer s ++
      [ObsWrite (byte_of_Z protocolVersion ::
                 wire 1 2 (repeat x00 (HANDSHAKE_LENGTH - 8)));
       ObsWrite (wire 1001 1000 (repeat x01 (HANDSHAKE_LENGTH - 8)));
       ObsHandshakeSuccess].
Proof.
  apply (ServerNegotiator_handshake_with_echoing_peer
           (BaseNegotiator_init sample_world) (VInt 2) 1 2 7 0 0 1000 1001
           (repeat xff (HANDSHAKE_LENGTH - 8)));
    vm_compute; solve [reflexivity | lia | split; discriminate].
Defined.

(** ** A version byte 0 *)

(** X16.  The version stage runs while [not self.peer_version], and a peer
    version 0 is as false as [None].  A started server that is sent the
    version byte 0 answers with its version and syn, and still awaits the
    version: the next byte is read as the version again, and when that one
    is at most 3 the server draws a new payload for its syn and writes its
    version and syn a second time. *)
Theorem ServerNegotiator_version_zero_is_read_again
    (n : Negotiator) (b : BufferedByteStream) (ms : Packet) (f g : Z)
    (c : byte) :
  started n = true ->
  buffer n = Some b ->
  tell b = length (getvalue b) ->
  not_version (peer_version n) = true ->
  peer_syn n = None ->
  my_syn n = Some ms ->
  ulong_of (first ms) = Some f ->
  ulong_of (second ms) = Some g ->
  Z_of_byte c <= 3 ->
  let w := world n in
  let bytes := entropy w (draws w) (HANDSHAKE_LENGTH - 8) in
  let bytes' := entropy w (S (draws w)) (HANDSHAKE_LENGTH - 8) in
  exists n1 n2 : Negotiator,
    dataReceived ServerNegotiator [x00] n = (Ok tt, n1) /\
    peer_version n1 = Some 0 /\
    dataReceived ServerNegotiator [c] n1 = (Ok tt, n2) /\
    peer_version n2 = Some (Z_of_byte c) /\
    my_syn n2 = Some (set_payload (VStr bytes') ms) /\
    observer n2 =
      observer n ++
      [ObsWrite (byte_of_Z protocolVersion :: wire f g bytes);
       ObsWrite (byte_of_Z protocolVersion :: wire f g bytes')].
Proof.
  intros Hs Hb Ht Hv Hps Hms Hf Hg Hle w bytes bytes'.
  pose proof (ServerNegotiator_version_step n b ms f g x00 []
                Hs Hb Ht Hv Hps Hms Hf Hg) as H1.
  cbv zeta in H1.
  change (base_version_outcome (Z_of_byte x00)) with (Ok tt) in H1.
  cbv iota in H1. apply dataReceived_Ok in H1.
  fold w bytes in H1.
  match type of H1 with _ = (_, ?x) => set (n1 := x) in * end.
  pose proof (ServerNegotiator_version_step n1 empty_stream
                (set_payload (VStr bytes) ms) f g c []
                Hs eq_refl eq_refl eq_refl Hps eq_refl Hf Hg) as H2.
  cbv zeta in H2.
  destruct (base_version_outcome_cases (Z_of_byte c)) as (_ & _ & H3).
  rewrite (H3 Hle) in H2. apply dataReceived_Ok in H2.
  change (entropy (world n1) (draws (world n1)) (HANDSHAKE_LENGTH - 8))
    with bytes' in H2.
  match type of H2 with _ = (_, ?x) => set (n2 := x) in * end.
  exists n1, n2.
  split; [exact H1|]. split; [reflexivity|]. split; [exact H2|].
  split; [reflexivity|]. split; [reflexivity|].
  cbn [n2 n1 observer set_observer set_buffer set_my_syn set_world
       set_peer_version].
  rewrite <- app_assoc. reflexivity.
Qed.

(** X16, witness: the sample server, just started, receives the byte 0 and
    then the byte 3. *)
Lemma ServerNegotiator_version_zero_is_read_again_witness :
  let n := started_server in
  let ms := {| first := VInt 1; second := VInt 2; payload := VNone;
               timestamp := VInt 1000 |} in
  exists n1 n2 : Negotiator,
    dataReceived ServerNegotiator [x00] n = (Ok tt, n1) /\
    peer_version n1 = Some 0 /\
    dataReceived ServerNegotiator [x03] n1 = (Ok tt, n2) /\
    peer_version n2 = Some (Z_of_byte x03) /\
    my_syn n2 =
      Some (set_payload (VStr (repeat x01 (HANDSHAKE_LENGTH - 8))) ms) /\
    observer n2 =
      observer n ++
      [ObsWrite (byte_of_Z protocolVersion ::
                 wire 1 2 (repeat x00 (HANDSHAKE_LENGTH - 8)));
       ObsWrite (byte_of_Z protocolVersion ::
                 wire 1 2 (repeat x01 (HANDSHAKE_LENGTH - 8)))].
Proof.
  apply (ServerNegotiator_version_zero_is_read_again started_server
           empty_stream
           {| first := VInt 1; second := VInt 2; payload := VNone;
              timestamp := VInt 1000 |} 1 2 x03);
    vm_compute; solve [reflexivity | discriminate].
Defined.

(** ** What the client's version check can raise *)

(** X17.  [ClientNegotiator.versionReceived], whatever the integer the peer
    version is, never changes the negotiator, and when it raises, what it
    raises is a [ProtocolVersionError] (the class itself or one of its two
    subclasses) and so a [HandshakeError]; it is never a
    [VerificationError]. *)
Theorem ClientNegotiator_versionReceived_raises_version_errors
    (n : Negotiator) (v : Z) :
  peer_version n = Some v ->
  exists r : result unit,
    versionReceived ClientNegotiator n = (r, n) /\
    forall e : exn,
      r = Raise e ->
      isinstance e ProtocolVersionError = true /\
      isinstance e HandshakeError = true /\
      isinstance e VerificationError = false.
Proof.
  intros Hv.
  change (versionReceived ClientNegotiator)
    with ClientNegotiator_versionReceived.
  rewrite (ClientNegotiator_versionReceived_outcome n v Hv).
  eexists. split; [reflexivity|].
  intros e He. unfold version_outcome in He.
  destruct (v =? RTMP_PROTOCOL_VERSION); [discriminate|].
  destruct (MAX_PROTOCOL_VERSION <? v);
    [injection He as <-; repeat split; reflexivity|].
  destruct (RTMP_PROTOCOL_VERSION <? v);
    injection He as <-; repeat split; reflexivity.
Qed.

(** X17, witness: the sample client, whose peer version is set to 32. *)
Lemma ClientNegotiator_versionReceived_raises_version_errors_witness :
  let n := set_peer_version (Some 32) started_client in
  exists r : result unit,
    versionReceived ClientNegotiator n = (r, n) /\
    forall e : exn,
      r = Raise e ->
      isinstance e ProtocolVersionError = true /\
      isinstance e HandshakeError = true /\
      isinstance e VerificationError = false.
Proof.
  apply (ClientNegotiator_versionReceived_raises_version_errors
           (set_peer_version (Some 32) started_client) 32).
  reflexivity.
Defined.

(** ** What one call may tell the observer *)

Lemma silent_ret {A : Type} (a : A) : silent (ret a).
Proof. intros n n' r [= <- <-]. reflexivity. Qed.

Lemma silent_raise {A : Type} (e : exn) : silent (raise (A:=A) e).
Proof. intros n n' r [= <- <-]. reflexivity. Qed.

Lemma silent_get : silent get.
Proof. intros n n' r [= <- <-]. reflexivity. Qed.

Lemma silent_bind {A B : Type} (m : Eff Negotiator A)
    (k : A -> Eff Negotiator B) :
  silent m -> (forall a, silent (k a)) -> silent (bind m k).
Proof.
  intros Hm Hk n n' r. unfold bind.
  destruct (m n) as [[a|e] n1] eqn:E.
  - intros Hr. rewrite (Hk a _ _ _ Hr). apply (Hm _ _ _ E).
  - intros [= <- <-]. apply (Hm _ _ _ E).
Qed.

Lemma silent_modify (f : Negotiator -> Negotiator) :
  (forall n, observer (f n) = observer n) -> silent (modify f).
Proof. intros Hf n n' r [= <- <-]. apply Hf. Qed.

Lemma silent_with_buffer {A : Type} (m : Eff BufferedByteStream A) :
  silent (with_buffer m).
Proof.
  intros n n' r H. unfold with_buffer in H.
  destruct (buffer n) as [b|]; [destruct (m b) as [r' b']|];
    injection H as <- <-; reflexivity.
Qed.

Lemma silent_with_world {A : Type} (m : Eff World A) :
  silent (with_world m).
Proof.
  intros n n' r H. unfold with_world in H.
  destruct (m (world n)) as [r' w']. injection H as <- <-. reflexivity.
Qed.

Lemma silent_attr {A : Type} (o : option A) : silent (attr o).
Proof. destruct o; [apply silent_ret | apply silent_raise]. Qed.

Create HintDb silent.
#[local] Hint Resolve silent_ret silent_raise silent_get silent_bind
  silent_with_buffer silent_with_world silent_attr : silent.
#[local] Hint Extern 1 (silent (modify _)) =>
  apply silent_modify; intros; reflexivity : silent.
#[local] Hint Extern 2 (silent (if ?c then _ else _)) => destruct c : silent.
#[local] Hint Extern 2 (silent (modify (assign ?r _))) => destruct r : silent.

Lemma silent_generate_payload (r : PacketRef) : silent (generate_payload r).
Proof. unfold generate_payload. auto 20 with silent. Qed.

Lemma silent_getPeerPacket : silent getPeerPacket.
Proof. unfold getPeerPacket. auto 20 with silent. Qed.

Lemma silent_BaseNegotiator_versionReceived :
  silent BaseNegotiator_versionReceived.
Proof. unfold BaseNegotiator_versionReceived. auto 20 with silent. Qed.

#[local] Hint Resolve silent_generate_payload silent_getPeerPacket
  silent_BaseNegotiator_versionReceived : silent.

Lemma silent_ClientNegotiator_versionReceived :
  silent ClientNegotiator_versionReceived.
Proof. unfold ClientNegotiator_versionReceived. auto 20 with silent. Qed.

Lemma silent_ClientNegotiator_synReceived :
  silent ClientNegotiator_synReceived.
Proof. unfold ClientNegotiator_synReceived. auto with silent. Qed.

Lemma silent_ServerNegotiator_ackReceived :
  silent ServerNegotiator_ackReceived.
Proof. unfold ServerNegotiator_ackReceived. auto 20 with silent. Qed.

(** A silent step before a computation that writes last. *)
Lemma writes_last_bind {A B : Type} (m : Eff Negotiator A)
    (k : A -> Eff Negotiator B) :
  silent m -> (forall a, writes_last (k a)) -> writes_last (bind m k).
Proof.
  intros Hm Hk n n' r. unfold bind.
  destruct (m n) as [[a|e] n1] eqn:E.
  - intros Hr. pose proof (Hk a _ _ _ Hr) as H.
    rewrite (Hm _ _ _ E) in H. exact H.
  - intros [= <- <-]. apply (Hm _ _ _ E).
Qed.

Lemma writes_last_raise {A : Type} (e : exn) :
  writes_last (raise (A:=A) e).
Proof. intros n n' r [= <- <-]. reflexivity. Qed.

(** The end of [_writePacket]: the buffer is emptied, then its former
    content is handed to the observer. *)
Lemma writes_last_truncate_write (data : list byte) :
  writes_last (bind (with_buffer truncate)
                 (fun _ => observer_call (ObsWrite data))).
Proof.
  intros n n' r. unfold bind, with_buffer, truncate, observer_call, modify.
  destruct (buffer n) as [b|].
  - intros [= <- <-]. exists data. split; reflexivity.
  - intros [= <- <-]. reflexivity.
Qed.

Lemma writes_last__writePacket (r : PacketRef) : writes_last (_writePacket r).
Proof.
  unfold _writePacket.
  apply writes_last_bind; [apply silent_get|]. intros n.
  apply writes_last_bind; [apply silent_attr|]. intros p.
  apply writes_last_bind; [apply silent_with_buffer|]. intros _.
  apply writes_last_bind; [apply silent_with_buffer|]. intros data.
  apply writes_last_truncate_write.
Qed.

Lemma writes_last_writeVersionAndSyn : writes_last writeVersionAndSyn.
Proof.
  unfold writeVersionAndSyn.
  apply writes_last_bind; [apply silent_with_buffer|]. intros _.
  apply writes_last_bind; [apply silent_with_buffer|]. intros _.
  apply writes_last__writePacket.
Qed.

Lemma writes_last_writeAck : writes_last writeAck.
Proof.
  unfold writeAck, buildAckPayload.
  apply writes_last_bind; [apply silent_generate_payload|]. intros _.
  apply writes_last_bind; [apply silent_with_buffer|]. intros _.
  apply writes_last__writePacket.
Qed.

Lemma writes_last_ServerNegotiator_versionReceived :
  writes_last ServerNegotiator_versionReceived.
Proof.
  unfold ServerNegotiator_versionReceived, buildSynPayload.
  apply writes_last_bind; [apply silent_BaseNegotiator_versionReceived|].
  intros _.
  apply writes_last_bind; [apply silent_generate_payload|]. intros _.
  apply writes_last_writeVersionAndSyn.
Qed.

Lemma writes_last_ServerNegotiator_synReceived :
  writes_last ServerNegotiator_synReceived.
Proof.
  unfold ServerNegotiator_synReceived.
  apply writes_last_bind; [apply silent_get|]. intros n.
  apply writes_last_bind; [apply silent_attr|]. intros ps.
  apply writes_last_bind; [apply silent_attr|]. intros ms.
  apply writes_last_bind; [apply silent_with_world|]. intros p.
  apply writes_last_bind; [auto with silent|]. intros _.
  apply writes_last_writeAck.
Qed.

Lemma writes_last_ClientNegotiator_ackReceived :
  writes_last ClientNegotiator_ackReceived.
Proof.
  unfold ClientNegotiator_ackReceived.
  apply writes_last_bind; [apply silent_with_buffer|]. intros r.
  apply writes_last_bind; [auto with silent|]. intros _.
  apply writes_last_bind; [apply silent_get|]. intros n.
  apply writes_last_bind; [apply silent_attr|]. intros pa.
  apply writes_last_bind; [apply silent_attr|]. intros ms.
  apply writes_last_bind; [auto with silent|]. intros _.
  apply writes_last_bind; [auto with silent|]. intros _.
  apply writes_last_bind; [apply silent_attr|]. intros ps.
  apply writes_last_bind; [apply silent_with_world|]. intros p.
  apply writes_last_bind; [auto with silent|]. intros _.
  apply writes_last_writeAck.
Qed.

Lemma writes_at_most_once_silent {A : Type} (m : Eff Negotiator A) :
  silent m -> writes_at_most_once m.
Proof. intros Hm n n' r H. left. apply (Hm _ _ _ H). Qed.

Lemma writes_at_most_once_last {A : Type} (m : Eff Negotiator A) :
  writes_last m -> writes_at_most_once m.
Proof.
  intros Hm n n' r H. pose proof (Hm _ _ _ H) as Hp.
  destruct r as [a|e]; [|left; exact Hp].
  destruct Hp as (data & Ho & Hb). right. exists a, data. auto.
Qed.

Lemma writes_at_most_once_bind {A B : Type} (m : Eff Negotiator A)
    (k : A -> Eff Negotiator B) :
  silent m -> (forall a, writes_at_most_once (k a)) ->
  writes_at_most_once (bind m k).
Proof.
  intros Hm Hk n n' r. unfold bind.
  destruct (m n) as [[a|e] n1] eqn:E.
  - intros Hr. pose proof (Hk a _ _ _ Hr) as H.
    rewrite (Hm _ _ _ E) in H. exact H.
  - intros [= <- <-]. left. apply (Hm _ _ _ E).
Qed.

Lemma writes_at_most_once_then_ret {A B : Type} (m : Eff Negotiator A)
    (b : B) :
  writes_at_most_once m -> writes_at_most_once (bind m (fun _ => ret b)).
Proof.
  intros Hm n n' r. unfold bind, ret.
  destruct (m n) as [[a|e] n1] eqn:E; intros [= <- <-];
    destruct (Hm _ _ _ E) as [H|(a' & data & Hr & Ho & Hb)].
  - left. exact H.
  - right. exists b, data. auto.
  - left. exact H.
  - discriminate.
Qed.

(** The three hooks of either class write at most once. *)
Lemma writes_at_most_once_versionReceived (r : Role) :
  writes_at_most_once (versionReceived (negotiator_class r)).
Proof.
  destruct r; cbn [negotiator_class versionReceived ClientNegotiator
                   ServerNegotiator].
  - apply writes_at_most_once_silent,
      silent_ClientNegotiator_versionReceived.
  - apply writes_at_most_once_last,
      writes_last_ServerNegotiator_versionReceived.
Qed.

Lemma writes_at_most_once_synReceived (r : Role) :
  writes_at_most_once (synReceived (negotiator_class r)).
Proof.
  destruct r; cbn [negotiator_class synReceived ClientNegotiator
                   ServerNegotiator].
  - apply writes_at_most_once_silent, silent_ClientNegotiator_synReceived.
  - apply writes_at_most_once_last,
      writes_last_ServerNegotiator_synReceived.
Qed.

Lemma writes_at_most_once_ackReceived (r : Role) :
  writes_at_most_once (ackReceived (negotiator_class r)).
Proof.
  destruct r; cbn [negotiator_class ackReceived ClientNegotiator
                   ServerNegotiator].
  - apply writes_at_most_once_last,
      writes_last_ClientNegotiator_ackReceived.
  - apply writes_at_most_once_silent, silent_ServerNegotiator_ackReceived.
Qed.

(** The three stages of [_process] write at most once. *)
Lemma writes_at_most_once_process_version (r : Role) :
  writes_at_most_once (process_version (negotiator_class r)).
Proof.
  unfold process_version.
  apply writes_at_most_once_bind; [apply silent_get|]. intros n.
  destruct (not_version (peer_version n));
    [|apply writes_at_most_once_silent, silent_ret].
  apply writes_at_most_once_bind; [apply silent_with_buffer|]. intros k.
  destruct (k <? 1)%nat; [apply writes_at_most_once_silent, silent_ret|].
  apply writes_at_most_once_bind; [apply silent_with_buffer|]. intros v.
  apply writes_at_most_once_bind; [auto with silent|]. intros _.
  apply writes_at_most_once_then_ret, writes_at_most_once_versionReceived.
Qed.

Lemma writes_at_most_once_process_syn (r : Role) :
  writes_at_most_once (process_syn (negotiator_class r)).
Proof.
  unfold process_syn.
  apply writes_at_most_once_bind; [apply silent_get|]. intros n.
  destruct (negb (bool_decide (is_Some (peer_syn n))));
    [|apply writes_at_most_once_silent, silent_ret].
  apply writes_at_most_once_bind; [apply silent_getPeerPacket|]. intros p.
  apply writes_at_most_once_bind; [auto with silent|]. intros _.
  destruct (negb (bool_decide (is_Some p)));
    [apply writes_at_most_once_silent, silent_ret|].
  apply writes_at_most_once_then_ret, writes_at_most_once_synReceived.
Qed.

Lemma writes_at_most_once_process_ack (r : Role) :
  writes_at_most_once (process_ack (negotiator_class r)).
Proof.
  unfold process_ack.
  apply writes_at_most_once_bind; [apply silent_get|]. intros n.
  destruct (negb (bool_decide (is_Some (peer_ack n))));
    [|apply writes_at_most_once_silent, silent_ret].
  apply writes_at_most_once_bind; [apply silent_getPeerPacket|]. intros p.
  apply writes_at_most_once_bind; [auto with silent|]. intros _.
  destruct (negb (bool_decide (is_Some p)));
    [apply writes_at_most_once_silent, silent_ret|].
  apply writes_at_most_once_then_ret, writes_at_most_once_ackReceived.
Qed.

(** On an empty buffer no packet can be read: the stages of the syn and of
    the ack only pass or wait. *)
Lemma idles_on_empty_process_syn (cls : NegotiatorClass) :
  idles_on_empty (process_syn cls).
Proof.
  intros n n' r Hb.
  destruct (peer_syn n) as [ps|] eqn:Hps.
  - rewrite (process_syn_skip cls n ps Hps). intros [= <- <-].
    split; [exists true; reflexivity|]. split; [reflexivity | exact Hb].
  - rewrite (process_syn_short cls n empty_stream Hps Hb)
      by (unfold remaining, HANDSHAKE_LENGTH; cbn; lia).
    intros [= <- <-].
    split; [exists false; reflexivity|]. split; [reflexivity | exact Hb].
Qed.

Lemma idles_on_empty_process_ack (cls : NegotiatorClass) :
  idles_on_empty (process_ack cls).
Proof.
  intros n n' r Hb.
  destruct (peer_ack n) as [pa|] eqn:Hpa.
  - rewrite (process_ack_skip cls n pa Hpa). intros [= <- <-].
    split; [exists true; reflexivity|]. split; [reflexivity | exact Hb].
  - rewrite (process_ack_short cls n empty_stream Hpa Hb)
      by (unfold remaining, HANDSHAKE_LENGTH; cbn; lia).
    intros [= <- <-].
    split; [exists false; reflexivity|]. split; [reflexivity | exact Hb].
Qed.

(** What the end of [_process] (the stage of the ack and the success call)
    and its last two stages add to the observer: on an empty buffer at most
    a [handshakeSuccess], and in general a call shape that is a
    [handshakeFailure] exactly when the run raised. *)
Lemma process_from_ack_on_empty (cls : NegotiatorClass)
    (n n' : Negotiator) (r : result unit) :
  buffer n = Some empty_stream ->
  bind (process_ack cls) (fun go =>
    if negb go then ret tt else observer_call ObsHandshakeSuccess) n
    = (r, n') ->
  r = Ok tt /\
  (observer n' = observer n \/
   observer n' = observer n ++ [ObsHandshakeSuccess]).
Proof.
  intros Hb. unfold bind.
  destruct (process_ack cls n) as [[go|e] n1] eqn:E;
    destruct (idles_on_empty_process_ack cls _ _ _ Hb E)
      as ((a & Ha) & Ho & Hb1); [|discriminate].
  destruct go; cbn [negb]; intros [= <- <-].
  - split; [reflexivity|]. right. cbn [observer set_observer].
    rewrite Ho. reflexivity.
  - split; [reflexivity|]. left. exact Ho.
Qed.

Lemma process_from_syn_on_empty (cls : NegotiatorClass)
    (n n' : Negotiator) (r : result unit) :
  buffer n = Some empty_stream ->
  bind (process_syn cls) (fun go =>
    if negb go then ret tt else
    bind (process_ack cls) (fun go =>
      if negb go then ret tt else observer_call ObsHandshakeSuccess)) n
    = (r, n') ->
  r = Ok tt /\
  (observer n' = observer n \/
   observer n' = observer n ++ [ObsHandshakeSuccess]).
Proof.
  intros Hb. unfold bind at 1.
  destruct (process_syn cls n) as [[go|e] n1] eqn:E;
    destruct (idles_on_empty_process_syn cls _ _ _ Hb E)
      as ((a & Ha) & Ho & Hb1); [|discriminate].
  destruct go; cbn [negb].
  - intros H. destruct (process_from_ack_on_empty cls _ _ _ Hb1 H)
      as (Hr & Hobs).
    rewrite Ho in Hobs. auto.
  - intros [= <- <-]. split; [reflexivity|]. left. exact Ho.
Qed.

Lemma shaped_bind {A : Type} (m : Eff Negotiator A)
    (k : A -> Eff Negotiator unit) :
  silent m -> (forall a, shaped (k a)) -> shaped (bind m k).
Proof.
  intros Hm Hk n n' r. unfold bind.
  destruct (m n) as [[a|e] n1] eqn:E.
  - intros Hr. destruct (Hk a _ _ _ Hr) as (evs & Ho & Hsh).
    exists evs. rewrite <- (Hm _ _ _ E). auto.
  - intros [= <- <-]. exists []. rewrite app_nil_r.
    split; [apply (Hm _ _ _ E) | reflexivity].
Qed.

Lemma shaped_raise (e : exn) : shaped (raise e).
Proof.
  intros n n' r [= <- <-]. exists []. rewrite app_nil_r.
  split; reflexivity.
Qed.

Lemma shaped_from_ack (r0 : Role) :
  shaped (bind (process_ack (negotiator_class r0)) (fun go =>
    if negb go then ret tt else observer_call ObsHandshakeSuccess)).
Proof.
  intros n n' r. unfold bind.
  destruct (process_ack (negotiator_class r0) n) as [[go|e] n1] eqn:E;
    destruct (writes_at_most_once_process_ack r0 _ _ _ E)
      as [Ho|(a & data & Hr & Ho & Hb)]; try discriminate.
  - destruct go; cbn [negb]; intros [= <- <-].
    + exists [ObsHandshakeSuccess]. cbn [observer set_observer].
      rewrite Ho. split; [reflexivity|]. right. right. left. reflexivity.
    + exists []. rewrite app_nil_r. split; [exact Ho|]. left. reflexivity.
  - destruct go; cbn [negb]; intros [= <- <-].
    + exists [ObsWrite data; ObsHandshakeSuccess].
      cbn [observer set_observer]. rewrite Ho, <- app_assoc.
      split; [reflexivity|]. right. right. right. exists data. reflexivity.
    + exists [ObsWrite data]. split; [exact Ho|].
      right. left. exists data. reflexivity.
  - intros [= <- <-]. exists []. rewrite app_nil_r.
    split; [exact Ho | reflexivity].
Qed.

Lemma shaped_from_syn (r0 : Role) :
  shaped (bind (process_syn (negotiator_class r0)) (fun go =>
    if negb go then ret tt else
    bind (process_ack (negotiator_class r0)) (fun go =>
      if negb go then ret tt else observer_call ObsHandshakeSuccess))).
Proof.
  intros n n' r. unfold bind at 1.
  destruct (process_syn (negotiator_class r0) n) as [[go|e] n1] eqn:E;
    destruct (writes_at_most_once_process_syn r0 _ _ _ E)
      as [Ho|(a & data & Hr & Ho & Hb)]; try discriminate.
  - destruct go; cbn [negb].
    + intros H. destruct (shaped_from_ack r0 _ _ _ H) as (evs & Ho' & Hsh).
      exists evs. rewrite <- Ho. auto.
    + intros [= <- <-]. exists []. rewrite app_nil_r.
      split; [exact Ho|]. left. reflexivity.
  - destruct go; cbn [negb].
    + intros H.
      destruct (process_from_ack_on_empty _ _ _ _ Hb H) as (-> & [Ho'|Ho']).
      * exists [ObsWrite data]. rewrite Ho', Ho. split; [reflexivity|].
        right. left. exists data. reflexivity.
      * exists [ObsWrite data; ObsHandshakeSuccess].
        rewrite Ho', Ho, <- app_assoc. split; [reflexivity|].
        right. right. right. exists data. reflexivity.
    + intros [= <- <-]. exists [ObsWrite data]. split; [exact Ho|].
      right. left. exists data. reflexivity.
  - intros [= <- <-]. exists []. rewrite app_nil_r.
    split; [exact Ho | reflexivity].
Qed.

Lemma shaped__process (r0 : Role) : shaped (_process (negotiator_class r0)).
Proof.
  intros n n' r. unfold _process. unfold bind at 1.
  destruct (process_version (negotiator_class r0) n) as [[go|e] n1] eqn:E;
    destruct (writes_at_most_once_process_version r0 _ _ _ E)
      as [Ho|(a & data & Hr & Ho & Hb)]; try discriminate.
  - destruct go; cbn [negb].
    + intros H. destruct (shaped_from_syn r0 _ _ _ H) as (evs & Ho' & Hsh).
      exists evs. rewrite <- Ho. auto.
    + intros [= <- <-]. exists []. rewrite app_nil_r.
      split; [exact Ho|]. left. reflexivity.
  - destruct go; cbn [negb].
    + intros H.
      destruct (process_from_syn_on_empty _ _ _ _ Hb H) as (-> & [Ho'|Ho']).
      * exists [ObsWrite data]. rewrite Ho', Ho. split; [reflexivity|].
        right. left. exists data. reflexivity.
      * exists [ObsWrite data; ObsHandshakeSuccess].
        rewrite Ho', Ho, <- app_assoc. split; [reflexivity|].
        right. right. right. exists data. reflexivity.
    + intros [= <- <-]. exists [ObsWrite data]. split; [exact Ho|].
      right. left. exists data. reflexivity.
  - intros [= <- <-]. exists []. rewrite app_nil_r.
    split; [exact Ho | reflexivity].
Qed.

Lemma shaped_dataReceived_try (r0 : Role) (data : list byte) :
  shaped (dataReceived_try (negotiator_class r0) data).
Proof.
  unfold dataReceived_try.
  apply shaped_bind; [apply silent_get|]. intros n.
  apply shaped_bind; [auto with silent|]. intros _.
  apply shaped_bind; [apply silent_with_buffer|]. intros _.
  apply shaped__process.
Qed.

(** ** The same calls, on an observer that may raise *)

Lemma bind_ext {S A B : Type} (m m' : Eff S A) (k k' : A -> Eff S B)
    (s : S) :
  m s = m' s -> (forall (a : A) (s' : S), k a s' = k' a s') ->
  bind m k s = bind m' k' s.
Proof.
  intros Hm Hk. unfold bind. rewrite Hm.
  destruct (m' s) as [[a|e] s']; [apply Hk | reflexivity].
Qed.

(** The stages of [_process] depend on the class through its hooks only. *)
Lemma process_version_ext (cls cls' : NegotiatorClass) :
  (forall n, versionReceived cls n = versionReceived cls' n) ->
  forall n, process_version cls n = process_version cls' n.
Proof.
  intros H n. unfold process_version.
  apply bind_ext; [reflexivity|]. intros n0 s.
  destruct (not_version (peer_version n0)); [|reflexivity].
  apply bind_ext; [reflexivity|]. intros k s1.
  destruct (k <? 1)%nat; [reflexivity|].
  apply bind_ext; [reflexivity|]. intros v s2.
  apply bind_ext; [reflexivity|]. intros _ s3.
  apply bind_ext; [apply H | reflexivity].
Qed.

Lemma process_syn_ext (cls cls' : NegotiatorClass) :
  (forall n, synReceived cls n = synReceived cls' n) ->
  forall n, process_syn cls n = process_syn cls' n.
Proof.
  intros H n. unfold process_syn.
  apply bind_ext; [reflexivity|]. intros n0 s.
  destruct (negb (bool_decide (is_Some (peer_syn n0)))); [|reflexivity].
  apply bind_ext; [reflexivity|]. intros p s1.
  apply bind_ext; [reflexivity|]. intros _ s2.
  destruct (negb (bool_decide (is_Some p))); [reflexivity|].
  apply bind_ext; [apply H | reflexivity].
Qed.

Lemma process_ack_ext (cls cls' : NegotiatorClass) :
  (forall n, ackReceived cls n = ackReceived cls' n) ->
  forall n, process_ack cls n = process_ack cls' n.
Proof.
  intros H n. unfold process_ack.
  apply bind_ext; [reflexivity|]. intros n0 s.
  destruct (negb (bool_decide (is_Some (peer_ack n0)))); [|reflexivity].
  apply bind_ext; [reflexivity|]. intros p s1.
  apply bind_ext; [reflexivity|]. intros _ s2.
  destruct (negb (bool_decide (is_Some p))); [reflexivity|].
  apply bind_ext; [apply H | reflexivity].
Qed.

Section Returning.

(** An observer whose [write] and [handshakeSuccess] return: with it the
    body of the [try] runs as it does above. *)
Variable obs : Raising.Observer.
Hypothesis write_returns :
  forall (evs : list Event) (data : list byte),
    obs evs (ObsWrite data) = None.
Hypothesis success_returns :
  forall evs : list Event, obs evs ObsHandshakeSuccess = None.

Lemma Raising_write_eq (data : list byte) (n : Negotiator) :
  Raising.observer_call obs (ObsWrite data) n
  = observer_call (ObsWrite data) n.
Proof.
  unfold Raising.observer_call, observer_call, modify.
  rewrite write_returns. reflexivity.
Qed.

Lemma Raising_success_eq (n : Negotiator) :
  Raising.observer_call obs ObsHandshakeSuccess n
  = observer_call ObsHandshakeSuccess n.
Proof.
  unfold Raising.observer_call, observer_call, modify.
  rewrite success_returns. reflexivity.
Qed.

Lemma Raising__writePacket_eq (r : PacketRef) (n : Negotiator) :
  Raising._writePacket obs r n = _writePacket r n.
Proof.
  unfold Raising._writePacket, _writePacket.
  do 5 (apply bind_ext; [reflexivity|]; intros).
  apply Raising_write_eq.
Qed.

Lemma Raising_writeVersionAndSyn_eq (n : Negotiator) :
  Raising.writeVersionAndSyn obs n = writeVersionAndSyn n.
Proof.
  unfold Raising.writeVersionAndSyn, writeVersionAndSyn.
  do 2 (apply bind_ext; [reflexivity|]; intros).
  apply Raising__writePacket_eq.
Qed.

Lemma Raising_writeAck_eq (n : Negotiator) :
  Raising.writeAck obs n = writeAck n.
Proof.
  unfold Raising.writeAck, writeAck.
  do 2 (apply bind_ext; [reflexivity|]; intros).
  apply Raising__writePacket_eq.
Qed.

Lemma Raising_versionReceived_eq (r : Role) (n : Negotiator) :
  versionReceived (Raising.negotiator_class obs r) n
  = versionReceived (negotiator_class r) n.
Proof.
  destruct r; [reflexivity|].
  cbn [Raising.negotiator_class negotiator_class versionReceived
       Raising.ServerNegotiator ServerNegotiator].
  unfold Raising.ServerNegotiator_versionReceived,
    ServerNegotiator_versionReceived.
  do 2 (apply bind_ext; [reflexivity|]; intros).
  apply Raising_writeVersionAndSyn_eq.
Qed.

Lemma Raising_synReceived_eq (r : Role) (n : Negotiator) :
  synReceived (Raising.negotiator_class obs r) n
  = synReceived (negotiator_class r) n.
Proof.
  destruct r; [reflexivity|].
  cbn [Raising.negotiator_class negotiator_class synReceived
       Raising.ServerNegotiator ServerNegotiator].
  unfold Raising.ServerNegotiator_synReceived, ServerNegotiator_synReceived.
  do 5 (apply bind_ext; [reflexivity|]; intros).
  apply Raising_writeAck_eq.
Qed.

Lemma Raising_ackReceived_eq (r : Role) (n : Negotiator) :
  ackReceived (Raising.negotiator_class obs r) n
  = ackReceived (negotiator_class r) n.
Proof.
  destruct r; [|reflexivity].
  cbn [Raising.negotiator_class negotiator_class ackReceived
       Raising.ClientNegotiator ClientNegotiator].
  unfold Raising.ClientNegotiator_ackReceived, ClientNegotiator_ackReceived.
  do 10 (apply bind_ext; [reflexivity|]; intros).
  apply Raising_writeAck_eq.
Qed.

Lemma Raising__process_eq (r : Role) (n : Negotiator) :
  Raising._process obs (Raising.negotiator_class obs r) n
  = _process (negotiator_class r) n.
Proof.
  unfold Raising._process, _process.
  apply bind_ext;
    [apply process_version_ext, Raising_versionReceived_eq|].
  intros go1 s1. destruct (negb go1); [reflexivity|].
  apply bind_ext; [apply process_syn_ext, Raising_synReceived_eq|].
  intros go2 s2. destruct (negb go2); [reflexivity|].
  apply bind_ext; [apply process_ack_ext, Raising_ackReceived_eq|].
  intros go3 s3. destruct (negb go3); [reflexivity|].
  apply Raising_success_eq.
Qed.

Lemma Raising_dataReceived_try_eq (r : Role) (data : list byte)
    (n : Negotiator) :
  Raising.dataReceived_try obs (Raising.negotiator_class obs r) data n
  = dataReceived_try (negotiator_class r) data n.
Proof.
  unfold Raising.dataReceived_try, dataReceived_try.
  do 3 (apply bind_ext; [reflexivity|]; intros).
  apply Raising__process_eq.
Qed.

End Returning.

(** X18.  The calls of [write] and [handshakeSuccess] are made inside the
    [try] of [dataReceived], so what one call tells the observer depends on
    what these two methods do.  When they return, then for either role, in
    any state and for any data, the calls one [dataReceived] makes on the
    observer are one of: nothing; one [write]; [handshakeSuccess]; one
    [write] followed by [handshakeSuccess]; one [handshakeFailure].  So
    such a call never writes twice, never reports both a success and a
    failure, calls nothing after either, and writes nothing when it reports
    a failure; and [dataReceived] raises only what [handshakeFailure]
    itself raised. *)
Theorem dataReceived_call_shape
    (obs : Raising.Observer) (r : Role) (data : list byte)
    (n : Negotiator) :
  (forall (evs : list Event) (d : list byte),
     obs evs (ObsWrite d) = None) ->
  (forall evs : list Event, obs evs ObsHandshakeSuccess = None) ->
  exists (res : result unit) (n' : Negotiator) (evs : list Event),
    Raising.dataReceived obs (Raising.negotiator_class obs r) data n
      = (res, n') /\
    observer n' = observer n ++ evs /\
    call_shape evs /\
    (forall x : exn,
       res = Raise x ->
       exists e : exn,
         evs = [ObsHandshakeFailure e] /\
         obs (observer n) (ObsHandshakeFailure e) = Some x).
Proof.
  intros Hw Hs.
  pose proof (shaped_dataReceived_try r data n) as Hq.
  unfold Raising.dataReceived, try_except.
  rewrite (Raising_dataReceived_try_eq obs Hw Hs r data n).
  destruct (dataReceived_try (negotiator_class r) data n)
    as [[[]|e] n1] eqn:E;
    destruct (Hq _ _ eq_refl) as (evs & Ho & Hsh); cbn [try_shape] in Hsh.
  - exists (Ok tt), n1, evs. split; [reflexivity|]. split; [exact Ho|].
    split; [unfold call_shape; tauto|]. intros x Hx. discriminate.
  - subst evs. rewrite app_nil_r in Ho. unfold Raising.observer_call.
    destruct (obs (observer n1) (ObsHandshakeFailure e)) as [x0|] eqn:Eo;
      eexists; eexists; exists [ObsHandshakeFailure e];
      (split; [reflexivity|]); cbn [observer set_observer]; rewrite Ho;
      (split; [reflexivity|]);
      (split; [right; right; right; right; exists e; reflexivity|]).
    + intros x [= <-]. exists e. split; [reflexivity|].
      rewrite <- Ho. exact Eo.
    + intros x Hx. discriminate.
Qed.

(** X18, witness: the sample client, on an observer whose methods all
    return, receives an ack that echoes its syn. *)
Lemma dataReceived_call_shape_witness :
  exists (res : result unit) (n' : Negotiator) (evs : list Event),
    Raising.dataReceived Raising.returning
      (Raising.negotiator_class Raising.returning Client)
      (wire 1 0 (repeat x00 (HANDSHAKE_LENGTH - 8))) client_awaiting_ack
      = (res, n') /\
    observer n' = observer client_awaiting_ack ++ evs /\
    call_shape evs /\
    (forall x : exn,
       res = Raise x ->
       exists e : exn,
         evs = [ObsHandshakeFailure e] /\
         Raising.returning (observer client_awaiting_ack)
           (ObsHandshakeFailure e) = Some x).
Proof.
  apply (dataReceived_call_shape Raising.returning Client
           (wire 1 0 (repeat x00 (HANDSHAKE_LENGTH - 8)))
           client_awaiting_ack);
    intros; reflexivity.
Defined.

(** The assumption is needed.  The same client on an observer whose
    [handshakeSuccess] raises: the exception is caught by the [try] it was
    raised in, and the one call of [dataReceived] tells the observer a
    [write], a success and a failure. *)
Lemma Raising_success_is_followed_by_failure :
  exists n' : Negotiator,
    Raising.dataReceived Raising.failing_success
      (Raising.negotiator_class Raising.failing_success Client)
      (wire 1 0 (repeat x00 (HANDSHAKE_LENGTH - 8))) client_awaiting_ack
      = (Ok tt, n') /\
    observer n' =
      observer client_awaiting_ack ++
      [ObsWrite (wire 5 1000 (repeat x01 (HANDSHAKE_LENGTH - 8)));
       ObsHandshakeSuccess;
       ObsHandshakeFailure RuntimeError].
Proof.
  eexists. split; [vm_compute; reflexivity|]. vm_compute. reflexivity.
Qed.

(** ** What one call keeps of the negotiator *)

Section Keeps.

Variables pv ps pa : bool.

Lemma keeps_ret {A : Type} (a : A) : keeps pv ps pa (ret a).
Proof. intros n n' r [= <- <-]. auto. Qed.

Lemma keeps_raise {A : Type} (e : exn) : keeps pv ps pa (raise (A:=A) e).
Proof. intros n n' r [= <- <-]. auto. Qed.

Lemma keeps_get : keeps pv ps pa get.
Proof. intros n n' r [= <- <-]. auto. Qed.

Lemma keeps_bind {A B : Type} (m : Eff Negotiator A)
    (k : A -> Eff Negotiator B) :
  keeps pv ps pa m -> (forall a, keeps pv ps pa (k a)) ->
  keeps pv ps pa (bind m k).
Proof.
  intros Hm Hk n n' r. unfold bind.
  destruct (m n) as [[a|e] n1] eqn:E.
  - intros Hr. destruct (Hm _ _ _ E) as (H1 & H2 & H3 & H4).
    destruct (Hk a _ _ _ Hr) as (K1 & K2 & K3 & K4).
    split; [congruence|]. split; [intros p; rewrite K2, H2; auto|].
    split; intros p; [rewrite K3, H3 | rewrite K4, H4]; auto.
  - intros [= <- <-]. apply (Hm _ _ _ E).
Qed.

Lemma keeps_modify (f : Negotiator -> Negotiator) :
  (forall n, started (f n) = started n /\
             (pv = true -> peer_version (f n) = peer_version n) /\
             (ps = true -> peer_syn (f n) = peer_syn n) /\
             (pa = true -> peer_ack (f n) = peer_ack n)) ->
  keeps pv ps pa (modify f).
Proof. intros Hf n n' r [= <- <-]. apply Hf. Qed.

Lemma keeps_with_buffer {A : Type} (m : Eff BufferedByteStream A) :
  keeps pv ps pa (with_buffer m).
Proof.
  intros n n' r H. unfold with_buffer in H.
  destruct (buffer n) as [b|]; [destruct (m b) as [r' b']|];
    injection H as <- <-; auto.
Qed.

Lemma keeps_with_world {A : Type} (m : Eff World A) :
  keeps pv ps pa (with_world m).
Proof.
  intros n n' r H. unfold with_world in H.
  destruct (m (world n)) as [r' w']. injection H as <- <-. auto.
Qed.

Lemma keeps_attr {A : Type} (o : option A) : keeps pv ps pa (attr o).
Proof. destruct o; [apply keeps_ret | apply keeps_raise]. Qed.

Lemma keeps_observer_call (e : Event) : keeps pv ps pa (observer_call e).
Proof. intros n n' r [= <- <-]. auto. Qed.

End Keeps.

Create HintDb keeps.
#[local] Hint Resolve keeps_ret keeps_raise keeps_get keeps_bind
  keeps_with_buffer keeps_with_world keeps_attr keeps_observer_call : keeps.
#[local] Hint Extern 1 (keeps _ _ _ (modify _)) =>
  apply keeps_modify; intros; cbn; repeat split; intros;
  solve [reflexivity | discriminate] : keeps.
#[local] Hint Extern 2 (keeps _ _ _ (if ?c then _ else _)) =>
  destruct c : keeps.
#[local] Hint Extern 2 (keeps _ _ _ (modify (assign ?r _))) =>
  destruct r : keeps.

Lemma keeps_generate_payload (pv ps pa : bool) (r : PacketRef) :
  keeps pv ps pa (generate_payload r).
Proof. unfold generate_payload. auto 20 with keeps. Qed.

Lemma keeps__writePacket (pv ps pa : bool) (r : PacketRef) :
  keeps pv ps pa (_writePacket r).
Proof. unfold _writePacket. auto 20 with keeps. Qed.

#[local] Hint Resolve keeps_generate_payload keeps__writePacket : keeps.

Lemma keeps_writeVersionAndSyn (pv ps pa : bool) :
  keeps pv ps pa writeVersionAndSyn.
Proof. unfold writeVersionAndSyn. auto 20 with keeps. Qed.

Lemma keeps_writeAck (pv ps pa : bool) : keeps pv ps pa writeAck.
Proof. unfold writeAck, buildAckPayload. auto 20 with keeps. Qed.

Lemma keeps_getPeerPacket (pv ps pa : bool) : keeps pv ps pa getPeerPacket.
Proof. unfold getPeerPacket. auto 20 with keeps. Qed.

Lemma keeps_BaseNegotiator_versionReceived (pv ps pa : bool) :
  keeps pv ps pa BaseNegotiator_versionReceived.
Proof. unfold BaseNegotiator_versionReceived. auto 20 with keeps. Qed.

#[local] Hint Resolve keeps_writeVersionAndSyn keeps_writeAck
  keeps_getPeerPacket keeps_BaseNegotiator_versionReceived : keeps.

(** The hooks of either class assign none of the four attributes. *)
Lemma keeps_versionReceived (pv ps pa : bool) (r : Role) :
  keeps pv ps pa (versionReceived (negotiator_class r)).
Proof.
  destruct r; cbn [negotiator_class versionReceived ClientNegotiator
                   ServerNegotiator].
  - unfold ClientNegotiator_versionReceived. auto 20 with keeps.
  - unfold ServerNegotiator_versionReceived, buildSynPayload.
    auto 20 with keeps.
Qed.

Lemma keeps_synReceived (pv ps pa : bool) (r : Role) :
  keeps pv ps pa (synReceived (negotiator_class r)).
Proof.
  destruct r; cbn [negotiator_class synReceived ClientNegotiator
                   ServerNegotiator].
  - unfold ClientNegotiator_synReceived. auto with keeps.
  - unfold ServerNegotiator_synReceived. auto 20 with keeps.
Qed.

Lemma keeps_ackReceived (pv ps pa : bool) (r : Role) :
  keeps pv ps pa (ackReceived (negotiator_class r)).
Proof.
  destruct r; cbn [negotiator_class ackReceived ClientNegotiator
                   ServerNegotiator].
  - unfold ClientNegotiator_ackReceived. auto 30 with keeps.
  - unfold ServerNegotiator_ackReceived. auto 20 with keeps.
Qed.

#[local] Hint Resolve keeps_versionReceived keeps_synReceived
  keeps_ackReceived : keeps.

Lemma progress_refl (n : Negotiator) : progress n n.
Proof. unfold progress. auto. Qed.

Lemma progress_trans (n1 n2 n3 : Negotiator) :
  progress n1 n2 -> progress n2 n3 -> progress n1 n3.
Proof.
  intros (H1 & H2 & H3 & H4) (K1 & K2 & K3 & K4).
  split; [congruence|]. split; [|split].
  - intros Hv. rewrite K2, H2; auto. rewrite H2; auto.
  - intros Hs. rewrite K3, H3; auto. rewrite H3; auto.
  - intros Hs. rewrite K4, H4; auto. rewrite H4; auto.
Qed.

Lemma advances_keeps {A : Type} (m : Eff Negotiator A) :
  keeps true true true m -> advances m.
Proof.
  intros Hm n n' r H. destruct (Hm _ _ _ H) as (H1 & H2 & H3 & H4).
  unfold progress. auto.
Qed.

Lemma advances_bind {A B : Type} (m : Eff Negotiator A)
    (k : A -> Eff Negotiator B) :
  advances m -> (forall a, advances (k a)) -> advances (bind m k).
Proof.
  intros Hm Hk n n' r. unfold bind.
  destruct (m n) as [[a|e] n1] eqn:E.
  - intros Hr. apply (progress_trans _ n1); [apply (Hm _ _ _ E)|].
    apply (Hk a _ _ _ Hr).
  - intros [= <- <-]. apply (Hm _ _ _ E).
Qed.

(** Each stage assigns its attribute only when it is still missing. *)
Lemma advances_process_version (r0 : Role) :
  advances (process_version (negotiator_class r0)).
Proof.
  intros n n' r. unfold process_version. unfold bind at 1, get.
  destruct (not_version (peer_version n)) eqn:Hv.
  - intros H.
    assert (Hk : keeps false true true
              (bind (with_buffer (bind get (fun b => ret (remaining b))))
                 (fun k =>
                  if (k <? 1)%nat then ret false
                  else bind (with_buffer read_uchar) (fun v =>
                       bind (modify (set_peer_version (Some v))) (fun _ =>
                       bind (versionReceived (negotiator_class r0))
                         (fun _ => ret true)))))).
    { auto 20 with keeps. }
    destruct (Hk _ _ _ H) as (H1 & _ & H3 & H4).
    split; [exact H1|]. split; [congruence|]. split; auto.
  - intros [= <- <-]. apply progress_refl.
Qed.

Lemma advances_process_syn (r0 : Role) :
  advances (process_syn (negotiator_class r0)).
Proof.
  intros n n' r. unfold process_syn. unfold bind at 1, get.
  destruct (peer_syn n) as [p0|] eqn:Hp.
  - cbn [negb bool_decide decide_rel is_Some_dec].
    intros [= <- <-]. apply progress_refl.
  - cbn [negb bool_decide decide_rel is_Some_dec]. intros H.
    assert (Hk : keeps true false true
              (bind getPeerPacket (fun p =>
               bind (modify (set_peer_syn p)) (fun _ =>
               if negb (bool_decide (is_Some p)) then ret false
               else bind (synReceived (negotiator_class r0))
                      (fun _ => ret true))))).
    { auto 20 with keeps. }
    destruct (Hk _ _ _ H) as (H1 & H2 & _ & H4).
    split; [exact H1|]. split; [auto|]. split; [|auto].
    rewrite Hp. intros [x Hx]. discriminate.
Qed.

Lemma advances_process_ack (r0 : Role) :
  advances (process_ack (negotiator_class r0)).
Proof.
  intros n n' r. unfold process_ack. unfold bind at 1, get.
  destruct (peer_ack n) as [p0|] eqn:Hp.
  - cbn [negb bool_decide decide_rel is_Some_dec].
    intros [= <- <-]. apply progress_refl.
  - cbn [negb bool_decide decide_rel is_Some_dec]. intros H.
    assert (Hk : keeps true true false
              (bind getPeerPacket (fun p =>
               bind (modify (set_peer_ack p)) (fun _ =>
               if negb (bool_decide (is_Some p)) then ret false
               else bind (ackReceived (negotiator_class r0))
                      (fun _ => ret true))))).
    { auto 20 with keeps. }
    destruct (Hk _ _ _ H) as (H1 & H2 & H3 & _).
    split; [exact H1|]. split; [auto|]. split; [auto|].
    rewrite Hp. intros [x Hx]. discriminate.
Qed.

Lemma advances__process (r0 : Role) :
  advances (_process (negotiator_class r0)).
Proof.
  unfold _process.
  apply advances_bind; [apply advances_process_version|]. intros go1.
  destruct (negb go1); [apply advances_keeps; auto with keeps|].
  apply advances_bind; [apply advances_process_syn|]. intros go2.
  destruct (negb go2); [apply advances_keeps; auto with keeps|].
  apply advances_bind; [apply advances_process_ack|]. intros go3.
  destruct (negb go3); apply advances_keeps; auto with keeps.
Qed.

Lemma advances_dataReceived_try (r0 : Role) (data : list byte) :
  advances (dataReceived_try (negotiator_class r0) data).
Proof.
  unfold dataReceived_try.
  apply advances_bind; [apply advances_keeps; auto with keeps|]. intros n.
  apply advances_bind; [apply advances_keeps; auto with keeps|]. intros _.
  apply advances_bind; [apply advances_keeps; auto with keeps|]. intros _.
  apply advances__process.
Qed.

(** X19.  For either role, in any state and for any data, [dataReceived]
    undoes and redoes no stage of the handshake: it leaves [started] as it
    is, and a peer version (other than 0), a peer syn or a peer ack that
    the negotiator already had is still the same afterwards, whether the
    call ended in a success, in a failure or in waiting for more data. *)
Theorem dataReceived_keeps_progress
    (r : Role) (data : list byte) (n : Negotiator) :
  exists n' : Negotiator,
    dataReceived (negotiator_class r) data n = (Ok tt, n') /\
    started n' = started n /\
    (not_version (peer_version n) = false ->
     peer_version n' = peer_version n) /\
    (is_Some (peer_syn n) -> peer_syn n' = peer_syn n) /\
    (is_Some (peer_ack n) -> peer_ack n' = peer_ack n).
Proof.
  pose proof (advances_dataReceived_try r data n) as Hq.
  unfold dataReceived, try_except.
  destruct (dataReceived_try (negotiator_class r) data n)
    as [[[]|e] n1] eqn:E.
  - exists n1. split; [reflexivity|]. apply (Hq _ _ eq_refl).
  - eexists. split; [reflexivity|]. apply (Hq _ _ eq_refl).
Qed.
